(** * PSID panel construction and household-transition classification

    A shallow embedding of the Python package [psid] (modules [sample],
    [transitions], [panel], and what they use of [load] and [variables]),
    together with the properties its design document states about it.

    Conventions of the embedding.
    - A pandas cell is a [pyval]: Python's [None], a floating point NaN
      (pandas' missing marker) or an integer.  Integer-valued floats compare
      equal to the integer in Python, hence are not distinguished.
    - The rows of a DataFrame are a list, in the order of the table; its
      index is the list of the labels of the rows.  Selecting rows keeps
      their labels, [reset_index(drop=True)], [merge] and
      [concat(ignore_index=True)] number the rows anew, and [copy()] builds
      an equal table in a new object.
    - The identifier and the time column of a person-year table, and the two
      core identifiers [ER30001] and [ER30002] of the individual file, hold
      integers (no missing value) and are fields of the rows; the integer
      type pandas stores the core identifiers in is a field of the file.
    - DataFrames are mutable objects: they live in a heap, a [Panel] holds
      a reference to its table, and every pandas call that builds a table
      allocates.
    - Python exceptions are the [Raise] branch of [result]; [print] appends
      to the standard output of the world.
    - Reading the files of the data directory is left to two functions the
      development is parametrised by, [load_individual] and [load_family];
      the creation of the data directory is not represented. *)

From Stdlib Require Import ZArith Lia Ascii.
From stdpp Require Import base decidable option list strings pretty gmap sorting.

Local Open Scope Z_scope.

(** ** Python values held in table cells *)

Inductive pyval : Type :=
  | PyNone
  | PyNaN
  | PyInt (z : Z).

#[global] Instance pyval_eq_dec : EqDecision pyval.
Proof. solve_decision. Defined.

(** Python [a == b].  [None == None] holds, NaN equals nothing (itself
    included), integers compare by value. *)
Definition py_eq (a b : pyval) : bool :=
  match a, b with
  | PyNone, PyNone => true
  | PyInt x, PyInt y => x =? y
  | _, _ => false
  end.

(** Python [a != b]: the negation of [==] for these values. *)
Definition py_ne (a b : pyval) : bool := negb (py_eq a b).

(** Python [a is not None]. *)
Definition is_not_None (a : pyval) : bool :=
  match a with PyNone => false | _ => true end.

(** Python [a in (k1, ..., kn)] for a tuple of integer literals: identity or
    equality with one of the members. *)
Definition py_in (a : pyval) (tuple : list Z) : bool :=
  existsb (fun k => py_eq a (PyInt k)) tuple.

(** Python [a > 0] as pandas evaluates it on a column: false on a missing
    value. *)
Definition py_gt0 (a : pyval) : bool :=
  match a with PyInt z => 0 <? z | _ => false end.

(** A value pandas regards as missing. *)
Definition is_missing (a : pyval) : bool :=
  match a with PyInt _ => false | _ => true end.

(** ** transitions.py: the transition taxonomy and the pair classifier *)

Inductive TransitionType : Type :=
  | SAME_HOUSEHOLD
  | MARRIAGE
  | DIVORCE
  | WIDOWHOOD
  | LEAVE_PARENTAL
  | SPLITOFF
  | JOIN_HOUSEHOLD
  | MOVE_WITH_FAMILY
  | DEATH
  | BIRTH
  | OTHER.

#[global] Instance TransitionType_eq_dec : EqDecision TransitionType.
Proof. solve_decision. Defined.

(** Early return: a block of the function body either returns a value
    ([Some]) or falls through to the code after it ([None]). *)
Definition or_else {A} (block : option A) (rest : A) : A :=
  match block with Some a => a | None => rest end.

Notation "block 'otherwise' rest" := (or_else block rest)
  (at level 60, right associativity, only parsing).

(** [if marital_from is not None and marital_to is not None: ...]
    (transitions.py, lines 189-203). *)
Definition marital_block (marital_from marital_to : pyval) : option TransitionType :=
  if is_not_None marital_from && is_not_None marital_to then
    let was_unmarried := py_in marital_from [2; 4; 5] in
    let now_married := py_eq marital_to (PyInt 1) in
    if was_unmarried && now_married then Some MARRIAGE
    else
      let was_married := py_eq marital_from (PyInt 1) in
      let now_unmarried := py_in marital_to [4; 5] in
      if was_married && now_unmarried then Some DIVORCE
      else if py_eq marital_from (PyInt 1) && py_eq marital_to (PyInt 3)
           then Some WIDOWHOOD
           else None
  else None.

(** First [if rel_from is not None and rel_to is not None: ...]
    (lines 206-215). *)
Definition splitoff_block (rel_from rel_to : pyval) : option TransitionType :=
  if is_not_None rel_from && is_not_None rel_to then
    let was_child := py_eq rel_from (PyInt 3) in
    let now_head := py_eq rel_to (PyInt 1) in
    if was_child && now_head then Some LEAVE_PARENTAL
    else
      let was_not_head := py_ne rel_from (PyInt 1) in
      if was_not_head && now_head then Some SPLITOFF else None
  else None.

(** Second [if rel_from is not None and rel_to is not None: ...]
    (lines 218-222). *)
Definition join_block (rel_from rel_to : pyval) : option TransitionType :=
  if is_not_None rel_from && is_not_None rel_to then
    let was_head := py_eq rel_from (PyInt 1) in
    let now_not_head := py_ne rel_to (PyInt 1) in
    if was_head && now_not_head then Some JOIN_HOUSEHOLD else None
  else None.

(** [_classify_transition] (lines 154-225).  The two age arguments are
    accepted and never read, as in the source. *)
Definition _classify_transition
    (hh_from hh_to rel_from rel_to marital_from marital_to age_from age_to : pyval)
    : TransitionType :=
  if py_eq hh_from hh_to then SAME_HOUSEHOLD
  else
    marital_block marital_from marital_to otherwise
    splitoff_block rel_from rel_to otherwise
    join_block rel_from rel_to otherwise
    OTHER.

(** *** The decision list of the design document

    The six signals of a pair, and the ordered rule table: the first rule
    whose guard holds decides, [OTHER] when none does. *)

Record Signals : Type := mkSignals {
  household_key_from : pyval;
  household_key_to : pyval;
  relationship_from : pyval;
  relationship_to : pyval;
  marital_from : pyval;
  marital_to : pyval
}.

Definition both_present (a b : pyval) : bool := is_not_None a && is_not_None b.

Definition marital_present (s : Signals) : bool :=
  both_present (marital_from s) (marital_to s).

Definition relationship_present (s : Signals) : bool :=
  both_present (relationship_from s) (relationship_to s).

Definition code_is (a : pyval) (k : Z) : bool := py_eq a (PyInt k).

Definition rule_1 (s : Signals) : bool :=
  py_eq (household_key_from s) (household_key_to s).

Definition rule_2a (s : Signals) : bool :=
  marital_present s
  && (code_is (marital_from s) 2 || code_is (marital_from s) 4 || code_is (marital_from s) 5)
  && code_is (marital_to s) 1.

Definition rule_2b (s : Signals) : bool :=
  marital_present s
  && code_is (marital_from s) 1
  && (code_is (marital_to s) 4 || code_is (marital_to s) 5).

Definition rule_2c (s : Signals) : bool :=
  marital_present s && code_is (marital_from s) 1 && code_is (marital_to s) 3.

Definition rule_3a (s : Signals) : bool :=
  relationship_present s
  && code_is (relationship_from s) 3 && code_is (relationship_to s) 1.

Definition rule_3b (s : Signals) : bool :=
  relationship_present s
  && negb (code_is (relationship_from s) 1) && code_is (relationship_to s) 1.

Definition rule_3c (s : Signals) : bool :=
  relationship_present s
  && code_is (relationship_from s) 1 && negb (code_is (relationship_to s) 1).

Definition marital_rules : list ((Signals -> bool) * TransitionType) :=
  [ (rule_2a, MARRIAGE); (rule_2b, DIVORCE); (rule_2c, WIDOWHOOD) ].

Definition relationship_rules : list ((Signals -> bool) * TransitionType) :=
  [ (rule_3a, LEAVE_PARENTAL); (rule_3b, SPLITOFF); (rule_3c, JOIN_HOUSEHOLD) ].

Definition decision_list : list ((Signals -> bool) * TransitionType) :=
  (rule_1, SAME_HOUSEHOLD) :: marital_rules ++ relationship_rules.

Fixpoint first_match (rules : list ((Signals -> bool) * TransitionType))
    (s : Signals) : TransitionType :=
  match rules with
  | [] => OTHER
  | (guard, category) :: rest =>
      if guard s then category else first_match rest s
  end.

(** The classifier applied to a signal record. *)
Definition classify (s : Signals) (age_from age_to : pyval) : TransitionType :=
  _classify_transition (household_key_from s) (household_key_to s)
    (relationship_from s) (relationship_to s)
    (marital_from s) (marital_to s) age_from age_to.

(** The eight categories the classifier can produce. *)
Definition produced_categories : list TransitionType :=
  [ SAME_HOUSEHOLD; MARRIAGE; DIVORCE; WIDOWHOOD;
    LEAVE_PARENTAL; SPLITOFF; JOIN_HOUSEHOLD; OTHER ].

(** ** sample.py: sample strata from the 1968 interview number *)

Inductive SampleType : Type :=
  | SRC
  | SEO
  | IMMIGRANT
  | LATINO
  | UNKNOWN.

#[global] Instance SampleType_eq_dec : EqDecision SampleType.
Proof. solve_decision. Defined.

(** [SAMPLE_RANGES]: a dict, iterated in insertion order; each stratum
    owns a list of inclusive [(low, high)] ranges. *)
Definition SAMPLE_RANGES : list (SampleType * list (Z * Z)) :=
  [ (SRC, [ (1, 2999) ]);
    (SEO, [ (5001, 6872) ]);
    (IMMIGRANT, [ (3001, 3511); (4001, 4462); (7001, 9308) ]) ].

(** [low <= er30001 <= high]. *)
Definition in_range (er30001 : Z) (range : Z * Z) : bool :=
  (fst range <=? er30001) && (er30001 <=? snd range).

(** The inner loop [for low, high in ranges]: true when it returns. *)
Fixpoint scan_ranges (er30001 : Z) (ranges : list (Z * Z)) : bool :=
  match ranges with
  | [] => false
  | range :: rest => if in_range er30001 range then true else scan_ranges er30001 rest
  end.

(** The outer loop [for sample_type, ranges in SAMPLE_RANGES.items()],
    followed by [return SampleType.UNKNOWN]. *)
Fixpoint scan_samples (er30001 : Z) (items : list (SampleType * list (Z * Z)))
    : SampleType :=
  match items with
  | [] => UNKNOWN
  | (sample_type, ranges) :: rest =>
      if scan_ranges er30001 ranges then sample_type else scan_samples er30001 rest
  end.

Definition get_sample_type (er30001 : Z) : SampleType :=
  scan_samples er30001 SAMPLE_RANGES.

(** A documented range of a stratum contains the code. *)
Definition documented (sample_type : SampleType) (code : Z) : Prop :=
  exists ranges low high,
    (sample_type, ranges) ∈ SAMPLE_RANGES /\ (low, high) ∈ ranges /\
    low <= code <= high.

(** ** The person identifier

    [ind["person_id"] = ind["ER30001"] * 1000 + ind["ER30002"]]
    (panel.py line 260, load.py line 284), one row at a time.  pandas
    computes the column in the integer types of the two columns: the
    product in the type of [ER30001] (the literal 1000 adapts to it), the
    sum in the wider of the two types, and an overflow wraps around
    silently.  The two types are given by their widths in bits: 16, 32 or 64
    for [ER30001], as [read_stata] and [to_numeric] make them, and 8 as
    well for [ER30002]. *)

(** The value a signed integer type of [bits] bits holds in place of [z]:
    two's complement wrap-around. *)
Definition wrap (bits : Z) (z : Z) : Z :=
  (z + 2 ^ (bits - 1)) mod 2 ^ bits - 2 ^ (bits - 1).

(** The integers a signed integer type of [bits] bits holds. *)
Definition fits (bits : Z) (z : Z) : Prop :=
  - 2 ^ (bits - 1) <= z < 2 ^ (bits - 1).

Definition resolve_identity (bits1 bits2 : Z) (er30001 er30002 : Z) : Z :=
  wrap (Z.max bits1 bits2) (wrap bits1 (er30001 * 1000) + er30002).

(** ** Tables

    An observation is one person-year row.  The identifier and the time
    column hold integers ([build_panel] computes the first and tags the
    rows with the second) and are fields of the row; the other columns are
    named cells.  Requests for a column by name are resolved among the
    cells. *)

Record Observation : Type := mkObservation {
  person_id : Z;
  year : Z;
  cells : list (string * pyval)
}.

(** A DataFrame: the names of its value columns, the labels of its rows
    (its index) and the rows, label and row at the same position. *)
Record DataFrame : Type := mkDataFrame {
  columns : list string;
  index : list Z;
  rows : list Observation
}.

(** The rows with their labels. *)
Definition labelled (df : DataFrame) : list (Observation * Z) :=
  zip (rows df) (index df).

(** A [RangeIndex]: the labels [0, ..., n - 1]. *)
Definition RangeIndex (n : nat) : list Z := Z.of_nat <$> seq 0 n.

(** [df.reset_index(drop=True)]. *)
Definition reset_index (df : DataFrame) : DataFrame :=
  {| columns := columns df; index := RangeIndex (length (rows df)); rows := rows df |}.

(** [df[mask]] for a boolean column [mask] computed row by row: the rows
    that pass, under their labels. *)
Definition select_rows (P : Observation -> Prop) `{!forall row, Decision (P row)}
    (df : DataFrame) : DataFrame :=
  {| columns := columns df;
     index := snd <$> filter (fun r : Observation * Z => P r.1) (labelled df);
     rows := filter P (rows df) |}.

Fixpoint lookup_cell (col : string) (cs : list (string * pyval)) : option pyval :=
  match cs with
  | [] => None
  | (name, v) :: rest => if decide (name = col) then Some v else lookup_cell col rest
  end.

Fixpoint set_cell (col : string) (v : pyval) (cs : list (string * pyval))
    : list (string * pyval) :=
  match cs with
  | [] => [(col, v)]
  | (name, w) :: rest =>
      if decide (name = col) then (name, v) :: rest
      else (name, w) :: set_cell col v rest
  end.

(** [row.get(col, None)], also [row.get(col)]. *)
Definition row_get (row : Observation) (col : string) : pyval :=
  default PyNone (lookup_cell col (cells row)).

Definition with_cells (f : list (string * pyval) -> list (string * pyval))
    (row : Observation) : Observation :=
  {| person_id := person_id row; year := year row; cells := f (cells row) |}.

(** [df[name] = values]: the column is replaced, or added as the last
    one. *)
Definition set_column (name : string) (values : list pyval) (df : DataFrame)
    : DataFrame :=
  {| columns := if decide (name ∈ columns df) then columns df
                else columns df ++ [name];
     index := index df;
     rows := zip_with (fun row v => with_cells (set_cell name v) row) (rows df) values |}.

(** [df[names]], the id and time columns being kept. *)
Definition select_columns (names : list string) (df : DataFrame) : DataFrame :=
  {| columns := names;
     index := index df;
     rows := with_cells (fun cs => (fun c => (c, default PyNone (lookup_cell c cs))) <$> names)
               <$> rows df |}.

(** [df.dropna(subset=[name])]. *)
Definition dropna (name : string) (df : DataFrame) : DataFrame :=
  select_rows (fun row => is_missing (row_get row name) = false) df.

(** [df.rename(columns=...)], the mapping given as a function on names. *)
Definition rename_columns (f : string -> string) (df : DataFrame) : DataFrame :=
  {| columns := f <$> columns df;
     index := index df;
     rows := with_cells (fmap (prod_map f id)) <$> rows df |}.

(** [df.drop(columns=names)]. *)
Definition drop_columns (names : list string) (df : DataFrame) : DataFrame :=
  {| columns := filter (fun c => c ∉ names) (columns df);
     index := index df;
     rows := with_cells (filter (fun cell => cell.1 ∉ names)) <$> rows df |}.

(** *** Sorting and grouping *)

(** The order of [sort_values([id_col, time_col])]. *)
Definition by_id_time (r1 r2 : Observation) : Prop :=
  person_id r1 < person_id r2 \/ (person_id r1 = person_id r2 /\ year r1 <= year r2).

(** The order of [sort_values(time_col)]. *)
Definition by_time (r1 r2 : Observation) : Prop := year r1 <= year r2.

#[global] Instance by_id_time_dec : RelDecision by_id_time.
Proof. intros r1 r2. unfold by_id_time. apply _. Defined.

#[global] Instance by_time_dec : RelDecision by_time.
Proof. intros r1 r2. unfold by_time. apply _. Defined.

(** The order of a sort, on rows with their labels. *)
Definition on_rows (R : relation Observation) : relation (Observation * Z) :=
  fun r1 r2 => R r1.1 r2.1.

#[global] Instance on_rows_dec (R : relation Observation) `{!RelDecision R} :
  RelDecision (on_rows R).
Proof. intros r1 r2. unfold on_rows. apply _. Defined.

(** [sort_values]: a merge sort; the labels follow their rows.  (pandas'
    default for a single key is not stable; rows with equal keys may come in
    another order there.) *)
Definition sort_values (R : relation Observation) `{!RelDecision R}
    (df : DataFrame) : DataFrame :=
  {| columns := columns df;
     index := snd <$> merge_sort (on_rows R) (labelled df);
     rows := merge_sort R (rows df) |}.

(** The rows of one person, in table order. *)
Definition person_rows (i : Z) (l : list Observation) : list Observation :=
  filter (fun row => person_id row = i) l.

(** The keys of [groupby(id_col)], sorted as pandas sorts them. *)
Definition group_keys (l : list Observation) : list Z :=
  merge_sort Z.le (remove_dups (person_id <$> l)).

(** [df.groupby(id_col)]: the key and rows of every group. *)
Definition groupby (l : list Observation) : list (Z * list Observation) :=
  (fun i => (i, person_rows i l)) <$> group_keys l.

(** [Series.nunique()] on integers. *)
Definition nunique (values : list Z) : nat := length (remove_dups values).

(** [df.groupby(id_col)[col].shift(-1)]: for every row the value the next
    row of the same group holds, NaN on the last row of a group. *)
Definition next_in_group (i : Z) (rest : list Observation) : option Observation :=
  head (person_rows i rest).

Fixpoint group_shift (get : Observation -> pyval) (l : list Observation)
    : list pyval :=
  match l with
  | [] => []
  | row :: rest =>
      from_option get PyNaN (next_in_group (person_id row) rest)
      :: group_shift get rest
  end.

(** ** Objects, exceptions and output *)

Definition loc : Type := positive.

Inductive exn : Type :=
  | ValueError (msg : string)
  | TypeError (msg : string)
  | KeyError (key : string)
  | IndexError
  | FileNotFoundError (msg : string).

(** What [print] writes. *)
Inductive Printed : Type :=
  | LoadingIndividual
  | FilteringSample
  | AfterSampleFilter (n : nat)
  | Processing (year : Z)
  | Warning (e : string)
  | PersonYearRecords (n : nat)
  | PanelSize (n_individuals n_years : nat)
  | PanelYears (years : list Z).

Record World : Type := mkWorld {
  heap : gmap loc DataFrame;
  stdout : list Printed
}.

Inductive result (A : Type) : Type :=
  | Ok (a : A)
  | Raise (e : exn).
Arguments Ok {A} a.
Arguments Raise {A} e.

(** A computation: it reads and updates the world, and returns or raises. *)
Definition M (A : Type) : Type := World -> result A * World.

#[global] Instance M_ret : MRet M := fun A a w => (Ok a, w).

#[global] Instance M_bind : MBind M := fun A B f m w =>
  match m w with
  | (Ok a, w') => f a w'
  | (Raise e, w') => (Raise e, w')
  end.

Definition raise {A} (e : exn) : M A := fun w => (Raise e, w).

Definition print (line : Printed) : M unit := fun w =>
  (Ok tt, {| heap := heap w; stdout := stdout w ++ [line] |}).

(** A new DataFrame object. *)
Definition alloc (df : DataFrame) : M loc := fun w =>
  let l := fresh (dom (heap w)) in
  (Ok l, {| heap := <[l := df]> (heap w); stdout := stdout w |}).

(** The table a reference denotes.  A live reference always denotes one;
    the error branch stands for the use of a reference that was never
    allocated. *)
Definition read (l : loc) : M DataFrame := fun w =>
  match heap w !! l with
  | Some df => (Ok df, w)
  | None => (Raise (KeyError "no such object"), w)
  end.

(** In-place update of a DataFrame object. *)
Definition write (l : loc) (df : DataFrame) : M unit := fun w =>
  (Ok tt, {| heap := <[l := df]> (heap w); stdout := stdout w |}).

(** [for x in l: acc = body(acc, x)]. *)
Fixpoint for_each {A B} (body : B -> A -> M B) (l : list A) (acc : B) : M B :=
  match l with
  | [] => mret acc
  | x :: rest => acc' ← body acc x; for_each body rest acc'
  end.

(** ** panel.py: the Panel *)

Record Panel : Type := mkPanel {
  data : loc;
  id_col : string;
  time_col : string;
  _value_cols : list string
}.

(** [Panel(data=..., id_col=..., time_col=...)] with [__post_init__]. *)
Definition Panel_new (data : loc) (id_col time_col : string) : M Panel :=
  df ← read data;
  let exclude := [id_col; time_col; "interview_number"; "sequence"] in
  mret {| data := data; id_col := id_col; time_col := time_col;
          _value_cols := filter (fun c => c ∉ exclude) (columns df) |}.

(** [self.data[self.id_col].nunique()]. *)
Definition n_individuals (self : Panel) : M nat :=
  df ← read (data self);
  mret (nunique (person_id <$> rows df)).

Definition n_years (self : Panel) : M nat :=
  df ← read (data self);
  mret (nunique (year <$> rows df)).

(** [sorted(self.data[self.time_col].unique())]. *)
Definition years (self : Panel) : M (list Z) :=
  df ← read (data self);
  mret (merge_sort Z.le (remove_dups (year <$> rows df))).

(** [Panel.get_transitions] (panel.py, lines 78-117).  The value part of
    [result_cols] is threaded through the loop; the id and time columns
    head the list throughout, so that [insert(2, "year_t1")] puts the new
    name in front of the value part. *)
Definition get_transitions (cols : option (list string)) (self : Panel) : M loc :=
  let cols := match cols with
              | Some (c :: cs) => c :: cs
              | _ => _value_cols self
              end in
  table ← read (data self);
  copy ← alloc table;
  copied ← read copy;
  df ← alloc (sort_values by_id_time copied);
  result_cols ← for_each (fun result_cols col =>
      current ← read df;
      if decide (col ∈ columns current) then
        write df (set_column (col +:+ "_t1")
                    (group_shift (fun row => row_get row col) (rows current))
                    current);;
        mret (result_cols ++ [col; col +:+ "_t1"])
      else mret result_cols) cols [];
  current ← read df;
  write df (set_column "year_t1"
              (group_shift (fun row => PyInt (year row)) (rows current)) current);;
  let result_cols := "year_t1" :: result_cols in
  current ← read df;
  result ← alloc (dropna "year_t1" (select_columns result_cols current));
  selected ← read result;
  current ← read df;
  let rename := fun c =>
    if decide (c ∈ cols /\ c ∈ columns current) then c +:+ "_t" else c in
  alloc (rename_columns rename selected).

(** [idxmax] of the time column of a group: the first row holding the
    largest year, with its label. *)
Fixpoint idxmax (group : list (Observation * Z)) : option (Observation * Z) :=
  match group with
  | [] => None
  | r :: rest =>
      match idxmax rest with
      | Some best => if decide (year r.1 < year best.1) then Some best else Some r
      | None => Some r
      end
  end.

(** [df.groupby(id_col)[time_col].idxmax()]: for every group, in the order
    of the keys, the label of its latest row. *)
Definition groupby_idxmax (df : DataFrame) : list Z :=
  omap (fun i => snd <$> idxmax (filter (fun r : Observation * Z => person_id r.1 = i)
                                   (labelled df)))
       (group_keys (rows df)).

(** [df.loc[labels]] for a list of labels: for every label of the list, in
    order, every row of the table that bears it. *)
Definition loc_labels (labels : list Z) (df : DataFrame) : DataFrame :=
  let located :=
    flat_map (fun label => filter (fun r : Observation * Z => r.2 = label) (labelled df))
             labels in
  {| columns := columns df; index := snd <$> located; rows := fst <$> located |}.

(** [Panel.to_cross_section] (lines 119-133). *)
Definition to_cross_section (year_arg : option Z) (self : Panel) : M loc :=
  df ← read (data self);
  match year_arg with
  | Some y =>
      selected ← alloc (select_rows (fun row => year row = y) df);
      copy ← read selected;
      alloc copy
  | None =>
      let idx := groupby_idxmax df in
      located ← alloc (loc_labels idx df);
      located ← read located;
      alloc (reset_index located)
  end.

(** [Panel.get_individual] (lines 135-137). *)
Definition get_individual (i : Z) (self : Panel) : M loc :=
  df ← read (data self);
  selected ← alloc (select_rows (fun row => person_id row = i) df);
  copy ← read selected;
  alloc copy.

(** [self.data[self.data[id_col].isin(valid_ids)]]. *)
Definition isin_ids (valid_ids : list Z) (df : DataFrame) : DataFrame :=
  select_rows (fun row => person_id row ∈ valid_ids) df.

(** The index of [counts[keep]]: the keys whose count passes. *)
Definition keys_where (keep : nat -> bool) (counts : list (Z * nat)) : list Z :=
  fst <$> filter (fun entry => keep entry.2 = true) counts.

(** [Panel.balanced] (lines 139-162). *)
Definition balanced (years_arg : option (list Z)) (self : Panel) : M Panel :=
  years ← match years_arg with
          | Some (y :: ys) => mret (y :: ys)
          | _ => years self
          end;
  let n_required := length years in
  df ← read (data self);
  let in_years := filter (fun row => year row ∈ years) (rows df) in
  let counts :=
    (fun group => (group.1, nunique (year <$> group.2))) <$> groupby in_years in
  let valid_ids := keys_where (fun c => Nat.eqb c n_required) counts in
  filtered ← alloc (isin_ids valid_ids df);
  filtered ← read filtered;
  reset ← alloc (reset_index filtered);
  Panel_new reset (id_col self) (time_col self).

(** [Panel.min_periods] (lines 164-188). *)
Definition min_periods (n : Z) (self : Panel) : M Panel :=
  df ← read (data self);
  let counts :=
    (fun group => (group.1, length (year <$> group.2))) <$> groupby (rows df) in
  let valid_ids := keys_where (fun c => n <=? Z.of_nat c) counts in
  filtered ← alloc (isin_ids valid_ids df);
  filtered ← read filtered;
  reset ← alloc (reset_index filtered);
  Panel_new reset (id_col self) (time_col self).

(** ** transitions.py: extraction of the transition events *)

(** One dict appended to [transitions], a row of the returned table. *)
Record TransitionRow : Type := mkTransitionRow {
  tr_person_id : Z;
  tr_year_from : Z;
  tr_year_to : Z;
  tr_type : TransitionType;
  tr_hh_from : pyval;
  tr_hh_to : pyval;
  tr_relationship_from : pyval;
  tr_relationship_to : pyval;
  tr_marital_from : pyval;
  tr_marital_to : pyval;
  tr_age_from : pyval;
  tr_age_to : pyval;
  tr_hh_changed : bool
}.

(** [row.get(col) if col else None] for an optional column name. *)
Definition optional_get (col : option string) (row : Observation) : pyval :=
  match col with
  | Some name => if decide (name = "") then PyNone else row_get row name
  | None => PyNone
  end.

(** The body of the inner loop (lines 109-149). *)
Definition transition_row (interview_col relationship_col : string)
    (marital_col age_col : option string)
    (pid : Z) (row_t row_t1 : Observation) : TransitionRow :=
  let year_from := year row_t in
  let year_to := year row_t1 in
  let hh_from := row_get row_t interview_col in
  let hh_to := row_get row_t1 interview_col in
  let rel_from := row_get row_t relationship_col in
  let rel_to := row_get row_t1 relationship_col in
  let marital_from := optional_get marital_col row_t in
  let marital_to := optional_get marital_col row_t1 in
  let age_from := optional_get age_col row_t in
  let age_to := optional_get age_col row_t1 in
  let transition_type :=
    _classify_transition hh_from hh_to rel_from rel_to
      marital_from marital_to age_from age_to in
  {| tr_person_id := pid; tr_year_from := year_from; tr_year_to := year_to;
     tr_type := transition_type;
     tr_hh_from := hh_from; tr_hh_to := hh_to;
     tr_relationship_from := rel_from; tr_relationship_to := rel_to;
     tr_marital_from := marital_from; tr_marital_to := marital_to;
     tr_age_from := age_from; tr_age_to := age_to;
     tr_hh_changed := py_ne hh_from hh_to |}.

(** [(group.iloc[i], group.iloc[i + 1]) for i in range(len(group) - 1)]. *)
Fixpoint adjacent_pairs {A} (l : list A) : list (A * A) :=
  match l with
  | x :: (y :: _) as rest => (x, y) :: adjacent_pairs rest
  | _ => []
  end.

(** The body of the loop over the groups (lines 103-149). *)
Definition group_transitions (interview_col relationship_col : string)
    (marital_col age_col : option string)
    (group : Z * list Observation) : list TransitionRow :=
  if decide (length group.2 < 2)%nat then []
  else
    let sorted := merge_sort by_time group.2 in
    (fun pair => transition_row interview_col relationship_col marital_col age_col
                   group.1 pair.1 pair.2)
      <$> adjacent_pairs sorted.

(** [get_household_transitions] (lines 72-151).  The returned table is a
    fresh value built from the list of dicts. *)
Definition get_household_transitions (panel : Panel)
    (interview_col relationship_col : string)
    (marital_col age_col : option string) : M (list TransitionRow) :=
  table ← read (data panel);
  copy ← alloc table;
  copied ← read copy;
  df ← alloc (sort_values by_id_time copied);
  sorted ← read df;
  mret (flat_map
          (group_transitions interview_col relationship_col marital_col age_col)
          (groupby (rows sorted))).

(** ** load.py: the column names of the individual file, by year *)

Fixpoint dict_get {V} (d : list (Z * V)) (key : Z) : option V :=
  match d with
  | [] => None
  | (k, v) :: rest => if decide (k = key) then Some v else dict_get rest key
  end.

Definition interview_cols : list (Z * string) :=
  [ (2021, "ER34501"); (2019, "ER34301"); (2017, "ER34101"); (2015, "ER33901");
    (2013, "ER33701"); (2011, "ER33501"); (2009, "ER33401"); (2007, "ER33301");
    (2005, "ER33201"); (2003, "ER33101"); (2001, "ER33001"); (1999, "ER32001");
    (1997, "ER30806"); (1996, "ER30733"); (1995, "ER30657"); (1994, "ER30570");
    (1993, "ER30498"); (1992, "ER30429"); (1991, "ER30373"); (1990, "ER30313");
    (1989, "ER30246"); (1988, "ER30188"); (1987, "ER30138"); (1986, "ER30091");
    (1985, "ER30052"); (1984, "ER30020"); (1983, "V9071"); (1982, "V8691");
    (1981, "V8351"); (1980, "V7971"); (1979, "V7571"); (1978, "V7171");
    (1977, "V6771"); (1976, "V6171"); (1975, "V5571"); (1974, "V4671");
    (1973, "V4171"); (1972, "V3171"); (1971, "V2571"); (1970, "V1971");
    (1969, "V1471"); (1968, "ER30001") ].

Definition get_interview_number_column (year : Z) : string :=
  default ("ER" +:+ pretty (30000 + (year - 1968) * 100 + 1))
          (dict_get interview_cols year).

Definition seq_cols : list (Z * string) :=
  [ (2021, "ER34502"); (2019, "ER34302"); (2017, "ER34102"); (2015, "ER33902");
    (2013, "ER33702"); (2011, "ER33502"); (2009, "ER33402"); (2007, "ER33302");
    (2005, "ER33202"); (2003, "ER33102"); (2001, "ER33002"); (1999, "ER32002");
    (1997, "ER30807") ].

Definition get_sequence_number_column (year : Z) : string :=
  default "" (dict_get seq_cols year).

Definition rel_cols : list (Z * string) :=
  [ (2021, "ER34503"); (2019, "ER34303"); (2017, "ER34103"); (2015, "ER33903");
    (2013, "ER33703"); (2011, "ER33503"); (2009, "ER33403"); (2007, "ER33303");
    (2005, "ER33203"); (2003, "ER33103"); (2001, "ER33003"); (1999, "ER32003");
    (1997, "ER30808") ].

Definition get_relationship_column (year : Z) : string :=
  default "" (dict_get rel_cols year).

(** ** variables.py: family variable specifications *)

(** [FamilyVars.specs]: friendly name to the codes by year. *)
Definition FamilyVars : Type := list (string * list (Z * string)).

Definition get_codes (family_vars : FamilyVars) (year : Z) : list (string * string) :=
  omap (fun spec => code ← dict_get spec.2 year; Some (spec.1, code)) family_vars.

Definition get_columns (family_vars : FamilyVars) (year : Z) : list string :=
  snd <$> get_codes family_vars year.

(** [{v: k for k, v in codes.items()}.get(code)]: the last entry with the
    code decides. *)
Definition code_to_name (codes : list (string * string)) (code : string)
    : option string :=
  fst <$> last (filter (fun entry => entry.2 = code) codes).

(** [str.upper] on ASCII letters. *)
Definition upper_ascii (c : ascii) : ascii :=
  let n := nat_of_ascii c in
  if decide (97 <= n <= 122)%nat then ascii_of_nat (n - 32) else c.

Fixpoint upper (s : string) : string :=
  match s with
  | EmptyString => EmptyString
  | String c rest => String (upper_ascii c) (upper rest)
  end.

(** ** The individual file and the family files *)

(** A row of the cumulative individual file: the two core identifiers
    and the other columns, by name. *)
Record Individual : Type := mkIndividual {
  ER30001 : Z;
  ER30002 : Z;
  ind_cells : list (string * pyval)
}.

(** The individual file as [load_individual] returns it: the names of its
    columns (the core columns among them, when the file has them), the
    widths of the integer types of the two core columns, and the rows. *)
Record IndividualFile : Type := mkIndividualFile {
  ind_columns : list string;
  ER30001_bits : Z;
  ER30002_bits : Z;
  ind_rows : list Individual
}.

(** The value a row holds in a column. *)
Definition ind_value (p : Individual) (col : string) : pyval :=
  if decide (col = "ER30001") then PyInt (ER30001 p)
  else if decide (col = "ER30002") then PyInt (ER30002 p)
  else default PyNone (lookup_cell col (ind_cells p)).

(** A family file as [load_family] returns it: ordered columns, every row
    a list of named cells in that order. *)
Record FamilyFile : Type := mkFamilyFile {
  fam_columns : list string;
  fam_rows : list (list (string * pyval))
}.

(** ** sample.py: the sample argument and the filter *)

(** [SampleType.value].  Every member is named by its value. *)
Definition SampleType_value (t : SampleType) : string :=
  match t with
  | SRC => "SRC"
  | SEO => "SEO"
  | IMMIGRANT => "IMMIGRANT"
  | LATINO => "LATINO"
  | UNKNOWN => "UNKNOWN"
  end.

Definition SampleType_members : list SampleType :=
  [SRC; SEO; IMMIGRANT; LATINO; UNKNOWN].

(** [SampleType[name]]: the member of that name; [KeyError(name)] when
    there is none. *)
Definition SampleType_getitem (name : string) : result SampleType :=
  match filter (fun t => SampleType_value t = name) SampleType_members with
  | t :: _ => Ok t
  | [] => Raise (KeyError name)
  end.

(** The values the [sample] argument is given: [None], a string, a member
    of [SampleType], a list of strings and members, or something else
    (shown in the error message by its [str]). *)
Inductive SampleItem : Type :=
  | ItemStr (s : string)
  | ItemType (t : SampleType).

Inductive SampleArg : Type :=
  | ArgNone
  | ArgStr (s : string)
  | ArgType (t : SampleType)
  | ArgList (items : list SampleItem)
  | ArgOther (shown : string).

(** The loop of [_parse_sample_arg] over a list (lines 84-90). *)
Fixpoint parse_items (items : list SampleItem) (parsed : list SampleType)
    : result (list SampleType) :=
  match items with
  | [] => Ok parsed
  | ItemStr s :: rest =>
      match SampleType_getitem (upper s) with
      | Ok t => parse_items rest (parsed ++ [t])
      | Raise e => Raise e
      end
  | ItemType t :: rest => parse_items rest (parsed ++ [t])
  end.

(** [_parse_sample_arg] (sample.py, lines 63-92). *)
Definition _parse_sample_arg (sample : SampleArg)
    : result (option (list SampleType)) :=
  match sample with
  | ArgNone => Ok None
  | ArgStr s =>
      match SampleType_getitem (upper s) with
      | Ok t => Ok (Some [t])
      | Raise e => Raise e
      end
  | ArgType t => Ok (Some [t])
  | ArgList items =>
      match parse_items items [] with
      | Ok parsed => Ok (Some parsed)
      | Raise e => Raise e
      end
  | ArgOther shown => Raise (ValueError ("Invalid sample type: " +:+ shown))
  end.

(** The frame [filter_by_sample] returns: the rows of the individual file
    it keeps and, when the column was attached, the [sample_type] label of
    every row. *)
Record SampleFrame : Type := mkSampleFrame {
  sf_columns : list string;
  sf_rows : list Individual;
  sf_sample_type : option (list string)
}.

(** [int(x)] on the value of a cell. *)
Definition py_int (x : pyval) : result Z :=
  match x with
  | PyInt z => Ok z
  | PyNaN => Raise (ValueError "cannot convert float NaN to integer")
  | PyNone =>
      Raise (TypeError
        "int() argument must be a string, a bytes-like object or a real number, not 'NoneType'")
  end.

(** [column.apply(lambda x: get_sample_type(int(x)).value)], row after
    row: the first value that is no integer raises. *)
Fixpoint apply_sample_type (er30001_col : string) (l : list Individual)
    : result (list string) :=
  match l with
  | [] => Ok []
  | p :: rest =>
      match py_int (ind_value p er30001_col) with
      | Ok z =>
          match apply_sample_type er30001_col rest with
          | Ok labels => Ok (SampleType_value (get_sample_type z) :: labels)
          | Raise e => Raise e
          end
      | Raise e => Raise e
      end
  end.

(** [df[er30001_col].apply(...)] (lines 123-126): a [KeyError] when the
    frame has no such column. *)
Definition sample_type_column (df : IndividualFile) (er30001_col : string)
    : result (list string) :=
  if decide (er30001_col ∈ ind_columns df)
  then apply_sample_type er30001_col (ind_rows df)
  else Raise (KeyError er30001_col).

(** [filter_by_sample] (lines 95-134), from the argument as the caller
    gives it.  The rows are labelled first, the argument is parsed
    afterwards.  [df.copy()] is the frame the function works on; the
    caller's frame is not touched. *)
Definition filter_by_sample_arg (df : IndividualFile) (sample : SampleArg)
    (er30001_col : string) (add_column : bool) : result SampleFrame :=
  let sample_is_not_None := match sample with ArgNone => false | _ => true end in
  let labelled :=
    if add_column || sample_is_not_None
    then match sample_type_column df er30001_col with
         | Ok labels => Ok (Some labels)
         | Raise e => Raise e
         end
    else Ok None in
  match labelled with
  | Raise e => Raise e
  | Ok labels =>
      match _parse_sample_arg sample with
      | Raise e => Raise e
      | Ok None =>
          Ok {| sf_columns := ind_columns df; sf_rows := ind_rows df;
                sf_sample_type := labels |}
      | Ok (Some sample_types) =>
          let sample_values := SampleType_value <$> sample_types in
          match labels with
          | Some labels =>
              let kept := filter (fun row : Individual * string => row.2 ∈ sample_values)
                            (zip (ind_rows df) labels) in
              Ok {| sf_columns := ind_columns df; sf_rows := fst <$> kept;
                    sf_sample_type := Some (snd <$> kept) |}
          | None => Raise (KeyError "sample_type")
          end
      end
  end.

(** The individual file [filter_by_sample] leaves for a parsed sample
    argument, the labels being read off [ER30001].  The [sample_type] label
    column is not among the columns [build_panel] selects afterwards and is
    not represented. *)
Definition filter_by_sample (sample : list SampleType) (ind : IndividualFile)
    : IndividualFile :=
  {| ind_columns := ind_columns ind;
     ER30001_bits := ER30001_bits ind;
     ER30002_bits := ER30002_bits ind;
     ind_rows := filter (fun p => get_sample_type (ER30001 p) ∈ sample) (ind_rows ind) |}.

(** A string of ASCII characters: on these [upper] is [str.upper]. *)
Fixpoint is_ascii (s : string) : bool :=
  match s with
  | EmptyString => true
  | String c rest => (nat_of_ascii c <? 128)%nat && is_ascii rest
  end.

(** An item of the list names the stratum [t]. *)
Definition item_names (item : SampleItem) (t : SampleType) : Prop :=
  match item with
  | ItemStr s => upper s = SampleType_value t
  | ItemType t' => t' = t
  end.

Definition item_is_ascii (item : SampleItem) : bool :=
  match item with
  | ItemStr s => is_ascii s
  | ItemType _ => true
  end.

(** ** panel.py: [build_panel] *)

(** A row of [ind_year]: the person identifier and the selected cells. *)
Record PersonYear : Type := mkPersonYear {
  py_person_id : Z;
  py_cells : list (string * pyval)
}.

(** [ind_cols] (lines 274-280): the core columns, and the interview,
    sequence and relationship columns of the year where the file has
    them.  ([person_id], which heads the list, is the field of the rows.) *)
Definition year_columns (ind : IndividualFile)
    (interview_col seq_col rel_col : string) : list string :=
  ["ER30001"; "ER30002"]
  ++ (if decide (interview_col ∈ ind_columns ind) then [interview_col] else [])
  ++ (if decide (seq_col <> "" /\ seq_col ∈ ind_columns ind) then [seq_col] else [])
  ++ (if decide (rel_col <> "" /\ rel_col ∈ ind_columns ind) then [rel_col] else []).

(** The renaming of lines 283-287, a dict: of two equal keys the later
    decides.  (An empty sequence or relationship name gives the key [""],
    which names no selected column.) *)
Definition friendly_name (interview_col seq_col rel_col c : string) : string :=
  if decide (c = rel_col /\ rel_col <> "") then "relationship"
  else if decide (c = seq_col /\ seq_col <> "") then "sequence"
  else if decide (c = interview_col) then "interview_number"
  else c.

(** [ind[ind_cols].copy().rename(columns=...)] (lines 282-287): the names
    of the columns of [ind_year], and its rows.  A column listed twice in
    [ind_cols] is selected twice. *)
Definition individual_year (ind : IndividualFile)
    (interview_col seq_col rel_col : string) : list string * list PersonYear :=
  let ind_cols := year_columns ind interview_col seq_col rel_col in
  let rename := friendly_name interview_col seq_col rel_col in
  ( rename <$> ind_cols,
    (fun p =>
       {| py_person_id :=
            resolve_identity (ER30001_bits ind) (ER30002_bits ind)
              (ER30001 p) (ER30002 p);
          py_cells := (fun c => (rename c, ind_value p c)) <$> ind_cols |})
      <$> ind_rows ind ).

(** [ind_year.merge(fam, left_on="interview_number",
    right_on="fam_interview", how="inner")], followed by the renaming of
    the family columns and [merged["year"] = year]. *)
Definition merge_year (year : Z) (rename : string -> string)
    (ind_year : list PersonYear) (fam : list (list (string * pyval)))
    : list Observation :=
  flat_map (fun p =>
    (fun family =>
       {| person_id := py_person_id p; year := year;
          cells := prod_map rename id
                     <$> (py_cells p ++ filter (fun cell => cell.1 <> "year") family) |})
    <$> filter (fun family =>
          py_eq (default PyNone (lookup_cell "interview_number" (py_cells p)))
                (default PyNone (lookup_cell "fam_interview" family)) = true) fam)
  ind_year.

(** Lines 309-328: the first column of the family file becomes
    [fam_interview], the individual rows are merged to the family rows, the
    family columns get their friendly names and the rows are tagged with
    the year.  The merged table is indexed anew. *)
Definition merge_family (year : Z) (family_vars : option FamilyVars)
    (ind_columns : list string) (ind_year : list PersonYear)
    (fam : FamilyFile) (fam_interview_col : string) : DataFrame :=
  let to_key := fun c : string =>
    if decide (c = fam_interview_col) then "fam_interview" else c in
  let keyed_rows :=
    (fun family : list (string * pyval) => prod_map to_key id <$> family)
      <$> fam_rows fam in
  let merged_columns := ind_columns ++ (to_key <$> fam_columns fam) in
  let rename := fun c : string =>
    match family_vars with
    | Some vars =>
        match last (filter (fun c' => upper c' = c) merged_columns) with
        | Some c' => default c' (code_to_name (get_codes vars year) c)
        | None => c
        end
    | None => c
    end in
  let merged := merge_year year rename ind_year keyed_rows in
  {| columns := rename <$> merged_columns;
     index := RangeIndex (length merged);
     rows := merged |}.

(** The names of a list, each once, in the order of their first
    appearance. *)
Fixpoint unique (names : list string) : list string :=
  match names with
  | [] => []
  | c :: rest => c :: filter (fun c' => c' <> c) (unique rest)
  end.

(** [pd.concat(all_years, ignore_index=True)]: the columns are the union
    of the columns of the frames, and the rows of a frame hold NaN in the
    columns their frame lacks. *)
Definition concat_frames (frames : list DataFrame) : DataFrame :=
  let all_columns := unique (flat_map columns frames) in
  let fill := fun frame : DataFrame =>
    (fun c : string => (c, PyNaN)) <$> filter (fun c => c ∉ columns frame) all_columns in
  let stacked :=
    flat_map (fun frame => with_cells (fun cs => cs ++ fill frame) <$> rows frame)
             frames in
  {| columns := all_columns;
     index := RangeIndex (length stacked);
     rows := stacked |}.

Definition core_columns_message : string :=
  "Individual file missing core ID columns (ER30001, ER30002)".

Definition no_data_message : string := "No data loaded. Check file paths and years.".

(** The message of pandas when a table is indexed by a boolean table and a
    column name occurs twice (its wording depends on the version of
    pandas). *)
Definition duplicate_labels_message : string :=
  "cannot reindex on an axis with duplicate labels".

Section BuildPanel.

(** The files of the data directory, as the loaders of load.py read them.
    [load_family] raises [FileNotFoundError] when no family file of the
    year is found. *)
Variable load_individual : string -> result IndividualFile.
Variable load_family : Z -> string -> option (list string) -> result FamilyFile.

(** One turn of the loop over [sorted(years)] (lines 265-331), [ind] being
    the individual file as it is after line 260.  [continue] leaves
    [all_years] as it is.  [ind_year["interview_number"]] is a [KeyError]
    when no column of [ind_year] bears the name, a column when one does and
    a table when two do (the wave of 1968, whose interview column is the
    core column [ER30001], already selected): indexing [ind_year] by the
    boolean table made of it raises [ValueError]. *)
Definition process_year (data_dir : string) (family_vars : option FamilyVars)
    (heads_only : bool) (ind : IndividualFile)
    (all_years : list DataFrame) (year : Z) : M (list DataFrame) :=
  print (Processing year);;
  let interview_col := get_interview_number_column year in
  let seq_col := get_sequence_number_column year in
  let rel_col := get_relationship_column year in
  let selected := individual_year ind interview_col seq_col rel_col in
  let ind_columns := selected.1 in
  let ind_year := selected.2 in
  ind_year ←
    match filter (fun c => c = "interview_number") ind_columns with
    | [] => raise (KeyError "interview_number")
    | [_] =>
        mret (filter (fun p =>
          py_gt0 (default PyNone (lookup_cell "interview_number" (py_cells p))) = true)
          ind_year)
    | _ :: _ :: _ => raise (ValueError duplicate_labels_message)
    end;
  let ind_year :=
    if heads_only && bool_decide ("sequence" ∈ ind_columns)
    then filter (fun p =>
           py_eq (default PyNone (lookup_cell "sequence" (py_cells p))) (PyInt 1) = true)
           ind_year
    else ind_year in
  let fam_cols := match family_vars with
                  | Some vars => Some (get_columns vars year)
                  | None => None
                  end in
  match load_family year data_dir fam_cols with
  | Raise (FileNotFoundError e) =>
      print (Warning e);;
      mret all_years
  | Raise e => raise e
  | Ok fam =>
      match fam_columns fam with
      | [] => raise IndexError
      | fam_interview_col :: _ =>
          let merged :=
            merge_family year family_vars ind_columns ind_year fam fam_interview_col in
          print (PersonYearRecords (length (rows merged)));;
          mret (all_years ++ [merged])
      end
  end.

(** The end of [build_panel] (lines 333-354): no year loaded is an
    error; otherwise the years are stacked into the panel. *)
Definition finish_panel (years_arg : list Z) (balanced_arg : bool)
    (all_years : list DataFrame) : M Panel :=
  match all_years with
  | [] => raise (ValueError no_data_message)
  | _ :: _ =>
      let panel_data := concat_frames all_years in
      let drop_cols := ["fam_interview"; "ER30001"; "ER30002"] in
      panel_data ← alloc (drop_columns drop_cols panel_data);
      panel ← Panel_new panel_data "person_id" "year";
      panel ← (if balanced_arg then balanced (Some years_arg) panel else mret panel);
      n ← n_individuals panel;
      k ← n_years panel;
      print (PanelSize n k);;
      ys ← years panel;
      print (PanelYears ys);;
      mret panel
  end.

(** Lines 246-257: the individual file is loaded and checked for its core
    columns and, when a sample is asked for, filtered. *)
Definition load_and_filter (data_dir : string) (sample : SampleArg)
    : M IndividualFile :=
  print LoadingIndividual;;
  ind ← match load_individual data_dir with
        | Ok ind => mret ind
        | Raise e => raise e
        end;
  (if decide ("ER30001" ∉ ind_columns ind \/ "ER30002" ∉ ind_columns ind)
   then raise (ValueError core_columns_message)
   else mret tt);;
  match sample with
  | ArgNone => mret ind
  | _ =>
      print FilteringSample;;
      match filter_by_sample_arg ind sample "ER30001" true with
      | Ok frame =>
          print (AfterSampleFilter (length (sf_rows frame)));;
          mret {| ind_columns := sf_columns frame;
                  ER30001_bits := ER30001_bits ind;
                  ER30002_bits := ER30002_bits ind;
                  ind_rows := sf_rows frame |}
      | Raise e => raise e
      end
  end.

(** [build_panel] (lines 199-354); [individual_vars] is not read by the
    function. *)
Definition build_panel (data_dir : string) (years_arg : list Z)
    (family_vars : option FamilyVars) (heads_only balanced_arg : bool)
    (sample : SampleArg) : M Panel :=
  ind ← load_and_filter data_dir sample;
  all_years ← for_each (process_year data_dir family_vars heads_only ind)
                 (merge_sort Z.le years_arg) [];
  finish_panel years_arg balanced_arg all_years.

End BuildPanel.

(** * Notions the properties are stated with *)

(** ** Outcomes of computations

    [returns m w Q]: run in the world [w], the computation [m] returns
    normally, with a value and a final world that satisfy [Q]. *)

Definition returns {A} (m : M A) (w : World) (Q : A -> World -> Prop) : Prop :=
  exists a w', m w = (Ok a, w') /\ Q a w'.

(** Every object of [w] is an object of [w'], with the table it had. *)
Definition preserved (w w' : World) : Prop :=
  forall l df, heap w !! l = Some df -> heap w' !! l = Some df.

Definition set_heap (h : gmap loc DataFrame) (w : World) : World :=
  {| heap := h; stdout := stdout w |}.

(** The outcome of an operation that builds a table: a reference that did
    not exist before, holding the table, every earlier object being left
    as it was, and nothing printed. *)
Definition new_table (w : World) (table : DataFrame) (l : loc) (w' : World) : Prop :=
  preserved w w' /\ heap w !! l = None /\ heap w' !! l = Some table /\
  stdout w' = stdout w.

Definition new_panel (w : World) (self : Panel) (table : DataFrame)
    (q : Panel) (w' : World) : Prop :=
  new_table w table (data q) w' /\
  id_col q = id_col self /\ time_col q = time_col self.

(** ** The orders of the sorts *)

#[global] Instance by_id_time_total : Total by_id_time.
Proof. intros r1 r2. unfold by_id_time. lia. Qed.

#[global] Instance by_id_time_trans : Transitive by_id_time.
Proof. intros r1 r2 r3. unfold by_id_time. lia. Qed.

#[global] Instance by_time_total : Total by_time.
Proof. intros r1 r2. unfold by_time. lia. Qed.

#[global] Instance by_time_trans : Transitive by_time.
Proof. intros r1 r2 r3. unfold by_time. lia. Qed.

(** ** The tables the Panel operations build, and what they are compared
    with *)

(** What [years or self.years] evaluates to. *)
Definition effective_years (years_arg : option (list Z)) (df : DataFrame) : list Z :=
  match years_arg with
  | Some (y :: ys) => y :: ys
  | _ => merge_sort Z.le (remove_dups (year <$> rows df))
  end.

(** The table [balanced] builds from the table of the panel. *)
Definition balanced_table (Y : list Z) (df : DataFrame) : DataFrame :=
  reset_index
    (isin_ids
       (keys_where (fun c => Nat.eqb c (length Y))
          ((fun group => (group.1, nunique (year <$> group.2)))
             <$> groupby (filter (fun row => year row ∈ Y) (rows df))))
       df).

(** The table [min_periods] builds from the table of the panel. *)
Definition min_periods_table (n : Z) (df : DataFrame) : DataFrame :=
  reset_index
    (isin_ids
       (keys_where (fun c => n <=? Z.of_nat c)
          ((fun group => (group.1, length (year <$> group.2))) <$> groupby (rows df)))
       df).

(** The distinct years, among [Y], in which person [i] is observed. *)
Definition years_within (Y : list Z) (i : Z) (df : DataFrame) : gset Z :=
  list_to_set (year <$> filter (fun row => person_id row = i /\ year row ∈ Y) (rows df)).

(** The number of observations of person [i]. *)
Definition observation_count (i : Z) (df : DataFrame) : nat :=
  length (filter (fun row => person_id row = i) (rows df)).

(** One turn of the loop of [get_transitions] over the requested columns,
    on the table and the list of result columns. *)
Definition shift_step (state : DataFrame * list string) (col : string)
    : DataFrame * list string :=
  if decide (col ∈ columns state.1)
  then (set_column (col +:+ "_t1")
          (group_shift (fun row => row_get row col) (rows state.1)) state.1,
        state.2 ++ [col; col +:+ "_t1"])
  else state.

(** What [cols or self._value_cols] evaluates to. *)
Definition effective_cols (cols : option (list string)) (self : Panel) : list string :=
  match cols with
  | Some (c :: cs) => c :: cs
  | _ => _value_cols self
  end.

(** The table with the [year_t1] column, before the selection. *)
Definition shifted_table (cols : list string) (df : DataFrame) : DataFrame :=
  let state := foldl shift_step (sort_values by_id_time df, []) cols in
  set_column "year_t1" (group_shift (fun row => PyInt (year row)) (rows state.1)) state.1.

(** The table [get_transitions] builds from the table of the panel. *)
Definition transitions_table (cols : list string) (df : DataFrame) : DataFrame :=
  let state := foldl shift_step (sort_values by_id_time df, []) cols in
  let current := shifted_table cols df in
  rename_columns
    (fun c => if decide (c ∈ cols /\ c ∈ columns current) then c +:+ "_t" else c)
    (dropna "year_t1" (select_columns ("year_t1" :: state.2) current)).

(** The table [to_cross_section] builds from the table of the panel. *)
Definition cross_section_table (year_arg : option Z) (df : DataFrame) : DataFrame :=
  match year_arg with
  | Some y => select_rows (fun row => year row = y) df
  | None => reset_index (loc_labels (groupby_idxmax df) df)
  end.

(** A table whose rows and labels match, no label being borne twice. *)
Definition unique_index (df : DataFrame) : Prop :=
  length (index df) = length (rows df) /\ NoDup (index df).

(** The events [get_household_transitions] extracts from the table of the
    panel. *)
Definition household_transitions (interview_col relationship_col : string)
    (marital_col age_col : option string) (df : DataFrame) : list TransitionRow :=
  flat_map (group_transitions interview_col relationship_col marital_col age_col)
           (groupby (rows (sort_values by_id_time df))).

(** The person and year of every row. *)
Definition skeleton (l : list Observation) : list (Z * Z) :=
  (fun row => (person_id row, year row)) <$> l.

(** The value [get_transitions] puts right after the id and time columns:
    the [year_t1] column. *)
Definition next_year (o : Observation) : option pyval := snd <$> head (cells o).

(** The person, the year and the following year of a transition row. *)
Definition summary (o : Observation) : Z * Z * option pyval :=
  (person_id o, year o, next_year o).

(** The rows that have a next row in their group, with its year. *)
Fixpoint pair_summaries (sk : list (Z * Z)) : list (Z * Z * option pyval) :=
  match sk with
  | [] => []
  | (i, y) :: rest =>
      match head (filter (fun s => s.1 = i) rest) with
      | Some next => (i, y, Some (PyInt next.2)) :: pair_summaries rest
      | None => pair_summaries rest
      end
  end.

(** ** Transition pairs, as the design document has them *)

(** The rows of a table, each with the next row of the same person if
    there is one. *)
Fixpoint with_next (l : list Observation) : list (Observation * option Observation) :=
  match l with
  | [] => []
  | row :: rest => (row, next_in_group (person_id row) rest) :: with_next rest
  end.

(** The last character of a string. *)
Fixpoint last_char (s : string) : option ascii :=
  match s with
  | EmptyString => None
  | String c rest => match last_char rest with Some d => Some d | None => Some c end
  end.

(** The columns asked of [get_transitions] are value columns whose names
    do not collide with the names the function makes: none is the name of
    the time column or [year_t1], and none is another one followed by
    [_t1]. *)
Definition clean_columns (cols : list string) : Prop :=
  ("year" ∉ cols) /\ ("year_t1" ∉ cols) /\
  forall c c', c ∈ cols -> c' ∈ cols -> c' <> c +:+ "_t1".

(** A transition row holds the values of a pair of observations: the
    person and the year of the first, the year of the second in [year_t1]
    and, for every requested column [c] of the panel, the value of the
    first under [c_t] and the value of the second under [c_t1]. *)
Definition pairs_observations (cols : list string) (df : DataFrame)
    (row : Observation) (pair : Observation * Observation) : Prop :=
  person_id row = person_id pair.1 /\ year row = year pair.1 /\
  row_get row "year_t1" = PyInt (year pair.2) /\
  forall c, c ∈ cols -> c ∈ columns df ->
    row_get row (c +:+ "_t") = row_get pair.1 c /\
    row_get row (c +:+ "_t1") = row_get pair.2 c.

(** The event the design document derives from two consecutive
    observations of a person: the years and the household keys, the
    relationship and marital codes and the ages of the two observations
    (an optional column that is not given reads [None]), the category the
    decision list assigns to these signals, and the flag that says whether
    the household key changed. *)
Definition TransitionEvent (interview_col relationship_col : string)
    (marital_col age_col : option string) (i : Z) (pair : Observation * Observation)
    : TransitionRow :=
  let value := fun (col : option string) (o : Observation) =>
    match col with
    | Some name => if decide (name = "") then PyNone else row_get o name
    | None => PyNone
    end in
  let signals :=
    {| household_key_from := row_get pair.1 interview_col;
       household_key_to := row_get pair.2 interview_col;
       relationship_from := row_get pair.1 relationship_col;
       relationship_to := row_get pair.2 relationship_col;
       marital_from := value marital_col pair.1;
       marital_to := value marital_col pair.2 |} in
  {| tr_person_id := i;
     tr_year_from := year pair.1;
     tr_year_to := year pair.2;
     tr_type := first_match decision_list signals;
     tr_hh_from := household_key_from signals;
     tr_hh_to := household_key_to signals;
     tr_relationship_from := relationship_from signals;
     tr_relationship_to := relationship_to signals;
     tr_marital_from := marital_from signals;
     tr_marital_to := marital_to signals;
     tr_age_from := value age_col pair.1;
     tr_age_to := value age_col pair.2;
     tr_hh_changed := negb (py_eq (household_key_from signals) (household_key_to signals)) |}.

(** The rows that have a next row, with it. *)
Definition consecutive (l : list Observation) : list (Observation * Observation) :=
  omap (fun sn : Observation * option Observation =>
          (fun next => (sn.1, next)) <$> sn.2) (with_next l).

(** A row of the table after the loop over the first columns of
    [get_transitions], against the row of the sorted table it comes from
    and the next row of its person. *)
Definition shifted_row (done : list string) (T0 : DataFrame)
    (r : Observation) (sn : Observation * option Observation) : Prop :=
  person_id r = person_id sn.1 /\ year r = year sn.1 /\
  (forall n, (forall c, c ∈ done -> c ∈ columns T0 -> n <> c +:+ "_t1") ->
             lookup_cell n (cells r) = lookup_cell n (cells sn.1)) /\
  (forall c, c ∈ done -> c ∈ columns T0 ->
             lookup_cell (c +:+ "_t1") (cells r) =
             Some (from_option (fun next => row_get next c) PyNaN sn.2)).

(** A row of the table with its [year_t1] column, before the selection. *)
Definition current_row (cols : list string) (T0 : DataFrame)
    (r : Observation) (sn : Observation * option Observation) : Prop :=
  person_id r = person_id sn.1 /\ year r = year sn.1 /\
  lookup_cell "year_t1" (cells r) =
    Some (from_option (fun next => PyInt (year next)) PyNaN sn.2) /\
  forall c, c ∈ cols -> c ∈ columns T0 ->
    row_get r c = row_get sn.1 c /\
    lookup_cell (c +:+ "_t1") (cells r) =
      Some (from_option (fun next => row_get next c) PyNaN sn.2).

(** ** The years of [build_panel] *)

Section BuildPanelModel.

Variable load_family : Z -> string -> option (list string) -> result FamilyFile.
Variables (data_dir : string) (family_vars : option FamilyVars).
Variables (heads_only : bool) (sample : option (list SampleType)).
Variable ind0 : IndividualFile.

(** The individual file after the sample filter. *)
Definition ind : IndividualFile :=
  match sample with
  | Some strata => filter_by_sample strata ind0
  | None => ind0
  end.

(** The columns [build_panel] asks [load_family] for. *)
Definition family_columns (year : Z) : option (list string) :=
  match family_vars with
  | Some vars => Some (get_columns vars year)
  | None => None
  end.

(** No family file of the year is found. *)
Definition not_found (year : Z) : Prop :=
  exists msg, load_family year data_dir (family_columns year)
              = Raise (FileNotFoundError msg).

(** The rows of the individual file in sample in [year], heads only when
    asked. *)
Definition individuals_in_year (year : Z) : list string * list PersonYear :=
  let selected := individual_year ind (get_interview_number_column year)
                    (get_sequence_number_column year)
                    (get_relationship_column year) in
  let ind_year := filter (fun p =>
        py_gt0 (default PyNone (lookup_cell "interview_number" (py_cells p))) = true)
        selected.2 in
  (selected.1,
   if heads_only && bool_decide ("sequence" ∈ selected.1)
   then filter (fun p =>
          py_eq (default PyNone (lookup_cell "sequence" (py_cells p))) (PyInt 1) = true)
          ind_year
   else ind_year).

(** The merged table a year contributes, when its family file is found. *)
Definition year_frame (year : Z) : option DataFrame :=
  match load_family year data_dir (family_columns year) with
  | Ok fam =>
      match fam_columns fam with
      | [] => None
      | fam_interview_col :: _ =>
          Some (merge_family year family_vars (individuals_in_year year).1
                  (individuals_in_year year).2 fam fam_interview_col)
      end
  | Raise _ => None
  end.

(** What the loop prints for a year. *)
Definition year_lines (year : Z) : list Printed :=
  Processing year ::
  match load_family year data_dir (family_columns year) with
  | Raise (FileNotFoundError msg) => [Warning msg]
  | Raise _ => []
  | Ok fam =>
      match year_frame year with
      | Some merged => [PersonYearRecords (length (rows merged))]
      | None => []
      end
  end.

(** The year is not 1968 and the individual file has the interview column
    of the year; the loader fails with [FileNotFoundError] only, and a
    family file it returns has a column. *)
Definition year_well_formed (year : Z) : Prop :=
  year <> 1968 /\
  get_interview_number_column year ∈ ind_columns ind /\
  (forall e, load_family year data_dir (family_columns year) = Raise e ->
             exists msg, e = FileNotFoundError msg) /\
  (forall fam, load_family year data_dir (family_columns year) = Ok fam ->
               fam_columns fam <> []).

(** The world the loop over the years starts in. *)
Definition world_before_years (w : World) : World :=
  match sample with
  | Some strata =>
      {| heap := heap w;
         stdout := ((stdout w ++ [LoadingIndividual]) ++ [FilteringSample])
                   ++ [AfterSampleFilter (length (ind_rows ind))] |}
  | None => {| heap := heap w; stdout := stdout w ++ [LoadingIndividual] |}
  end.

End BuildPanelModel.

(** ** Example data *)

(** A panel of three persons, observed three times, twice and once. *)
Definition example_row (i y interview income : Z) : Observation :=
  {| person_id := i; year := y;
     cells := [("interview_number", PyInt interview); ("income", PyInt income)] |}.

Definition example_table : DataFrame :=
  {| columns := ["interview_number"; "income"];
     index := [0; 1; 2; 3; 4; 5];
     rows := [ example_row 1 2017 101 50000; example_row 1 2019 102 52000;
               example_row 1 2021 103 55000; example_row 2 2017 201 30000;
               example_row 2 2019 202 32000; example_row 3 2021 301 40000 ] |}.

Definition example_world : World :=
  {| heap := {[ 1%positive := example_table ]}; stdout := [] |}.

Definition example_panel : Panel :=
  {| data := 1%positive; id_col := "person_id"; time_col := "year";
     _value_cols := ["income"] |}.

(** A panel of three persons with their households: a child who leaves
    the parental home, a head who marries and divorces, and a spouse who
    becomes the head of a household of her own. *)
Definition household_row (i y interview relationship marital : Z) : Observation :=
  {| person_id := i; year := y;
     cells := [("interview_number", PyInt interview);
               ("relationship", PyInt relationship);
               ("marital_status", PyInt marital)] |}.

Definition example_households : DataFrame :=
  {| columns := ["interview_number"; "relationship"; "marital_status"];
     index := [0; 1; 2; 3; 4; 5; 6; 7];
     rows := [ household_row 1 2017 101 3 2; household_row 1 2019 101 3 2;
               household_row 1 2021 301 1 2; household_row 2 2017 201 1 2;
               household_row 2 2019 202 1 1; household_row 2 2021 203 1 4;
               household_row 3 2019 401 2 3; household_row 3 2021 402 1 3 ] |}.

Definition households_world : World :=
  {| heap := {[ 1%positive := example_households ]}; stdout := [] |}.

Definition households_panel : Panel :=
  {| data := 1%positive; id_col := "person_id"; time_col := "year";
     _value_cols := ["relationship"; "marital_status"] |}.

(** A data directory with three family files.  Two persons of the 1968
    family 1500, the head and another one, in a file of 32-bit integers;
    the family files of 1995 and 2019 have their household, the family file
    of 2017 has another household only, and there is no family file of 1996
    and 2021. *)
Definition example_individuals : IndividualFile :=
  {| ind_columns := [ "ER30001"; "ER30002"; "ER30657"; "ER30733";
                      "ER34101"; "ER34102"; "ER34103";
                      "ER34301"; "ER34302"; "ER34303";
                      "ER34501"; "ER34502"; "ER34503" ];
     ER30001_bits := 32;
     ER30002_bits := 32;
     ind_rows :=
       [ {| ER30001 := 1500; ER30002 := 1;
            ind_cells := [ ("ER30657", PyInt 77); ("ER30733", PyInt 78);
                           ("ER34101", PyInt 55); ("ER34102", PyInt 1); ("ER34103", PyInt 10);
                           ("ER34301", PyInt 101); ("ER34302", PyInt 1); ("ER34303", PyInt 10);
                           ("ER34501", PyInt 101); ("ER34502", PyInt 1); ("ER34503", PyInt 10) ] |};
         {| ER30001 := 1500; ER30002 := 2;
            ind_cells := [ ("ER30657", PyInt 77); ("ER30733", PyInt 78);
                           ("ER34101", PyInt 55); ("ER34102", PyInt 2); ("ER34103", PyInt 20);
                           ("ER34301", PyInt 101); ("ER34302", PyInt 2); ("ER34303", PyInt 20);
                           ("ER34501", PyInt 0); ("ER34502", PyInt 0); ("ER34503", PyInt 0) ] |} ] |}.

Definition example_load_individual (data_dir : string) : result IndividualFile :=
  Ok example_individuals.

Definition example_load_family (year : Z) (data_dir : string)
    (columns : option (list string)) : result FamilyFile :=
  if decide (year = 2019) then
    Ok {| fam_columns := ["ER72002"; "ER77448"; "year"];
          fam_rows := [ [("ER72002", PyInt 101); ("ER77448", PyInt 52000);
                         ("year", PyInt 2019)] ] |}
  else if decide (year = 2017) then
    Ok {| fam_columns := ["ER66002"; "ER71426"; "year"];
          fam_rows := [ [("ER66002", PyInt 999); ("ER71426", PyInt 48000);
                         ("year", PyInt 2017)] ] |}
  else if decide (year = 1995) then
    Ok {| fam_columns := ["ER5002"; "ER6993"; "year"];
          fam_rows := [ [("ER5002", PyInt 77); ("ER6993", PyInt 41000);
                         ("year", PyInt 1995)] ] |}
  else Raise (FileNotFoundError "PSID family file not found").

Definition empty_world : World := {| heap := ∅; stdout := [] |}.

(** * More of the package *)

(** ** transitions.py: the event tables by type *)

(** [TransitionType.value]. *)
Definition TransitionType_value (t : TransitionType) : string :=
  match t with
  | SAME_HOUSEHOLD => "same_household"
  | MARRIAGE => "marriage"
  | DIVORCE => "divorce"
  | WIDOWHOOD => "widowhood"
  | LEAVE_PARENTAL => "leave_parental"
  | SPLITOFF => "splitoff"
  | JOIN_HOUSEHOLD => "join_household"
  | MOVE_WITH_FAMILY => "move_with_family"
  | DEATH => "death"
  | BIRTH => "birth"
  | OTHER => "other"
  end.

(** The [type] column of the events table: [transition_type.value]. *)
Definition tr_type_value (e : TransitionRow) : string :=
  TransitionType_value (tr_type e).

(** The event tables by type.  [transitions_df] is the table
    [pd.DataFrame(transitions)] that [get_household_transitions] returns,
    given by its rows: built from an empty list it has no column at all, so
    that [transitions_df["type"]] is a [KeyError]. *)
Definition type_column (transitions_df : list TransitionRow) : result (list string) :=
  match transitions_df with
  | [] => Raise (KeyError "type")
  | _ :: _ => Ok (tr_type_value <$> transitions_df)
  end.

(** [get_marriage_events] (transitions.py, lines 268-270). *)
Definition get_marriage_events (transitions_df : list TransitionRow)
    : result (list TransitionRow) :=
  match type_column transitions_df with
  | Ok _ =>
      Ok (filter (fun e => tr_type_value e = TransitionType_value MARRIAGE)
            transitions_df)
  | Raise e => Raise e
  end.

(** [get_divorce_events] (lines 273-275). *)
Definition get_divorce_events (transitions_df : list TransitionRow)
    : result (list TransitionRow) :=
  match type_column transitions_df with
  | Ok _ =>
      Ok (filter (fun e => tr_type_value e = TransitionType_value DIVORCE)
            transitions_df)
  | Raise e => Raise e
  end.

(** [get_splitoff_events] (lines 278-284). *)
Definition get_splitoff_events (transitions_df : list TransitionRow)
    : result (list TransitionRow) :=
  let splitoff_types :=
    [TransitionType_value LEAVE_PARENTAL; TransitionType_value SPLITOFF] in
  match type_column transitions_df with
  | Ok _ => Ok (filter (fun e => tr_type_value e ∈ splitoff_types) transitions_df)
  | Raise e => Raise e
  end.

(** An event of the table: its flag says whether the household changed. *)
Definition flag_agrees (e : TransitionRow) : Prop :=
  tr_hh_changed e = false <-> tr_type_value e = "same_household".

(** A marital event, as the classifier reports it. *)
Definition is_marital_value (v : string) : Prop :=
  v = "marriage" \/ v = "divorce" \/ v = "widowhood".

(** What a marriage, a divorce and a splitoff event record. *)
Definition marriage_recorded (e : TransitionRow) : Prop :=
  tr_hh_changed e = true /\ tr_marital_to e = PyInt 1 /\
  (tr_marital_from e = PyInt 2 \/ tr_marital_from e = PyInt 4 \/
   tr_marital_from e = PyInt 5).

Definition divorce_recorded (e : TransitionRow) : Prop :=
  tr_hh_changed e = true /\ tr_marital_from e = PyInt 1 /\
  (tr_marital_to e = PyInt 4 \/ tr_marital_to e = PyInt 5).

Definition splitoff_recorded (e : TransitionRow) : Prop :=
  tr_hh_changed e = true /\ tr_relationship_to e = PyInt 1 /\
  tr_relationship_from e <> PyInt 1 /\ tr_relationship_from e <> PyNone /\
  (tr_type_value e = "leave_parental" <-> tr_relationship_from e = PyInt 3).

(** ** panel.py: what [build_panel] raises and whom it keeps *)

Section BuildPanelOutcome.

Variable load_family : Z -> string -> option (list string) -> result FamilyFile.
Variables (data_dir : string) (family_vars : option FamilyVars).
Variables (heads_only : bool) (sample : option (list SampleType)).
Variable ind0 : IndividualFile.

(** The turn of [year] raises [e]: the individual file lacks the interview
    column of the year, so that [ind_year["interview_number"]] is a
    [KeyError]; or the year is 1968, whose interview column is the core
    column [ER30001], so that [ind_year] has two columns of the name and
    the selection on them is a [ValueError]; or [load_family] raises
    something that is not a [FileNotFoundError]; or the family file has no
    column for [fam.columns[0]]. *)
Definition year_raises (year : Z) (e : exn) : Prop :=
  if decide (get_interview_number_column year ∈ ind_columns (ind sample ind0)) then
    if decide (year = 1968) then e = ValueError duplicate_labels_message
    else
      match load_family year data_dir (family_columns family_vars year) with
      | Raise e' => e = e' /\ forall msg, e' <> FileNotFoundError msg
      | Ok fam => fam_columns fam = [] /\ e = IndexError
      end
  else year <> 1968 /\ e = KeyError "interview_number".

(** A person of the individual file who is in the sample asked for, has a
    positive interview number in [year] and, when heads only are asked for
    and the file has the sequence column of the year, has sequence
    number 1. *)
Definition selected_in_year (year : Z) (p : Individual) : Prop :=
  p ∈ ind_rows ind0 /\
  (forall strata, sample = Some strata -> get_sample_type (ER30001 p) ∈ strata) /\
  py_gt0 (ind_value p (get_interview_number_column year)) = true /\
  (heads_only = true ->
   get_sequence_number_column year <> "" ->
   get_sequence_number_column year ∈ ind_columns ind0 ->
   py_eq (ind_value p (get_sequence_number_column year)) (PyInt 1) = true).

(** The table of the panel [build_panel] returns. *)
Definition panel_table (years_arg : list Z) (balanced_arg : bool) : DataFrame :=
  let stacked :=
    drop_columns ["fam_interview"; "ER30001"; "ER30002"]
      (concat_frames
         (omap (year_frame load_family data_dir family_vars heads_only sample ind0)
               (merge_sort Z.le years_arg))) in
  if balanced_arg
  then balanced_table (effective_years (Some years_arg) stacked) stacked
  else stacked.

End BuildPanelOutcome.

(** The waves for which the individual file has a sequence number. *)
Definition has_sequence_number (year : Z) : Prop :=
  1997 <= year <= 2021 /\ Z.odd year = true.

(** ** load.py: finding and loading the files of a year *)

(** [str.lower] on ASCII letters. *)
Definition lower_ascii (c : ascii) : ascii :=
  let n := nat_of_ascii c in
  if decide (65 <= n <= 90)%nat then ascii_of_nat (n + 32) else c.

Fixpoint lower (s : string) : string :=
  match s with
  | EmptyString => EmptyString
  | String c rest => String (lower_ascii c) (lower rest)
  end.

(** [FILE_PATTERNS] (lines 102-124): for every file type the patterns in
    their order, a pattern being the text before and the text after
    [{year}]. *)
Definition FILE_PATTERNS : list (string * list (string * string)) :=
  [ ("family", [ ("FAM", "ER.dta"); ("fam", "er.dta"); ("F", ".dta");
                 ("FAM", ".dta"); ("FAM", "ER.txt"); ("fam", "er.txt") ]);
    ("individual", [ ("IND", "ER.dta"); ("ind", "er.dta"); ("J", ".dta");
                     ("IND", "ER.txt"); ("ind", "er.txt") ]);
    ("wealth", [ ("WLT", "ER.dta"); ("wlt", "er.dta");
                 ("WLT", "ER.txt"); ("wlt", "er.txt") ]) ].

(** [FILE_PATTERNS.get(file_type, [])]. *)
Fixpoint patterns_get (d : list (string * list (string * string))) (file_type : string)
    : list (string * string) :=
  match d with
  | [] => []
  | (k, patterns) :: rest =>
      if decide (k = file_type) then patterns else patterns_get rest file_type
  end.

(** [pattern.format(year=year)]. *)
Definition format (pattern : string * string) (year : Z) : string :=
  pattern.1 +:+ pretty year +:+ pattern.2.

(** The part of a file name from its last dot on, with what precedes it. *)
Fixpoint split_last_dot (s : string) : option (string * string) :=
  match s with
  | EmptyString => None
  | String c rest =>
      match split_last_dot rest with
      | Some (before, tail) => Some (String c before, tail)
      | None => if decide (c = "."%char) then Some (EmptyString, String c rest)
                else None
      end
  end.

(** [Path.stem] and [Path.suffix] of a file name: the last dot starts the
    suffix unless it is the first or the last character of the name. *)
Definition stem_suffix (name : string) : string * string :=
  match name with
  | EmptyString => (EmptyString, EmptyString)
  | String c rest =>
      match split_last_dot rest with
      | Some (before, tail) =>
          if decide (tail = ".") then (name, EmptyString)
          else (String c before, tail)
      | None => (name, EmptyString)
      end
  end.

Definition Path_suffix (name : string) : string := (stem_suffix name).2.

(** [Path.with_suffix]. *)
Definition with_suffix (name new_suffix : string) : string :=
  (stem_suffix name).1 +:+ new_suffix.

Definition family_patterns_shown : string :=
  "['FAM{year}ER.dta', 'fam{year}er.dta', 'F{year}.dta', 'FAM{year}.dta', 'FAM{year}ER.txt', 'fam{year}er.txt']".

(** [df.columns = df.columns.str.upper()] and [df["year"] = year]: no
    upper-cased name is ["year"], so the column is a new, last one. *)
Definition with_year (year : Z) (df : FamilyFile) : FamilyFile :=
  {| fam_columns := (upper <$> fam_columns df) ++ ["year"];
     fam_rows := (fun cells : list (string * pyval) =>
                    (prod_map upper id <$> cells) ++ [("year", PyInt year)])
                 <$> fam_rows df |}.

Section Loaders.

(** The data directory and the readers.  [exists_ dir name] is
    [(Path(dir) / name).exists()], [shown dir name] is [str(Path(dir) / name)];
    [read_stata] and [read_parquet] are the pandas readers and
    [load_fixed_width] the reader of lines 59-98, each given the directory,
    the file name(s) and the [columns] argument. *)
Variable exists_ : string -> string -> bool.
Variable shown : string -> string -> string.
Variable read_stata : string -> string -> option (list string) -> result FamilyFile.
Variable read_parquet : string -> string -> option (list string) -> result FamilyFile.
Variable load_fixed_width :
  string -> string -> string -> option (list string) -> result FamilyFile.

(** The loop of [find_file] (lines 140-151). *)
Fixpoint find_pattern (data_dir : string) (patterns : list (string * string))
    (year : Z) : option string :=
  match patterns with
  | [] => None
  | pattern :: rest =>
      let filename := format pattern year in
      if exists_ data_dir filename then Some filename
      else if exists_ data_dir (lower filename) then Some (lower filename)
      else find_pattern data_dir rest year
  end.

(** [find_file] (lines 127-151); the path found is given by its name in
    [data_dir]. *)
Definition find_file (data_dir file_type : string) (year : Z) : option string :=
  let patterns := patterns_get FILE_PATTERNS file_type in
  find_pattern data_dir patterns year.

(** [load_family] (lines 154-210). *)
Definition load_family (year : Z) (data_dir : string)
    (columns : option (list string)) : result FamilyFile :=
  match find_file data_dir "family" year with
  | None =>
      Raise (FileNotFoundError
               ("PSID family file for " +:+ pretty year +:+ " not found in "
                +:+ data_dir +:+ ". Expected patterns: " +:+ family_patterns_shown))
  | Some file_path =>
      let loaded :=
        if decide (lower (Path_suffix file_path) = ".dta") then
          read_stata data_dir file_path columns
        else if decide (lower (Path_suffix file_path) = ".parquet") then
          read_parquet data_dir file_path columns
        else if decide (lower (Path_suffix file_path) = ".txt") then
          let do_file := with_suffix file_path ".do" in
          if exists_ data_dir do_file
          then load_fixed_width data_dir file_path do_file columns
          else Raise (FileNotFoundError
                        ("Dictionary file " +:+ shown data_dir do_file
                         +:+ " not found. PSID text files require the corresponding .do file."))
        else Raise (ValueError ("Unsupported file format: " +:+ Path_suffix file_path)) in
      match loaded with
      | Ok df => Ok (with_year year df)
      | Raise e => Raise e
      end
  end.

(** [load_wealth] (lines 289-327). *)
Definition load_wealth (year : Z) (data_dir : string)
    (columns : option (list string)) : result FamilyFile :=
  match find_file data_dir "wealth" year with
  | None =>
      Raise (FileNotFoundError
               ("PSID wealth file for " +:+ pretty year +:+ " not found in "
                +:+ data_dir
                +:+ ". Wealth supplements available: 1984, 1989, 1994, 1999, 2001+"))
  | Some file_path =>
      let loaded :=
        if decide (Path_suffix file_path = ".dta") then
          read_stata data_dir file_path columns
        else if decide (Path_suffix file_path = ".parquet") then
          read_parquet data_dir file_path columns
        else Raise (ValueError ("Unsupported file format: " +:+ Path_suffix file_path)) in
      match loaded with
      | Ok df => Ok (with_year year df)
      | Raise e => Raise e
      end
  end.

End Loaders.

(** The names [find_file] tries, in the order it tries them. *)
Definition candidates (file_type : string) (year : Z) : list string :=
  flat_map (fun pattern => [format pattern year; lower (format pattern year)])
           (patterns_get FILE_PATTERNS file_type).

(** The waves tabulated in [get_interview_number_column]. *)
Definition tabulated_waves : list Z := fst <$> interview_cols.

(** A data directory holding the Stata family file of 2019, the text
    family file of 2017 without its dictionary and the text wealth file of
    2019; every reader returns a frame with the columns asked for. *)
Definition example_exists (data_dir name : string) : bool :=
  bool_decide (name ∈ ["FAM2019ER.dta"; "fam2017er.txt"; "wlt2019er.txt"]).

Definition example_shown (data_dir name : string) : string :=
  data_dir +:+ "/" +:+ name.

Definition example_read (data_dir name : string) (columns : option (list string))
    : result FamilyFile :=
  Ok {| fam_columns := default ["er72002"; "er77448"] columns;
        fam_rows := [] |}.

Definition example_load_fixed_width (data_dir name do_file : string)
    (columns : option (list string)) : result FamilyFile :=
  Ok {| fam_columns := ["ER66002"]; fam_rows := [] |}.

(** * Properties *)

(** ** The transition classifier *)

Lemma classify_unfold s a1 a2 :
  classify s a1 a2 =
  if rule_1 s then SAME_HOUSEHOLD
  else (marital_block (marital_from s) (marital_to s)) otherwise
       (splitoff_block (relationship_from s) (relationship_to s)) otherwise
       (join_block (relationship_from s) (relationship_to s)) otherwise OTHER.
Proof. reflexivity. Qed.

Lemma py_in_3 a x y z :
  py_in a [x; y; z] = code_is a x || code_is a y || code_is a z.
Proof. unfold py_in, code_is. simpl. by rewrite orb_false_r, orb_assoc. Qed.

Lemma py_in_2 a x y : py_in a [x; y] = code_is a x || code_is a y.
Proof. unfold py_in, code_is. simpl. by rewrite orb_false_r. Qed.

(** The marital block is the first match among rules 2a-2c. *)
Lemma marital_block_rules s :
  marital_block (marital_from s) (marital_to s) =
  if rule_2a s then Some MARRIAGE
  else if rule_2b s then Some DIVORCE
  else if rule_2c s then Some WIDOWHOOD else None.
Proof.
  unfold marital_block, rule_2a, rule_2b, rule_2c, marital_present, both_present.
  rewrite py_in_3, py_in_2. fold (code_is (marital_to s) 1).
  fold (code_is (marital_from s) 1). fold (code_is (marital_to s) 3).
  destruct (is_not_None (marital_from s) && is_not_None (marital_to s)); simpl; reflexivity.
Qed.

(** The two relationship blocks together are the first match among rules
    3a-3c. *)
Lemma relationship_blocks_rules s :
  (splitoff_block (relationship_from s) (relationship_to s)) otherwise
  (join_block (relationship_from s) (relationship_to s)) otherwise OTHER =
  first_match relationship_rules s.
Proof.
  unfold splitoff_block, join_block, relationship_rules, first_match,
    rule_3a, rule_3b, rule_3c, relationship_present, both_present, py_ne, code_is.
  destruct (is_not_None (relationship_from s) && is_not_None (relationship_to s));
    simpl; [|reflexivity].
  destruct (py_eq (relationship_from s) (PyInt 3)),
           (py_eq (relationship_to s) (PyInt 1)),
           (py_eq (relationship_from s) (PyInt 1)); reflexivity.
Qed.

Lemma classify_first_match s age_from age_to :
  classify s age_from age_to = first_match decision_list s.
Proof.
  rewrite classify_unfold, marital_block_rules.
  unfold decision_list, marital_rules. cbn [app first_match].
  destruct (rule_1 s); [reflexivity|].
  destruct (rule_2a s); [reflexivity|].
  destruct (rule_2b s); [reflexivity|].
  destruct (rule_2c s); [reflexivity|].
  apply relationship_blocks_rules.
Qed.

Lemma produced_cases category :
  category ∈ produced_categories <->
  category = SAME_HOUSEHOLD \/ category = MARRIAGE \/ category = DIVORCE \/
  category = WIDOWHOOD \/ category = LEAVE_PARENTAL \/ category = SPLITOFF \/
  category = JOIN_HOUSEHOLD \/ category = OTHER.
Proof.
  unfold produced_categories. rewrite !elem_of_cons, elem_of_nil. tauto.
Qed.

(** Whatever a rule table built from [produced_categories] decides is one
    of them. *)
Lemma first_match_in rules s :
  Forall (fun rule => snd rule ∈ produced_categories) rules ->
  first_match rules s ∈ produced_categories.
Proof.
  induction 1 as [|[guard category] rest Hin _ IH]; simpl.
  - apply produced_cases. tauto.
  - destruct (guard s); [exact Hin | exact IH].
Qed.

Lemma decision_list_categories :
  Forall (fun rule => snd rule ∈ produced_categories) decision_list.
Proof.
  unfold decision_list, marital_rules, relationship_rules.
  repeat constructor; simpl; apply produced_cases; tauto.
Qed.

Lemma classify_produced s age_from age_to :
  classify s age_from age_to ∈ produced_categories.
Proof.
  rewrite classify_first_match. apply first_match_in, decision_list_categories.
Qed.


(** C10. The classifier is a total function whose range is exactly the
    eight categories SAME_HOUSEHOLD, MARRIAGE, DIVORCE, WIDOWHOOD,
    LEAVE_PARENTAL, SPLITOFF, JOIN_HOUSEHOLD and OTHER: every input is
    mapped to one of them, each of them is the image of some input, and
    MOVE_WITH_FAMILY, DEATH and BIRTH are never returned. *)
Theorem classify_transition_range :
  forall category : TransitionType,
    (exists hh_from hh_to rel_from rel_to marital_from marital_to age_from age_to,
        _classify_transition hh_from hh_to rel_from rel_to
          marital_from marital_to age_from age_to = category)
    <-> category ∈ produced_categories
        /\ category <> MOVE_WITH_FAMILY /\ category <> DEATH /\ category <> BIRTH.
Proof.
  intros category. split.
  - intros (hf & ht & rf & rt & mf & mt & a1 & a2 & <-).
    pose proof (classify_produced (mkSignals hf ht rf rt mf mt) a1 a2) as Hin.
    unfold classify in Hin. simpl in Hin. split; [exact Hin|].
    apply produced_cases in Hin.
    repeat split; intros Heq; rewrite Heq in Hin;
      repeat destruct Hin as [Hin|Hin]; discriminate Hin.
  - intros [Hin _]. apply produced_cases in Hin.
    destruct Hin as [->|[->|[->|[->|[->|[->|[->| ->]]]]]]].
    + exists (PyInt 1001), (PyInt 1001), (PyInt 1), (PyInt 1), (PyInt 1), (PyInt 1), PyNone, PyNone.
      reflexivity.
    + exists (PyInt 1001), (PyInt 2002), (PyInt 1), (PyInt 2), (PyInt 2), (PyInt 1), PyNone, PyNone.
      reflexivity.
    + exists (PyInt 1001), (PyInt 3003), (PyInt 2), (PyInt 1), (PyInt 1), (PyInt 4), PyNone, PyNone.
      reflexivity.
    + exists (PyInt 1001), (PyInt 3003), (PyInt 2), (PyInt 1), (PyInt 1), (PyInt 3), PyNone, PyNone.
      reflexivity.
    + exists (PyInt 1001), (PyInt 4004), (PyInt 3), (PyInt 1), (PyInt 2), (PyInt 2), PyNone, PyNone.
      reflexivity.
    + exists (PyInt 1001), (PyInt 5005), (PyInt 7), (PyInt 1), (PyInt 2), (PyInt 2), PyNone, PyNone.
      reflexivity.
    + exists (PyInt 1001), (PyInt 6006), (PyInt 1), (PyInt 8), (PyInt 2), (PyInt 2), PyNone, PyNone.
      reflexivity.
    + exists (PyInt 1001), (PyInt 7007), PyNone, PyNone, PyNone, PyNone, PyNone, PyNone.
      reflexivity.
Qed.

(** Rules 2a-3c never decide SAME_HOUSEHOLD. *)
Lemma later_rules_not_same s :
  first_match (marital_rules ++ relationship_rules) s <> SAME_HOUSEHOLD.
Proof.
  unfold marital_rules, relationship_rules. cbn [app first_match].
  repeat match goal with |- context [if ?b then _ else _] => destruct b end;
    discriminate.
Qed.

(** Rule 1 matches exactly when both keys are [None] or both are the same
    integer. *)
Lemma rule_1_missing s :
  is_missing (household_key_from s) = true \/ is_missing (household_key_to s) = true ->
  rule_1 s = true <-> household_key_from s = PyNone /\ household_key_to s = PyNone.
Proof.
  unfold rule_1.
  destruct (household_key_from s), (household_key_to s); simpl;
    intros [H|H]; try discriminate H; split; try tauto;
    try discriminate; intros [? ?]; discriminate.
Qed.

(** C8, as the code has it.  When the household key is missing (None or
    NaN) on either side, rule 1 is not matched and the marital and
    relationship rules decide, so that the pair is not SAME_HOUSEHOLD,
    unless both keys are [None]: two [None] keys compare equal and the pair
    is SAME_HOUSEHOLD. *)
Theorem missing_household_key_rule_1 :
  forall s age_from age_to,
    is_missing (household_key_from s) = true \/
    is_missing (household_key_to s) = true ->
    (household_key_from s = PyNone /\ household_key_to s = PyNone ->
     classify s age_from age_to = SAME_HOUSEHOLD) /\
    (~ (household_key_from s = PyNone /\ household_key_to s = PyNone) ->
     classify s age_from age_to = first_match (marital_rules ++ relationship_rules) s /\
     classify s age_from age_to <> SAME_HOUSEHOLD).
Proof.
  intros s a1 a2 Hmiss. pose proof (rule_1_missing s Hmiss) as Hrule.
  rewrite classify_first_match. unfold decision_list. cbn [first_match].
  split.
  - intros Hnone. apply Hrule in Hnone. by rewrite Hnone.
  - intros Hnot. destruct (rule_1 s) eqn:E.
    + exfalso. apply Hnot, Hrule. reflexivity.
    + split; [reflexivity | apply later_rules_not_same].
Qed.

(** A key missing on one side only: the child who becomes head of a
    household whose earlier key is NaN leaves the parental home. *)
Lemma missing_household_key_rule_1_witness :
  classify (mkSignals PyNaN (PyInt 200) (PyInt 3) (PyInt 1) (PyInt 2) (PyInt 2))
    PyNone PyNone = LEAVE_PARENTAL.
Proof.
  pose proof (missing_household_key_rule_1
    (mkSignals PyNaN (PyInt 200) (PyInt 3) (PyInt 1) (PyInt 2) (PyInt 2))
    PyNone PyNone (or_introl eq_refl)) as [_ Hskip].
  destruct Hskip as [Heq _].
  - simpl. intros [Hfrom _]. discriminate Hfrom.
  - rewrite Heq. reflexivity.
Defined.

(** C8 as stated fails: a pair whose household keys are both missing
    ([None], what [row.get(interview_col, None)] yields without the
    column) is classified SAME_HOUSEHOLD, although the rules after rule 1
    would make it LEAVE_PARENTAL. *)
Lemma both_keys_None_same_household :
  let s := mkSignals PyNone PyNone (PyInt 3) (PyInt 1) (PyInt 2) (PyInt 2) in
  is_missing (household_key_from s) = true /\
  is_missing (household_key_to s) = true /\
  classify s PyNone PyNone = SAME_HOUSEHOLD /\
  first_match (marital_rules ++ relationship_rules) s = LEAVE_PARENTAL.
Proof. repeat split. Qed.

(** ** The sample classifier *)

Lemma get_sample_type_cases code :
  get_sample_type code =
  if (1 <=? code) && (code <=? 2999) then SRC
  else if (5001 <=? code) && (code <=? 6872) then SEO
  else if (3001 <=? code) && (code <=? 3511) then IMMIGRANT
  else if (4001 <=? code) && (code <=? 4462) then IMMIGRANT
  else if (7001 <=? code) && (code <=? 9308) then IMMIGRANT
  else UNKNOWN.
Proof.
  unfold get_sample_type, SAMPLE_RANGES, scan_samples, scan_ranges, in_range.
  cbn [fst snd].
  repeat (match goal with
          | |- context [Z.leb ?a ?b] => destruct (Z.leb a b)
          end; cbn [andb]);
    reflexivity.
Qed.

Ltac range_bools :=
  repeat match goal with
  | |- context [(?a <=? ?b)] => destruct (Z.leb_spec a b)
  end; simpl; try reflexivity; try lia.

(** Membership in an explicit list, by position. *)
Ltac pick_member :=
  first [ apply list_elem_of_here | apply list_elem_of_further; pick_member ].

Lemma documented_get_sample_type sample_type code :
  documented sample_type code -> get_sample_type code = sample_type.
Proof.
  intros (ranges & low & high & Hitem & Hrange & Hle).
  rewrite get_sample_type_cases. unfold SAMPLE_RANGES in Hitem.
  repeat (apply elem_of_cons in Hitem as [Hitem|Hitem]);
    [..|by apply elem_of_nil in Hitem];
    injection Hitem as -> ->;
    repeat (apply elem_of_cons in Hrange as [Hrange|Hrange]);
    try (by apply elem_of_nil in Hrange);
    injection Hrange as -> ->; range_bools.
Qed.

Lemma undocumented_get_sample_type code :
  (forall sample_type, ~ documented sample_type code) ->
  get_sample_type code = UNKNOWN.
Proof.
  intros Hnone. rewrite get_sample_type_cases.
  assert (Hsrc := Hnone SRC). assert (Hseo := Hnone SEO).
  assert (Himm := Hnone IMMIGRANT). unfold documented, SAMPLE_RANGES in *.
  range_bools; exfalso;
    first
      [ apply Hsrc; exists [(1, 2999)], 1, 2999;
        split; [|split; [|lia]]; pick_member
      | apply Hseo; exists [(5001, 6872)], 5001, 6872;
        split; [|split; [|lia]]; pick_member
      | apply Himm; exists [(3001, 3511); (4001, 4462); (7001, 9308)], 3001, 3511;
        split; [|split; [|lia]]; pick_member
      | apply Himm; exists [(3001, 3511); (4001, 4462); (7001, 9308)], 4001, 4462;
        split; [|split; [|lia]]; pick_member
      | apply Himm; exists [(3001, 3511); (4001, 4462); (7001, 9308)], 7001, 9308;
        split; [|split; [|lia]]; pick_member ].
Qed.

(** C5. For every integer origin code the sample classifier returns the
    stratum one of whose inclusive ranges contains the code, and the
    catch-all UNKNOWN when no documented range contains it; it is a total
    function, so no code raises.  1500 is SRC, 5500 is SEO, 3100 is
    IMMIGRANT and 3000, in the gap between two ranges, is UNKNOWN. *)
Theorem get_sample_type_classifies :
  forall code : Z,
    (forall sample_type, documented sample_type code ->
       get_sample_type code = sample_type) /\
    ((forall sample_type, ~ documented sample_type code) ->
       get_sample_type code = UNKNOWN) /\
    get_sample_type 1500 = SRC /\ get_sample_type 5500 = SEO /\
    get_sample_type 3100 = IMMIGRANT /\ get_sample_type 3000 = UNKNOWN.
Proof.
  intros code. split; [|split].
  - intros st. apply documented_get_sample_type.
  - apply undocumented_get_sample_type.
  - repeat split.
Qed.

(** Code 6000 lies in the documented SEO range, and the classifier says
    SEO. *)
Lemma get_sample_type_classifies_witness : get_sample_type 6000 = SEO.
Proof.
  apply (proj1 (get_sample_type_classifies 6000) SEO).
  exists [(5001, 6872)], 5001, 6872. unfold SAMPLE_RANGES.
  split; [|split; [|lia]]; pick_member.
Defined.

(** ** The person identifier *)

Lemma wrap_fits bits z : 1 <= bits -> fits bits z -> wrap bits z = z.
Proof.
  intros Hbits [Hlow Hhigh]. unfold wrap.
  assert (Hpow : 2 ^ bits = 2 * 2 ^ (bits - 1)).
  { replace bits with (Z.succ (bits - 1)) at 1 by lia. apply Z.pow_succ_r. lia. }
  rewrite Z.mod_small by lia. lia.
Qed.

Lemma resolve_identity_fits bits1 bits2 a b :
  16 <= bits1 -> 8 <= bits2 ->
  fits bits1 (a * 1000) -> fits (Z.max bits1 bits2) (a * 1000 + b) ->
  resolve_identity bits1 bits2 a b = a * 1000 + b.
Proof.
  intros H1 H2 Hprod Hsum. unfold resolve_identity.
  rewrite (wrap_fits bits1) by (done || lia).
  apply wrap_fits; [lia | exact Hsum].
Qed.

Lemma person_ids_of_year ind ic sc rc :
  py_person_id <$> (individual_year ind ic sc rc).2 =
  (fun p => resolve_identity (ER30001_bits ind) (ER30002_bits ind)
              (ER30001 p) (ER30002 p)) <$> ind_rows ind.
Proof. unfold individual_year. cbn [snd]. by rewrite <- list_fmap_compose. Qed.

(** The identifier where the columns are wide enough.  It is computed in
    the integer types of the two identifier columns of the file.  On non-negative
    family ids and sequence numbers below 1000 whose identifier fits these
    types (the product [ER30001 * 1000] the type of [ER30001], the sum the
    wider of the two types) it is [id * 1000 + seq] and injective in the
    pair: two pairs get the same identifier exactly when they are the same
    pair.  And the identifier of a person does not depend on the wave: in
    the selection of every year the rows bear, in the order of the file,
    the identifiers of its persons. *)
Theorem resolve_identity_injective :
  forall bits1 bits2 a b c d : Z,
    16 <= bits1 -> 8 <= bits2 ->
    0 <= a -> 0 <= c -> 0 <= b < 1000 -> 0 <= d < 1000 ->
    fits bits1 (a * 1000) -> fits (Z.max bits1 bits2) (a * 1000 + b) ->
    fits bits1 (c * 1000) -> fits (Z.max bits1 bits2) (c * 1000 + d) ->
    resolve_identity bits1 bits2 a b = a * 1000 + b /\
    (resolve_identity bits1 bits2 a b = resolve_identity bits1 bits2 c d
     <-> (a, b) = (c, d)) /\
    (forall ind interview_col seq_col rel_col,
        ER30001_bits ind = bits1 -> ER30002_bits ind = bits2 ->
        py_person_id <$> (individual_year ind interview_col seq_col rel_col).2 =
        (fun p => resolve_identity bits1 bits2 (ER30001 p) (ER30002 p))
          <$> ind_rows ind).
Proof.
  intros bits1 bits2 a b c d H1 H2 Ha Hc Hb Hd Hpa Hsa Hpc Hsc.
  rewrite !resolve_identity_fits by done.
  split; [reflexivity|]. split.
  - split.
    + intros Heq. assert (a = c) by lia. subst c.
      assert (b = d) by lia. by subst d.
    + intros [= -> ->]. reflexivity.
  - intros ind ic sc rc <- <-. apply person_ids_of_year.
Qed.

(** Two different persons of a file with 32-bit identifier columns. *)
Lemma resolve_identity_injective_witness :
  resolve_identity 32 32 1500 3 = 1500 * 1000 + 3 /\
  (resolve_identity 32 32 1500 3 = resolve_identity 32 32 8193 1
   <-> (1500, 3) = (8193, 1)) /\
  (forall ind interview_col seq_col rel_col,
      ER30001_bits ind = 32 -> ER30002_bits ind = 32 ->
      py_person_id <$> (individual_year ind interview_col seq_col rel_col).2 =
      (fun p => resolve_identity 32 32 (ER30001 p) (ER30002 p)) <$> ind_rows ind).
Proof.
  apply (resolve_identity_injective 32 32 1500 3 8193 1);
    first [lia | split; by vm_compute].
Defined.

(** C4.  The identifier is not injective on every file: where the two
    identifier columns are 16-bit integers (as [read_stata] makes them of
    Stata's [int]) the product [ER30001 * 1000] wraps around, and the
    persons (1, 1) and (8193, 1), two valid pairs (non-negative, sequence
    numbers below 1000), get the same identifier 1001 - on the function and
    in the rows [build_panel] selects for a year. *)
Lemma identifiers_collide_in_16_bits :
  (0 <= 1 /\ 0 <= 8193 /\ 0 <= 1 < 1000) /\
  fits 16 1 /\ fits 16 8193 /\
  (1, 1) <> (8193, 1) /\
  resolve_identity 16 16 1 1 = 1001 /\
  resolve_identity 16 16 8193 1 = 1001 /\
  py_person_id <$>
    (individual_year
       {| ind_columns := ["ER30001"; "ER30002"];
          ER30001_bits := 16; ER30002_bits := 16;
          ind_rows := [ {| ER30001 := 1; ER30002 := 1; ind_cells := [] |};
                        {| ER30001 := 8193; ER30002 := 1; ind_cells := [] |} ] |}
       "ER34501" "ER34502" "ER34503").2 = [1001; 1001].
Proof. repeat split; first [lia | discriminate | by vm_compute]. Qed.

(** ** Reasoning about computations *)

Lemma preserved_refl w : preserved w w.
Proof. intros l df H. exact H. Qed.

Lemma preserved_trans w1 w2 w3 :
  preserved w1 w2 -> preserved w2 w3 -> preserved w1 w3.
Proof. intros H12 H23 l df H. apply H23, H12, H. Qed.

Lemma preserved_new w l df :
  heap w !! l = None -> preserved w (set_heap (<[l := df]> (heap w)) w).
Proof.
  intros Hnew l' df' H. simpl. rewrite lookup_insert_ne; [exact H|].
  intros ->. congruence.
Qed.

Lemma preserved_update w0 w l df :
  heap w0 !! l = None -> preserved w0 w ->
  preserved w0 (set_heap (<[l := df]> (heap w)) w).
Proof.
  intros Hnew Hpre l' df' H. simpl. rewrite lookup_insert_ne; [by apply Hpre|].
  intros ->. congruence.
Qed.

Lemma preserved_fresh w0 w l :
  preserved w0 w -> heap w !! l = None -> heap w0 !! l = None.
Proof.
  intros Hpre Hnew. destruct (heap w0 !! l) as [df|] eqn:E; [|reflexivity].
  apply Hpre in E. congruence.
Qed.

Lemma returns_ret {A} (a : A) w (Q : A -> World -> Prop) :
  Q a w -> returns (mret a) w Q.
Proof. intros H. exists a, w. split; [reflexivity | exact H]. Qed.

Lemma returns_bind {A B} (m : M A) (f : A -> M B) w (Q : B -> World -> Prop) :
  returns m w (fun a w' => returns (f a) w' Q) -> returns (m ≫= f) w Q.
Proof.
  intros (a & w' & Hm & b & w'' & Hf & HQ). exists b, w''.
  split; [|exact HQ]. unfold mbind, M_bind. rewrite Hm. exact Hf.
Qed.

Lemma returns_mono {A} (m : M A) w (Q Q' : A -> World -> Prop) :
  returns m w Q -> (forall a w', Q a w' -> Q' a w') -> returns m w Q'.
Proof. intros (a & w' & Hm & HQ) Himp. exists a, w'. auto. Qed.

Lemma returns_read l df w (Q : DataFrame -> World -> Prop) :
  heap w !! l = Some df -> Q df w -> returns (read l) w Q.
Proof.
  intros Hl HQ. exists df, w. split; [|exact HQ]. unfold read. by rewrite Hl.
Qed.

Lemma returns_alloc df w (Q : loc -> World -> Prop) :
  (forall l, heap w !! l = None -> Q l (set_heap (<[l := df]> (heap w)) w)) ->
  returns (alloc df) w Q.
Proof.
  intros HQ. eexists _, _. split; [reflexivity|]. apply HQ.
  apply not_elem_of_dom, is_fresh.
Qed.

Lemma returns_write l df w (Q : unit -> World -> Prop) :
  Q tt (set_heap (<[l := df]> (heap w)) w) -> returns (write l df) w Q.
Proof. intros HQ. eexists _, _. split; [reflexivity | exact HQ]. Qed.

Lemma returns_print line w (Q : unit -> World -> Prop) :
  Q tt {| heap := heap w; stdout := stdout w ++ [line] |} ->
  returns (print line) w Q.
Proof. intros HQ. eexists _, _. split; [reflexivity | exact HQ]. Qed.

(** The loop rule: an invariant on what remains to be visited, the
    accumulator and the world. *)
Lemma returns_for_each {A B} (body : B -> A -> M B)
    (Inv : list A -> B -> World -> Prop) l acc w :
  Inv l acc w ->
  (forall x rest acc w, Inv (x :: rest) acc w ->
     returns (body acc x) w (fun acc' w' => Inv rest acc' w')) ->
  returns (for_each body l acc) w (fun acc' w' => Inv [] acc' w').
Proof.
  intros Hinit Hstep. revert acc w Hinit.
  induction l as [|x rest IH]; intros acc w Hinit; simpl.
  - by apply returns_ret.
  - apply returns_bind. eapply returns_mono; [by apply Hstep|].
    intros acc' w' Hinv. by apply IH.
Qed.

(** One step of a computation. *)
Ltac step :=
  first
    [ apply returns_bind
    | eapply returns_read; [ simpl; first [ eassumption | apply lookup_insert_eq ] | ]
    | apply returns_alloc; intros ? ?
    | apply returns_write
    | apply returns_print
    | apply returns_ret ].

(** ** Grouping *)

Lemma elem_of_group_keys i l :
  i ∈ group_keys l <-> exists row, row ∈ l /\ person_id row = i.
Proof.
  unfold group_keys. rewrite merge_sort_Permutation, elem_of_remove_dups.
  rewrite list_elem_of_fmap. split.
  - intros (row & -> & Hin). by exists row.
  - intros (row & Hin & <-). by exists row.
Qed.

Lemma NoDup_group_keys l : NoDup (group_keys l).
Proof.
  unfold group_keys. rewrite merge_sort_Permutation. apply NoDup_remove_dups.
Qed.

Lemma elem_of_person_rows i l row :
  row ∈ person_rows i l <-> row ∈ l /\ person_id row = i.
Proof. unfold person_rows. rewrite list_elem_of_filter. tauto. Qed.

Lemma person_rows_nil i l :
  person_rows i l = [] <-> forall row, row ∈ l -> person_id row <> i.
Proof.
  split.
  - intros Hnil row Hin Hid.
    assert (Hrow : row ∈ person_rows i l) by by apply elem_of_person_rows.
    rewrite Hnil in Hrow. by apply elem_of_nil in Hrow.
  - intros Hnone. destruct (person_rows i l) as [|row rest] eqn:E; [reflexivity|].
    assert (Hrow : row ∈ person_rows i l) by (rewrite E; apply list_elem_of_here).
    apply elem_of_person_rows in Hrow as [Hin Hid]. by destruct (Hnone row Hin).
Qed.

(** The keys that pass a test on the per-group statistic. *)
Lemma elem_of_group_stat (stat : list Observation -> nat) (keep : nat -> bool) i l :
  i ∈ keys_where keep ((fun group => (group.1, stat group.2)) <$> groupby l) <->
  (exists row, row ∈ l /\ person_id row = i) /\ keep (stat (person_rows i l)) = true.
Proof.
  unfold keys_where, groupby. rewrite list_elem_of_fmap. split.
  - intros ([k c] & -> & Hin). apply list_elem_of_filter in Hin as [Hkeep Hin].
    apply list_elem_of_fmap in Hin as ([k' g] & [= -> ->] & Hin).
    apply list_elem_of_fmap in Hin as (k'' & [= -> ->] & Hin).
    simpl in *. split; [by apply elem_of_group_keys | exact Hkeep].
  - intros [Hex Hkeep]. exists (i, stat (person_rows i l)). split; [reflexivity|].
    apply list_elem_of_filter. split; [exact Hkeep|].
    apply list_elem_of_fmap. exists (i, person_rows i l). split; [reflexivity|].
    apply list_elem_of_fmap. exists i. split; [reflexivity|].
    by apply elem_of_group_keys.
Qed.

Lemma person_rows_filter (P : Observation -> Prop) `{!forall row, Decision (P row)} i l :
  person_rows i (filter P l) = filter P (person_rows i l).
Proof.
  unfold person_rows. rewrite !list_filter_filter. apply list_filter_iff. tauto.
Qed.

Lemma nunique_size (values : list Z) :
  nunique values = size (list_to_set values : gset Z).
Proof.
  unfold nunique.
  rewrite <- (size_list_to_set (C:=gset Z) (remove_dups values))
    by apply NoDup_remove_dups.
  f_equal. apply set_eq. intros x.
  by rewrite !elem_of_list_to_set, elem_of_remove_dups.
Qed.

Lemma nunique_pos (values : list Z) : (0 < nunique values)%nat -> values <> [].
Proof. intros Hpos ->. unfold nunique in Hpos. simpl in Hpos. lia. Qed.

(** ** The Panel operations, as computations *)

(** Old objects survive the allocation and the in-place update of new
    ones. *)
Ltac frame :=
  lazymatch goal with
  | |- preserved ?w ?w => apply preserved_refl
  | |- preserved ?w0 (set_heap (<[?l := _]> (heap ?w1)) ?w1) =>
      apply (preserved_update w0 w1); [ fresh_loc | frame ]
  | |- preserved _ _ => assumption
  end
with fresh_loc :=
  lazymatch goal with
  | H : heap ?w1 !! ?l = None |- heap ?w0 !! ?l = None =>
      first [ exact H | apply (preserved_fresh w0 w1 l); [ frame | exact H ] ]
  end.

Lemma balanced_returns years_arg self w df :
  heap w !! data self = Some df ->
  returns (balanced years_arg self) w
    (new_panel w self (balanced_table (effective_years years_arg df) df)).
Proof.
  intros Hdf. unfold balanced. step.
  assert (Hyears : returns
            match years_arg with
            | Some (y :: ys) => mret (y :: ys)
            | _ => years self
            end w (fun Y w' => Y = effective_years years_arg df /\ w' = w)).
  { destruct years_arg as [[|y ys]|]; simpl;
      first [ by apply returns_ret
            | unfold years; step; step; by apply returns_ret ]. }
  eapply returns_mono; [exact Hyears|]. clear Hyears.
  intros Y w' [-> ->]. cbv zeta.
  fold (balanced_table (effective_years years_arg df) df).
  do 8 step. unfold Panel_new. do 3 step.
  unfold new_panel, new_table.
  split_and!; first [ frame | fresh_loc | apply lookup_insert_eq | reflexivity ].
Qed.

Lemma min_periods_returns n self w df :
  heap w !! data self = Some df ->
  returns (min_periods n self) w (new_panel w self (min_periods_table n df)).
Proof.
  intros Hdf. unfold min_periods. do 2 step. cbv zeta.
  fold (min_periods_table n df).
  do 6 step. unfold Panel_new. do 3 step.
  unfold new_panel, new_table.
  split_and!; first [ frame | fresh_loc | apply lookup_insert_eq | reflexivity ].
Qed.

(** ** Balancing and minimum-observation filtering *)

Lemma nunique_years_within Y i df :
  nunique (year <$> person_rows i (filter (fun row => year row ∈ Y) (rows df))) =
  size (years_within Y i df).
Proof.
  rewrite nunique_size. unfold years_within, person_rows.
  rewrite list_filter_filter. reflexivity.
Qed.

Lemma rows_balanced_table Y df :
  Y <> [] ->
  rows (balanced_table Y df) =
  filter (fun row => size (years_within Y (person_id row) df) = length Y) (rows df).
Proof.
  intros HY. unfold balanced_table, isin_ids. simpl.
  apply list_filter_iff. intros row.
  rewrite (elem_of_group_stat (fun g => nunique (year <$> g))).
  rewrite nunique_years_within, Nat.eqb_eq. split; [tauto|].
  intros Hsize. split; [|exact Hsize].
  assert (Hpos : (0 < nunique (year <$> person_rows (person_id row)
                                 (filter (fun row => year row ∈ Y) (rows df))))%nat).
  { rewrite nunique_years_within, Hsize. destruct Y; [done | simpl; lia]. }
  apply nunique_pos in Hpos.
  destruct (person_rows _ _) as [|row' rest] eqn:E; [done|].
  assert (Hin : row' ∈ person_rows (person_id row)
                  (filter (fun row => year row ∈ Y) (rows df)))
    by (rewrite E; apply list_elem_of_here).
  apply elem_of_person_rows in Hin as [Hin Hid]. by exists row'.
Qed.

Lemma list_filter_iff_elem {A} (P1 P2 : A -> Prop)
    `{!forall x, Decision (P1 x), !forall x, Decision (P2 x)} (l : list A) :
  (forall x, x ∈ l -> P1 x <-> P2 x) -> filter P1 l = filter P2 l.
Proof.
  induction l as [|a l IH]; intros Hiff; [reflexivity|].
  rewrite !filter_cons.
  rewrite IH by (intros x Hx; apply Hiff; by apply list_elem_of_further).
  apply decide_ext, Hiff, list_elem_of_here.
Qed.

Lemma rows_min_periods_table n df :
  rows (min_periods_table n df) =
  filter (fun row => n <= Z.of_nat (observation_count (person_id row) df)) (rows df).
Proof.
  unfold min_periods_table, isin_ids. simpl.
  apply list_filter_iff_elem. intros row Hrow.
  rewrite (elem_of_group_stat (fun g => length (year <$> g))).
  rewrite length_fmap, Z.leb_le. unfold observation_count, person_rows.
  split; [tauto|]. intros Hle. split; [by exists row | exact Hle].
Qed.

(** C6. For every panel and every non-empty year list Y, [balanced(Y)]
    returns a panel over a new table whose rows are a sub-list of the
    original rows: exactly the rows of the persons whose number of distinct
    observation years within Y equals the length of Y; every row of such a
    person is kept and every row of any other person is dropped. *)
Theorem balanced_keeps_fully_observed :
  forall (self : Panel) (w : World) (df : DataFrame) (Y : list Z),
    heap w !! data self = Some df -> Y <> [] ->
    returns (balanced (Some Y) self) w (fun q w' =>
      exists df', heap w' !! data q = Some df' /\
        rows df' `sublist_of` rows df /\
        rows df' =
          filter (fun row => size (years_within Y (person_id row) df) = length Y)
                 (rows df) /\
        (forall row, row ∈ rows df' <->
           row ∈ rows df /\ size (years_within Y (person_id row) df) = length Y)).
Proof.
  intros self w df Y Hdf HY.
  eapply returns_mono; [by apply (balanced_returns (Some Y))|].
  intros q w' [(_ & _ & Hq & _) _].
  assert (Heff : effective_years (Some Y) df = Y) by by destruct Y.
  rewrite Heff in Hq. eexists. split; [exact Hq|].
  rewrite (rows_balanced_table Y df HY).
  split_and!; [apply sublist_filter | reflexivity |].
  intros row. rewrite list_elem_of_filter. tauto.
Qed.

Lemma balanced_keeps_fully_observed_witness :
  returns (balanced (Some [2017; 2019; 2021]) example_panel) example_world
    (fun q w' =>
      exists df', heap w' !! data q = Some df' /\
        rows df' `sublist_of` rows example_table /\
        rows df' =
          filter (fun row =>
                    size (years_within [2017; 2019; 2021] (person_id row) example_table)
                    = length [2017; 2019; 2021])
                 (rows example_table) /\
        (forall row, row ∈ rows df' <->
           row ∈ rows example_table /\
           size (years_within [2017; 2019; 2021] (person_id row) example_table)
           = length [2017; 2019; 2021])).
Proof.
  apply (balanced_keeps_fully_observed example_panel example_world example_table
           [2017; 2019; 2021]); [reflexivity | discriminate].
Defined.

Lemma filter_all {A} (P : A -> Prop) `{!forall x, Decision (P x)} (l : list A) :
  (forall x, x ∈ l -> P x) -> filter P l = l.
Proof.
  induction l as [|a l IH]; intros Hall; [reflexivity|].
  rewrite filter_cons_True by apply Hall, list_elem_of_here.
  f_equal. apply IH. intros x Hx. by apply Hall, list_elem_of_further.
Qed.

Lemma observation_count_pos row df :
  row ∈ rows df -> (1 <= observation_count (person_id row) df)%nat.
Proof.
  intros Hrow. unfold observation_count.
  assert (Hin : row ∈ filter (fun r => person_id r = person_id row) (rows df))
    by by apply list_elem_of_filter.
  destruct (filter _ _); [by apply elem_of_nil in Hin | simpl; lia].
Qed.

(** C7, as the code has it.  [min_periods(n)] validates nothing and raises
    for no [n]: for every integer [n] it returns a panel over a new table
    whose rows are a sub-list of the original rows, exactly the rows of the
    persons observed at least [n] times, all the observations of such a
    person being kept; for [n <= 1] (so for [min_periods(1)], and for
    [n < 1] as well) every row is kept. *)
Theorem min_periods_keeps_frequent :
  forall (self : Panel) (w : World) (df : DataFrame) (n : Z),
    heap w !! data self = Some df ->
    returns (min_periods n self) w (fun q w' =>
      exists df', heap w' !! data q = Some df' /\
        rows df' `sublist_of` rows df /\
        (forall row, row ∈ rows df' <->
           row ∈ rows df /\ n <= Z.of_nat (observation_count (person_id row) df)) /\
        (forall row, row ∈ rows df' ->
           filter (fun r => person_id r = person_id row) (rows df') =
           filter (fun r => person_id r = person_id row) (rows df)) /\
        (n <= 1 -> rows df' = rows df)).
Proof.
  intros self w df n Hdf.
  eapply returns_mono; [by apply min_periods_returns|].
  intros q w' [(_ & _ & Hq & _) _]. eexists. split; [exact Hq|].
  rewrite rows_min_periods_table.
  split_and!.
  - apply sublist_filter.
  - intros row. rewrite list_elem_of_filter. tauto.
  - intros row [Hn _]%list_elem_of_filter.
    rewrite list_filter_filter. apply list_filter_iff.
    intros r. split; [tauto|]. intros Hid. split; [exact Hid|]. by rewrite Hid.
  - intros Hn. apply filter_all. intros row Hrow.
    pose proof (observation_count_pos row df Hrow). lia.
Qed.

Lemma min_periods_keeps_frequent_witness :
  returns (min_periods 2 example_panel) example_world (fun q w' =>
    exists df', heap w' !! data q = Some df' /\
      rows df' `sublist_of` rows example_table /\
      (forall row, row ∈ rows df' <->
         row ∈ rows example_table /\
         2 <= Z.of_nat (observation_count (person_id row) example_table)) /\
      (forall row, row ∈ rows df' ->
         filter (fun r => person_id r = person_id row) (rows df') =
         filter (fun r => person_id r = person_id row) (rows example_table)) /\
      (2 <= 1 -> rows df' = rows example_table)).
Proof.
  apply (min_periods_keeps_frequent example_panel example_world example_table 2).
  reflexivity.
Defined.

(** C7 as stated fails: [min_periods(0)] raises nothing; it returns a
    panel that holds every row of the original. *)
Lemma min_periods_zero_does_not_raise :
  match min_periods 0 example_panel example_world with
  | (Ok q, w') => rows <$> heap w' !! data q = Some (rows example_table)
  | (Raise _, _) => False
  end.
Proof. vm_compute. reflexivity. Qed.

(** ** The extractions, as computations *)

Lemma get_transitions_returns cols self w df :
  heap w !! data self = Some df ->
  returns (get_transitions cols self) w
    (new_table w (transitions_table (effective_cols cols self) df)).
Proof.
  intros Hdf. unfold get_transitions.
  fold (effective_cols cols self). set (cs := effective_cols cols self).
  do 9 step.
  match goal with |- returns _ ?w2 _ => set (w2' := w2) end.
  eapply returns_mono.
  { apply (returns_for_each _
      (fun rest acc w' => exists current,
         heap w' !! l0 = Some current /\
         foldl shift_step (current, acc) rest =
           foldl shift_step (sort_values by_id_time df, []) cs /\
         preserved w w' /\ stdout w' = stdout w)).
    - eexists. split_and!; [apply lookup_insert_eq | reflexivity | | reflexivity].
      subst w2'. frame.
    - intros col rest acc w' (current & Hcur & Hfold & Hpre & Hout).
      step. step. simpl in Hfold. unfold shift_step at 2 in Hfold. simpl in Hfold.
      destruct (decide (col ∈ columns current)).
      + do 3 step. eexists. split_and!; [apply lookup_insert_eq | exact Hfold | | exact Hout].
        frame.
      + step. exists current. by split_and!. }
  intros result_cols w' (current & Hcur & Hfold & Hpre & Hout). simpl in Hfold.
  do 11 step.
  eapply returns_read.
  { simpl. rewrite lookup_insert_ne; [apply lookup_insert_eq|].
    intros ->. simpl in *. rewrite lookup_insert_eq in *. discriminate. }
  step. unfold new_table, transitions_table, shifted_table. rewrite <- Hfold.
  split_and!; [frame | fresh_loc | apply lookup_insert_eq | exact Hout].
Qed.

Lemma to_cross_section_returns year_arg self w df :
  heap w !! data self = Some df ->
  returns (to_cross_section year_arg self) w
    (new_table w (cross_section_table year_arg df)).
Proof.
  intros Hdf. unfold to_cross_section. do 2 step.
  destruct year_arg as [y|]; do 5 step; unfold new_table;
    (split_and!; [frame | fresh_loc | apply lookup_insert_eq | reflexivity]).
Qed.

Lemma get_household_transitions_returns self interview_col relationship_col
    marital_col age_col w df :
  heap w !! data self = Some df ->
  returns
    (get_household_transitions self interview_col relationship_col marital_col age_col)
    w
    (fun events w' =>
       events = household_transitions interview_col relationship_col
                  marital_col age_col df /\
       preserved w w' /\ stdout w' = stdout w).
Proof.
  intros Hdf. unfold get_household_transitions. do 11 step.
  split_and!; [reflexivity | frame | reflexivity].
Qed.

(** ** Operations leave the panel as it was *)

(** C9. Each filtering or derivation operation on a panel (balanced,
    min_periods, cross-section, both transition extractions) returns
    normally, leaves the table of the panel, and every other table that
    existed, exactly as it was, and delivers its result in an object that
    did not exist before (the list of events of
    [get_household_transitions] is a fresh value). *)
Theorem panel_operations_do_not_mutate :
  forall (self : Panel) (w : World) (df : DataFrame),
    heap w !! data self = Some df ->
    (forall years_arg,
        returns (balanced years_arg self) w (fun q w' =>
          heap w' !! data self = Some df /\ preserved w w' /\
          heap w !! data q = None)) /\
    (forall n,
        returns (min_periods n self) w (fun q w' =>
          heap w' !! data self = Some df /\ preserved w w' /\
          heap w !! data q = None)) /\
    (forall year_arg,
        returns (to_cross_section year_arg self) w (fun l w' =>
          heap w' !! data self = Some df /\ preserved w w' /\
          heap w !! l = None)) /\
    (forall cols,
        returns (get_transitions cols self) w (fun l w' =>
          heap w' !! data self = Some df /\ preserved w w' /\
          heap w !! l = None)) /\
    (forall interview_col relationship_col marital_col age_col,
        returns
          (get_household_transitions self interview_col relationship_col
             marital_col age_col) w
          (fun _ w' => heap w' !! data self = Some df /\ preserved w w')).
Proof.
  intros self w df Hdf. split_and!; intros.
  - eapply returns_mono; [by apply balanced_returns|].
    intros q w' [(Hpre & Hnew & _) _]. auto.
  - eapply returns_mono; [by apply min_periods_returns|].
    intros q w' [(Hpre & Hnew & _) _]. auto.
  - eapply returns_mono; [by apply to_cross_section_returns|].
    intros l w' (Hpre & Hnew & _). auto.
  - eapply returns_mono; [by apply get_transitions_returns|].
    intros l w' (Hpre & Hnew & _). auto.
  - eapply returns_mono; [by apply get_household_transitions_returns|].
    intros events w' (_ & Hpre & _). auto.
Qed.

Lemma panel_operations_do_not_mutate_witness :
  returns (get_transitions (Some ["income"]) example_panel) example_world
    (fun l w' =>
       heap w' !! data example_panel = Some example_table /\
       preserved example_world w' /\ heap example_world !! l = None).
Proof.
  apply (panel_operations_do_not_mutate example_panel example_world example_table).
  reflexivity.
Defined.

(** ** Lists *)

Lemma omap_cons_option_list {A B} (f : A -> option B) x l :
  omap f (x :: l) = option_list (f x) ++ omap f l.
Proof. simpl. destruct (f x); reflexivity. Qed.

Lemma omap_nil_iff {A B} (f : A -> option B) (l : list A) :
  omap f l = [] <-> forall x, x ∈ l -> f x = None.
Proof.
  induction l as [|a l IH].
  - split; [intros _ x Hx; by apply elem_of_nil in Hx | reflexivity].
  - rewrite omap_cons_option_list. split.
    + intros Hnil x Hx. apply app_eq_nil in Hnil as [Ha Hl].
      apply elem_of_cons in Hx as [->|Hx]; [by destruct (f a) | by apply IH].
    + intros Hall. rewrite (Hall a) by apply list_elem_of_here. simpl.
      apply IH. intros x Hx. by apply Hall, list_elem_of_further.
Qed.

Lemma elem_of_flat_map {A B} (f : A -> list B) (l : list A) (b : B) :
  b ∈ flat_map f l <-> exists a, a ∈ l /\ b ∈ f a.
Proof.
  rewrite list_elem_of_In, in_flat_map. split; intros (a & Ha & Hb); exists a.
  - by rewrite !list_elem_of_In.
  - by rewrite <- !list_elem_of_In.
Qed.

(** ** Transition pairs: one row per pair of consecutive observations *)

Lemma filter_fmap_comm {A B} (f : A -> B) (P : B -> Prop)
    `{!forall b, Decision (P b)} (l : list A) :
  filter P (f <$> l) = f <$> filter (fun a => P (f a)) l.
Proof.
  induction l as [|a l IH]; [reflexivity|].
  rewrite fmap_cons, !filter_cons. destruct (decide (P (f a))); rewrite IH; reflexivity.
Qed.

Lemma adjacent_pairs_fmap {A B} (f : A -> B) (l : list A) :
  adjacent_pairs (f <$> l) = prod_map f f <$> adjacent_pairs l.
Proof.
  induction l as [|x [|y l] IH]; [reflexivity..|].
  change (adjacent_pairs (f <$> x :: y :: l))
    with ((f x, f y) :: adjacent_pairs (f <$> y :: l)).
  rewrite IH. reflexivity.
Qed.

Lemma length_adjacent_pairs {A} (l : list A) :
  length (adjacent_pairs l) = (length l - 1)%nat.
Proof.
  induction l as [|x [|y l] IH]; [reflexivity..|].
  change (adjacent_pairs (x :: y :: l)) with ((x, y) :: adjacent_pairs (y :: l)).
  simpl in *. rewrite IH. lia.
Qed.

Lemma adjacent_pairs_cons {A} (x : A) (l : list A) :
  adjacent_pairs (x :: l) =
  match head l with Some y => (x, y) :: adjacent_pairs l | None => [] end.
Proof. destruct l; reflexivity. Qed.

Lemma skeleton_person_rows i l :
  skeleton (person_rows i l) = filter (fun s => s.1 = i) (skeleton l).
Proof. unfold skeleton, person_rows. by rewrite filter_fmap_comm. Qed.

(** Among the pairs, those of person [i] are the consecutive pairs of the
    rows of person [i]. *)
Lemma pair_summaries_person i sk :
  filter (fun t => t.1.1 = i) (pair_summaries sk) =
  (fun p => (i, p.1, Some (PyInt p.2)))
    <$> adjacent_pairs (snd <$> filter (fun s => s.1 = i) sk).
Proof.
  induction sk as [|[j y] rest IH]; [reflexivity|].
  rewrite filter_cons. simpl.
  destruct (decide (j = i)) as [->|Hne].
  - rewrite fmap_cons, adjacent_pairs_cons. simpl.
    destruct (filter (fun s => s.1 = i) rest) as [|[i' y'] more] eqn:E.
    + simpl. rewrite IH. reflexivity.
    + simpl. rewrite filter_cons_True by reflexivity. rewrite IH. reflexivity.
  - destruct (head (filter (fun s => s.1 = j) rest)) as [next|].
    + rewrite filter_cons_False by (simpl; congruence). exact IH.
    + exact IH.
Qed.

Lemma length_group_shift get l : length (group_shift get l) = length l.
Proof. induction l as [|row rest IH]; simpl; [reflexivity | by rewrite IH]. Qed.

Lemma skeleton_set_column name values df :
  length values = length (rows df) ->
  skeleton (rows (set_column name values df)) = skeleton (rows df).
Proof.
  unfold set_column, skeleton. simpl. generalize (rows df). clear df.
  intros l. revert values.
  induction l as [|row l IH]; intros [|v values] Hlen; try discriminate; [reflexivity|].
  simpl. rewrite IH by (simpl in Hlen; lia). reflexivity.
Qed.

Lemma skeleton_shift_step state col :
  skeleton (rows (shift_step state col).1) = skeleton (rows state.1).
Proof.
  unfold shift_step. destruct (decide (col ∈ columns state.1)); [|reflexivity].
  simpl. apply skeleton_set_column, length_group_shift.
Qed.

Lemma skeleton_shift_steps cols state :
  skeleton (rows (foldl shift_step state cols).1) = skeleton (rows state.1).
Proof.
  revert state. induction cols as [|col cols IH]; intros state; [reflexivity|].
  simpl. rewrite IH. apply skeleton_shift_step.
Qed.

Lemma lookup_set_cell name v cs : lookup_cell name (set_cell name v cs) = Some v.
Proof.
  induction cs as [|[name' w] cs IH]; simpl.
  - by rewrite decide_True.
  - destruct (decide (name' = name)) as [->|Hne]; simpl.
    + by rewrite decide_True.
    + by rewrite decide_False.
Qed.

(** The rows of the transitions table, read off the table it is built
    from. *)
Lemma summary_transition_rows rename result_cols (current : DataFrame) :
  summary <$>
    rows (rename_columns rename
           (dropna "year_t1"
              (select_columns ("year_t1" :: result_cols)
                 (set_column "year_t1"
                    (group_shift (fun row => PyInt (year row)) (rows current))
                    current)))) =
  pair_summaries (skeleton (rows current)).
Proof.
  unfold rename_columns, dropna, select_columns, set_column. simpl.
  generalize (rows current). clear current. intros l.
  induction l as [|row rest IH]; [reflexivity|].
  simpl. unfold next_in_group. rewrite <- skeleton_person_rows.
  destruct (person_rows (person_id row) rest) as [|next more] eqn:E; simpl.
  - rewrite filter_cons_False; [exact IH|].
    unfold row_get. simpl. rewrite lookup_set_cell. simpl. discriminate.
  - rewrite filter_cons_True.
    + rewrite !fmap_cons. f_equal; [|exact IH].
      unfold summary, next_year. simpl. by rewrite lookup_set_cell.
    + unfold row_get. simpl. by rewrite lookup_set_cell.
Qed.

(** In a table sorted by person and year, the rows of one person come in
    the order of their years. *)
Lemma person_rows_sorted i l :
  StronglySorted by_id_time l -> Sorted by_time (person_rows i l).
Proof.
  intros Hsorted. apply StronglySorted_Sorted.
  induction l as [|row rest IH]; [constructor|].
  apply StronglySorted_cons in Hsorted as [Hrow Hrest].
  unfold person_rows. rewrite filter_cons.
  destruct (decide (person_id row = i)) as [Hid|Hid]; [|by apply IH].
  apply StronglySorted_cons. split; [|by apply IH].
  apply Forall_forall. intros r' [Hid' Hin]%list_elem_of_filter.
  rewrite Forall_forall in Hrow. specialize (Hrow r' Hin).
  unfold by_id_time, by_time in *. lia.
Qed.

Lemma person_rows_sort_values i l :
  person_rows i (merge_sort by_id_time l) ≡ₚ person_rows i l /\
  Sorted by_time (person_rows i (merge_sort by_id_time l)).
Proof.
  split.
  - unfold person_rows. by rewrite merge_sort_Permutation.
  - apply person_rows_sorted, StronglySorted_merge_sort; apply _.
Qed.

(** The transition rows of person [i] are the consecutive pairs of the
    rows of person [i] in the sorted table. *)
Lemma transitions_table_person cols df i :
  summary <$> person_rows i (rows (transitions_table cols df)) =
  (fun p => (i, year p.1, Some (PyInt (year p.2))))
    <$> adjacent_pairs (person_rows i (merge_sort by_id_time (rows df))).
Proof.
  transitivity (filter (fun t => t.1.1 = i)
                  (summary <$> rows (transitions_table cols df))).
  { by rewrite filter_fmap_comm. }
  unfold transitions_table, shifted_table.
  rewrite summary_transition_rows, skeleton_shift_steps. simpl.
  rewrite pair_summaries_person, <- skeleton_person_rows.
  unfold skeleton. rewrite <- list_fmap_compose, adjacent_pairs_fmap.
  rewrite <- list_fmap_compose. reflexivity.
Qed.

Lemma filter_none {A} (P : A -> Prop) `{!forall x, Decision (P x)} (l : list A) :
  (forall x, x ∈ l -> ~ P x) -> filter P l = [].
Proof.
  induction l as [|a l IH]; intros Hnone; [reflexivity|].
  rewrite filter_cons_False by apply Hnone, list_elem_of_here.
  apply IH. intros x Hx. by apply Hnone, list_elem_of_further.
Qed.

(** The elements a key contributes to a concatenation over distinct
    keys. *)
Lemma filter_flat_map_key {A} (key : A -> Z) (G : Z -> list A) (keys : list Z) i :
  NoDup keys -> (forall k x, x ∈ G k -> key x = k) ->
  filter (fun x => key x = i) (flat_map G keys) =
  if decide (i ∈ keys) then G i else [].
Proof.
  intros Hnodup Hkey. induction Hnodup as [|k keys Hk Hnodup IH]; [reflexivity|].
  simpl. rewrite filter_app, IH. destruct (decide (k = i)) as [->|Hne].
  - rewrite (decide_False (P := i ∈ keys)) by exact Hk.
    rewrite decide_True by apply list_elem_of_here. rewrite app_nil_r.
    apply filter_all. intros x Hx. by apply Hkey.
  - rewrite (filter_none _ (G k)) by (intros x Hx; rewrite (Hkey k x Hx); exact Hne).
    simpl. apply decide_ext. rewrite elem_of_cons. split; [tauto|].
    intros [Heq|Hin]; [congruence | exact Hin].
Qed.

Lemma adjacent_pairs_short {A} (l : list A) :
  (length l < 2)%nat -> adjacent_pairs l = [].
Proof. intros Hlen. apply nil_length_inv. rewrite length_adjacent_pairs. lia. Qed.

(** The events of person [i] are the consecutive pairs of the rows of
    person [i], sorted by year. *)
Lemma household_transitions_person interview_col relationship_col
    marital_col age_col df i :
  filter (fun e => tr_person_id e = i)
    (household_transitions interview_col relationship_col marital_col age_col df) =
  (fun p => transition_row interview_col relationship_col marital_col age_col
              i p.1 p.2)
    <$> adjacent_pairs
          (merge_sort by_time (person_rows i (merge_sort by_id_time (rows df)))).
Proof.
  unfold household_transitions, groupby, sort_values. cbn [rows].
  set (l := merge_sort by_id_time (rows df)).
  set (G := fun k => group_transitions interview_col relationship_col
                       marital_col age_col (k, person_rows k l)).
  assert (Hflat : forall keys,
            flat_map (group_transitions interview_col relationship_col
                        marital_col age_col)
              ((fun k => (k, person_rows k l)) <$> keys) = flat_map G keys).
  { induction keys as [|k keys IH]; [reflexivity|]. simpl. f_equal. exact IH. }
  rewrite Hflat, (filter_flat_map_key tr_person_id G).
  - assert (HG : G i =
      (fun p => transition_row interview_col relationship_col marital_col age_col
                  i p.1 p.2)
        <$> adjacent_pairs (merge_sort by_time (person_rows i l))).
    { unfold G, group_transitions. simpl.
      destruct (decide (length (person_rows i l) < 2)%nat) as [Hlen|]; [|reflexivity].
      rewrite adjacent_pairs_short; [reflexivity|].
      by rewrite merge_sort_Permutation. }
    destruct (decide (i ∈ group_keys l)) as [Hin|Hout]; [exact HG|].
    rewrite adjacent_pairs_short; [reflexivity|].
    rewrite merge_sort_Permutation.
    assert (Hnil : person_rows i l = []).
    { apply person_rows_nil. intros row Hrow Hid. apply Hout, elem_of_group_keys.
      by exists row. }
    rewrite Hnil. simpl. lia.
  - apply NoDup_group_keys.
  - intros k e. unfold G, group_transitions. simpl.
    destruct (decide (length (person_rows k l) < 2)%nat); [by intros ?%elem_of_nil|].
    intros (p & -> & _)%list_elem_of_fmap. reflexivity.
Qed.

(** ** Transition pairs: the values of the two observations *)

Lemma length_append s t :
  String.length (s +:+ t) = (String.length s + String.length t)%nat.
Proof. induction s as [|c s IH]; simpl; [reflexivity | by rewrite IH]. Qed.

Lemma append_inj_r s1 s2 t : s1 +:+ t = s2 +:+ t -> s1 = s2.
Proof.
  revert s2. induction s1 as [|a s1 IH]; intros [|b s2] Heq.
  - reflexivity.
  - apply (f_equal String.length) in Heq. rewrite !length_append in Heq.
    simpl in Heq. lia.
  - apply (f_equal String.length) in Heq. rewrite !length_append in Heq.
    simpl in Heq. lia.
  - injection Heq as -> Heq. f_equal. by apply IH.
Qed.

Lemma last_char_append s t : t <> "" -> last_char (s +:+ t) = last_char t.
Proof.
  intros Ht. induction s as [|c s IH]; simpl; [reflexivity|].
  rewrite IH. destruct t as [|d t]; [done|]. simpl. by destruct (last_char t).
Qed.

(** The names [get_transitions] makes are told apart by their endings. *)
Lemma suffixed_names_differ c c' :
  c +:+ "_t" <> c' +:+ "_t1" /\ "year_t1" <> c +:+ "_t".
Proof.
  split; intros Heq; apply (f_equal last_char) in Heq;
    rewrite ?last_char_append in Heq by discriminate; discriminate Heq.
Qed.

Lemma lookup_set_cell_ne name n v cs :
  n <> name -> lookup_cell n (set_cell name v cs) = lookup_cell n cs.
Proof.
  intros Hne. induction cs as [|[name' w] cs IH]; simpl.
  - by rewrite decide_False by congruence.
  - destruct (decide (name' = name)) as [->|Hne']; simpl.
    + by rewrite !decide_False by congruence.
    + destruct (decide (name' = n)); [reflexivity | exact IH].
Qed.

Lemma fst_with_next l : (with_next l).*1 = l.
Proof.
  induction l as [|row rest IH]; [reflexivity|].
  cbn [with_next]. by rewrite fmap_cons, IH.
Qed.

Lemma group_shift_with_next get l :
  group_shift get l = (fun sn => from_option get PyNaN sn.2) <$> with_next l.
Proof.
  induction l as [|row rest IH]; [reflexivity|].
  cbn [with_next group_shift]. by rewrite fmap_cons, IH.
Qed.

(** The shifted column depends on the persons and on the values of the
    column only. *)
Lemma group_shift_ext get (R S : list Observation) :
  Forall2 (fun r s => person_id r = person_id s /\ get r = get s) R S ->
  group_shift get R = group_shift get S.
Proof.
  induction 1 as [|r s R S [Hid Hget] Hrest IH]; [reflexivity|].
  simpl. rewrite IH, Hid. f_equal. unfold next_in_group, person_rows.
  clear -Hrest. induction Hrest as [|r' s' R S [Hid' Hget'] _ IH]; [reflexivity|].
  rewrite !filter_cons, Hid'.
  destruct (decide (person_id s' = person_id s)); [exact Hget' | exact IH].
Qed.

Lemma Forall2_zip_with_values {A B C} (P P' : A -> B -> Prop) (g : A -> C -> A)
    (f : B -> C) (R : list A) (W : list B) :
  (forall r w, P r w -> P' (g r (f w)) w) ->
  Forall2 P R W -> Forall2 P' (zip_with g R (f <$> W)) W.
Proof.
  intros Hstep. induction 1 as [|r w R W Hrw _ IH]; [constructor|].
  rewrite fmap_cons. cbn [zip_with]. constructor; [by apply Hstep | exact IH].
Qed.

Lemma shift_steps_spec (T0 : DataFrame) (done : list string) :
  (forall c c', c ∈ done -> c' ∈ done -> c' <> c +:+ "_t1") ->
  Forall2 (shifted_row done T0)
    (rows (foldl shift_step (T0, []) done).1) (with_next (rows T0)) /\
  (forall n, n ∈ columns (foldl shift_step (T0, []) done).1 <->
             n ∈ columns T0 \/
             exists c, c ∈ done /\ c ∈ columns T0 /\ n = c +:+ "_t1") /\
  (foldl shift_step (T0, []) done).2 =
    flat_map (fun c => [c; c +:+ "_t1"]) (filter (fun c => c ∈ columns T0) done).
Proof.
  induction done as [|col done IH] using rev_ind; intros Hclean.
  - cbn [foldl fst snd]. split_and!.
    + generalize (rows T0). intros l. induction l as [|row rest IHl]; [constructor|].
      cbn [with_next]. constructor; [|exact IHl].
      split_and!; [reflexivity.. | |]; [done | by intros c ?%elem_of_nil].
    + intros n. split; [by left|]. intros [Hn|(c & Hc%elem_of_nil & _)]; done.
    + reflexivity.
  - destruct IH as (Hrows & Hcolumns & Hresult).
    { intros c c' Hc Hc'. apply Hclean; apply elem_of_app; by left. }
    rewrite foldl_snoc. set (st := foldl shift_step (T0, []) done) in *.
    assert (Hcol : col ∈ columns st.1 <-> col ∈ columns T0).
    { rewrite Hcolumns. split; [|by left].
      intros [Hin|(c & Hc & _ & Heq)]; [exact Hin|].
      destruct (Hclean c col); [apply elem_of_app; by left | | exact Heq].
      apply elem_of_app. right. apply list_elem_of_here. }
    unfold shift_step. destruct (decide (col ∈ columns st.1)) as [Hin|Hout].
    + apply Hcol in Hin. cbn [fst snd]. split_and!.
      * unfold set_column. cbn [rows].
        rewrite (group_shift_ext _ (rows st.1) (rows T0)), group_shift_with_next.
        -- apply (Forall2_zip_with_values (shifted_row done T0)); [|exact Hrows].
           intros r sn (Hid & Hyear & Hsame & Hshift).
           unfold shifted_row, with_cells. cbn [person_id year cells].
           split_and!; [exact Hid | exact Hyear | |].
           ++ intros n Hn. rewrite lookup_set_cell_ne.
              ** apply Hsame. intros c Hc. apply Hn, elem_of_app. by left.
              ** apply Hn; [|exact Hin]. apply elem_of_app. right. apply list_elem_of_here.
           ++ intros c [Hc|Hc%list_elem_of_singleton]%elem_of_app Hc0.
              ** destruct (decide (c = col)) as [->|Hne];
                   [by rewrite lookup_set_cell|].
                 rewrite lookup_set_cell_ne; [by apply Hshift|].
                 intros Heq. by apply append_inj_r in Heq.
              ** subst c. by rewrite lookup_set_cell.
        -- rewrite <- (fst_with_next (rows T0)). apply Forall2_fmap_r.
           eapply Forall2_impl; [exact Hrows|].
           intros r sn (Hid & _ & Hsame & _). split; [exact Hid|].
           unfold row_get. f_equal. apply Hsame. intros c Hc _ Heq.
           destruct (Hclean c col); [apply elem_of_app; by left | | exact Heq].
           apply elem_of_app. right. apply list_elem_of_here.
      * intros n. unfold set_column. cbn [columns].
        assert (Hn : n ∈ columns st.1 \/ n = col +:+ "_t1" <->
                     n ∈ columns T0 \/
                     exists c, c ∈ done ++ [col] /\ c ∈ columns T0 /\ n = c +:+ "_t1").
        { rewrite Hcolumns. split.
          - intros [[H|(c & Hc & Hc0 & Heq)]|Heq]; [by left | right..].
            + exists c. split_and!; [apply elem_of_app; by left | done..].
            + exists col. split_and!; [|done..].
              apply elem_of_app. right. apply list_elem_of_here.
          - intros [H|(c & [Hc|Hc%list_elem_of_singleton]%elem_of_app & Hc0 & Heq)].
            + left. by left.
            + left. right. by exists c.
            + right. by subst c. }
        rewrite <- Hn. destruct (decide (col +:+ "_t1" ∈ columns st.1)) as [Hnew|Hnew].
        -- split; [by left|]. intros [H| ->]; done.
        -- rewrite elem_of_app, list_elem_of_singleton. reflexivity.
      * rewrite Hresult, filter_app, flat_map_app. f_equal.
        rewrite filter_cons_True by exact Hin. reflexivity.
    + assert (Hout0 : col ∉ columns T0) by (intros H; by apply Hout, Hcol).
      split_and!.
      * eapply Forall2_impl; [exact Hrows|].
        intros r sn (Hid & Hyear & Hsame & Hshift).
        split_and!; [exact Hid | exact Hyear | |].
        -- intros n Hn. apply Hsame. intros c Hc. apply Hn, elem_of_app. by left.
        -- intros c [Hc|Hc%list_elem_of_singleton]%elem_of_app Hc0;
             [by apply Hshift | by subst c].
      * intros n. rewrite Hcolumns. split.
        -- intros [H|(c & Hc & Hc0 & Heq)]; [by left | right].
           exists c. split_and!; [apply elem_of_app; by left | done..].
        -- intros [H|(c & [Hc|Hc%list_elem_of_singleton]%elem_of_app & Hc0 & Heq)];
             [by left | right; by exists c | by subst c].
      * rewrite Hresult, filter_app, filter_cons_False, filter_nil, app_nil_r
          by exact Hout0. reflexivity.
Qed.

(** A cell of a row whose columns were selected and renamed. *)
Lemma lookup_renamed (rename : string -> string) (v : string -> pyval)
    (names : list string) n m :
  (forall m', m' ∈ names -> rename m' = n -> m' = m) ->
  m ∈ names -> rename m = n ->
  lookup_cell n (prod_map rename id <$> ((fun c => (c, v c)) <$> names)) = Some (v m).
Proof.
  intros Honly Hin Hname. induction names as [|c names IH]; [by apply elem_of_nil in Hin|].
  rewrite !fmap_cons. cbn [lookup_cell prod_map fst snd id].
  destruct (decide (rename c = n)) as [Hc|Hc].
  - by rewrite (Honly c (list_elem_of_here _ _) Hc).
  - apply IH.
    + intros m' Hm'. by apply Honly, list_elem_of_further.
    + apply elem_of_cons in Hin as [->|Hin]; [done | exact Hin].
Qed.

Lemma Forall2_filter_omap {A B C} (P : A -> B -> Prop) (P' : A -> C -> Prop)
    (keep : A -> Prop) `{!forall a, Decision (keep a)} (f : B -> option C)
    (R : list A) (W : list B) :
  (forall r w, P r w -> match f w with Some c => keep r /\ P' r c | None => ~ keep r end) ->
  Forall2 P R W -> Forall2 P' (filter keep R) (omap f W).
Proof.
  intros Hstep. induction 1 as [|r w R W Hrw _ IH]; [constructor|].
  rewrite filter_cons. cbn [omap list_omap]. specialize (Hstep r w Hrw).
  destruct (f w) as [c|].
  - destruct Hstep as [Hkeep Hc]. rewrite decide_True by exact Hkeep.
    by constructor.
  - by rewrite decide_False.
Qed.

Lemma shifted_table_rows cols df :
  clean_columns cols ->
  Forall2 (current_row cols df)
    (rows (shifted_table cols df)) (with_next (merge_sort by_id_time (rows df))).
Proof.
  intros (Hyear & Hyear1 & Hclean).
  set (T0 := sort_values by_id_time df).
  destruct (shift_steps_spec T0 cols Hclean) as (Hrows & _).
  unfold shifted_table. cbv zeta. fold T0.
  set (st := foldl shift_step (T0, []) cols) in *.
  unfold set_column. cbn [rows].
  rewrite (group_shift_ext _ (rows st.1) (rows T0)), group_shift_with_next.
  - apply (Forall2_zip_with_values (shifted_row cols T0)); [|exact Hrows].
    intros r sn (Hid & Hy & Hsame & Hshift).
    unfold current_row, with_cells. cbn [person_id year cells].
    split_and!; [exact Hid | exact Hy | apply lookup_set_cell |].
    intros c Hc Hc0. split.
    + unfold row_get. cbn [cells]. rewrite lookup_set_cell_ne by congruence.
      f_equal. apply Hsame. intros c' Hc' _. by apply Hclean.
    + rewrite lookup_set_cell_ne; [by apply Hshift|].
      intros Heq. apply (append_inj_r c "year" "_t1") in Heq. congruence.
  - rewrite <- (fst_with_next (rows T0)). apply Forall2_fmap_r.
    eapply Forall2_impl; [exact Hrows|].
    intros r sn (Hid & Hy & _). split; [exact Hid | by rewrite Hy].
Qed.

(** The rows of the transitions table against the rows of the sorted
    table that have a next row. *)
Lemma transitions_table_rows cols df :
  clean_columns cols ->
  Forall2 (pairs_observations cols df)
    (rows (transitions_table cols df))
    (consecutive (merge_sort by_id_time (rows df))).
Proof.
  intros Hcols. pose proof (shifted_table_rows cols df Hcols) as Hcurrent.
  destruct Hcols as (Hyear & Hyear1 & Hclean).
  destruct (shift_steps_spec (sort_values by_id_time df) cols Hclean)
    as (_ & Hcolumns & Hresult).
  unfold transitions_table. cbv zeta.
  set (st := foldl shift_step (sort_values by_id_time df, []) cols) in *.
  set (current := shifted_table cols df) in *.
  set (rename := fun c : string =>
         if decide (c ∈ cols /\ c ∈ columns current) then c +:+ "_t" else c).
  set (names := "year_t1" :: st.2).
  assert (Hnames : forall m, m ∈ names <->
            m = "year_t1" \/
            exists c, c ∈ cols /\ c ∈ columns df /\ (m = c \/ m = c +:+ "_t1")).
  { intros m. subst names. rewrite elem_of_cons, Hresult. cbn [columns sort_values].
    rewrite elem_of_flat_map. split.
    - intros [->|(c & [Hc0 Hc]%list_elem_of_filter & Hm)]; [by left | right].
      exists c. rewrite !elem_of_cons, elem_of_nil in Hm. split_and!; [done.. | tauto].
    - intros [->|(c & Hc & Hc0 & Hm)]; [by left | right].
      exists c. split; [by apply list_elem_of_filter|].
      rewrite !elem_of_cons, elem_of_nil. tauto. }
  assert (Hrenamed : forall c, c ∈ cols -> c ∈ columns df -> rename c = c +:+ "_t").
  { intros c Hc Hc0. subst rename. cbv beta. rewrite decide_True; [reflexivity|].
    split; [exact Hc|]. subst current. unfold shifted_table, set_column. cbn [columns].
    fold st. assert (c ∈ columns st.1) by (apply Hcolumns; by left).
    destruct (decide _); [done | apply elem_of_app; by left]. }
  assert (Hkept : forall m, m ∉ cols -> rename m = m).
  { intros m Hm. subst rename. cbv beta. rewrite decide_False; [reflexivity | tauto]. }
  assert (Hshifted : forall c, c ∈ cols -> c +:+ "_t1" ∉ cols).
  { intros c Hc Hin. by apply (Hclean c (c +:+ "_t1")). }
  unfold rename_columns, dropna, select_rows, select_columns. cbn [rows].
  fold names. rewrite filter_fmap_comm.
  apply Forall2_fmap_l, Forall2_fmap_l.
  apply (Forall2_filter_omap (current_row cols df)); [|exact Hcurrent].
  intros r [s next] (Hid & Hy & Hnext & Hvalues). cbn [fst snd] in *.
  set (v := fun c => default PyNone (lookup_cell c (cells r))).
  assert (Hlookup : forall n m,
            (forall m', m' ∈ names -> rename m' = n -> m' = m) ->
            m ∈ names -> rename m = n ->
            row_get (with_cells (fmap (prod_map rename id))
                       (with_cells (fun cs => (fun c => (c, default PyNone (lookup_cell c cs)))
                                                <$> names) r)) n = v m).
  { intros n m Honly Hm Hn.
    exact (f_equal (default PyNone) (lookup_renamed rename v names n m Honly Hm Hn)). }
  assert (Hyear_t1 : row_get (with_cells (fun cs => (fun c => (c, default PyNone (lookup_cell c cs)))
                                                     <$> names) r) "year_t1"
                     = from_option (fun next => PyInt (year next)) PyNaN next).
  { unfold row_get, with_cells. cbn [cells]. subst names. rewrite fmap_cons.
    cbn [lookup_cell]. rewrite decide_True by reflexivity. by rewrite Hnext. }
  destruct next as [next|]; cbn [fmap option_fmap option_map from_option] in *.
  - split; [by rewrite Hyear_t1|].
    unfold pairs_observations. cbn [fst snd]. split_and!; [exact Hid | exact Hy | |].
    + rewrite (Hlookup "year_t1" "year_t1").
      * subst v. cbv beta. by rewrite Hnext.
      * intros m' [->|(c & Hc & Hc0 & [->| ->])]%Hnames Hm'; [reflexivity | |].
        -- rewrite (Hrenamed c Hc Hc0) in Hm'.
           by destruct (suffixed_names_differ c c) as [_ H].
        -- by rewrite (Hkept _ (Hshifted c Hc)) in Hm'.
      * apply Hnames. by left.
      * by apply Hkept.
    + intros c Hc Hc0. destruct (Hvalues c Hc Hc0) as [Hvalue Hshift]. split.
      * rewrite (Hlookup (c +:+ "_t") c); [exact Hvalue | | |].
        -- intros m' [->|(c' & Hc' & Hc0' & [->| ->])]%Hnames Hm'.
           ++ rewrite (Hkept _ Hyear1) in Hm'.
              by destruct (suffixed_names_differ c c) as [_ H].
           ++ rewrite (Hrenamed c' Hc' Hc0') in Hm'. by apply append_inj_r in Hm'.
           ++ rewrite (Hkept _ (Hshifted c' Hc')) in Hm'.
              by destruct (suffixed_names_differ c c') as [H _].
        -- apply Hnames. right. exists c. tauto.
        -- by apply Hrenamed.
      * rewrite (Hlookup (c +:+ "_t1") (c +:+ "_t1")).
        -- subst v. cbv beta. by rewrite Hshift.
        -- intros m' [->|(c' & Hc' & Hc0' & [->| ->])]%Hnames Hm'.
           ++ by rewrite (Hkept _ Hyear1) in Hm'.
           ++ rewrite (Hrenamed c' Hc' Hc0') in Hm'.
              by destruct (suffixed_names_differ c' c) as [H _].
           ++ by rewrite (Hkept _ (Hshifted c' Hc')) in Hm'.
        -- apply Hnames. right. exists c. tauto.
        -- by apply Hkept, Hshifted.
  - rewrite Hyear_t1. discriminate.
Qed.

(** Among the rows that have a next row, those of person [i] are the
    consecutive pairs of the rows of person [i]. *)
Lemma consecutive_person i l :
  filter (fun p : Observation * Observation => person_id p.1 = i) (consecutive l) =
  adjacent_pairs (person_rows i l).
Proof.
  unfold consecutive. induction l as [|row rest IH]; [reflexivity|].
  cbn [with_next]. rewrite omap_cons_option_list. cbn [fst snd].
  unfold person_rows in *. rewrite (filter_cons _ row), filter_app.
  destruct (decide (person_id row = i)) as [Hid|Hid].
  - rewrite adjacent_pairs_cons, IH, Hid. unfold next_in_group, person_rows.
    destruct (filter (fun row0 => person_id row0 = i) rest) as [|next more] eqn:E;
      cbn [head fmap option_fmap option_map option_list app]; [reflexivity|].
    change (option_list (Some (row, next))) with [(row, next)].
    by rewrite filter_cons_True.
  - rewrite IH.
    destruct (next_in_group (person_id row) rest) as [next|];
      cbn [fmap option_fmap option_map option_list app]; [|reflexivity].
    change (option_list (Some (row, next))) with [(row, next)].
    by rewrite filter_cons_False.
Qed.

Lemma transition_row_event interview_col relationship_col marital_col age_col i
    (pair : Observation * Observation) :
  transition_row interview_col relationship_col marital_col age_col i pair.1 pair.2 =
  TransitionEvent interview_col relationship_col marital_col age_col i pair.
Proof.
  unfold transition_row, TransitionEvent. cbv zeta. f_equal.
  apply (classify_first_match
           {| household_key_from := row_get pair.1 interview_col;
              household_key_to := row_get pair.2 interview_col;
              relationship_from := row_get pair.1 relationship_col;
              relationship_to := row_get pair.2 relationship_col;
              marital_from := optional_get marital_col pair.1;
              marital_to := optional_get marital_col pair.2 |}
           (optional_get age_col pair.1) (optional_get age_col pair.2)).
Qed.

(** C3. For every panel and every person [i], both transition
    extractions yield, for that person, one row per pair of consecutive
    observations: the person's observations being put in the order of their
    years, the rows of person [i] are, in order, the pairs of each
    observation with the next one, whatever the gap between the two years.
    A person with k observations so gets k-1 rows, a person with one
    observation none, and both observations of a row are observations of
    the same person.  A row of [get_transitions] bears the person and the
    year of the first observation and the year of the second; when the
    requested columns are clean it holds, for every requested column of the
    panel, the value of the first observation under [c_t] and the value of
    the second under [c_t1].  An event of [get_household_transitions] is
    the event of the design document for the pair: the years, household
    keys, relationship and marital codes and ages of the two observations,
    the category of the decision list and the household-changed flag. *)
Theorem transitions_pair_consecutive_observations :
  forall (self : Panel) (w : World) (df : DataFrame) (i : Z),
    heap w !! data self = Some df ->
    (forall cols,
        returns (get_transitions cols self) w (fun l w' =>
          exists table obs,
            heap w' !! l = Some table /\
            obs ≡ₚ person_rows i (rows df) /\ Sorted by_time obs /\
            summary <$> person_rows i (rows table) =
              (fun p => (i, year p.1, Some (PyInt (year p.2))))
                <$> adjacent_pairs obs /\
            (clean_columns (effective_cols cols self) ->
             Forall2 (pairs_observations (effective_cols cols self) df)
               (person_rows i (rows table)) (adjacent_pairs obs)) /\
            length (person_rows i (rows table)) = (observation_count i df - 1)%nat /\
            (observation_count i df = 1%nat -> person_rows i (rows table) = []))) /\
    (forall interview_col relationship_col marital_col age_col,
        returns
          (get_household_transitions self interview_col relationship_col
             marital_col age_col) w
          (fun events w' =>
             exists obs,
               obs ≡ₚ person_rows i (rows df) /\ Sorted by_time obs /\
               filter (fun e => tr_person_id e = i) events =
                 (fun p => transition_row interview_col relationship_col
                             marital_col age_col i p.1 p.2)
                   <$> adjacent_pairs obs /\
               filter (fun e => tr_person_id e = i) events =
                 TransitionEvent interview_col relationship_col marital_col age_col i
                   <$> adjacent_pairs obs /\
               length (filter (fun e => tr_person_id e = i) events) =
                 (observation_count i df - 1)%nat /\
               (observation_count i df = 1%nat ->
                filter (fun e => tr_person_id e = i) events = []))).
Proof.
  intros self w df i Hdf. split.
  - intros cols. eapply returns_mono; [by apply get_transitions_returns|].
    intros l w' (_ & _ & Htable & _).
    destruct (person_rows_sort_values i (rows df)) as [Hperm Hsorted].
    eexists _, _. split; [exact Htable|].
    split; [exact Hperm|]. split; [exact Hsorted|].
    pose proof (transitions_table_person (effective_cols cols self) df i) as Hrows.
    split; [exact Hrows|].
    assert (Hlen : length (person_rows i (rows (transitions_table
                      (effective_cols cols self) df))) =
                   (observation_count i df - 1)%nat).
    { apply (f_equal length) in Hrows.
      rewrite !length_fmap, length_adjacent_pairs, Hperm in Hrows. exact Hrows. }
    split; [|split; [exact Hlen|]].
    + intros Hclean. rewrite <- consecutive_person. unfold person_rows.
      apply (Forall2_filter _ _ _ _ _);
        [|by apply transitions_table_rows].
      intros row pair (Hid & _). by rewrite Hid.
    + intros Hone. apply nil_length_inv. rewrite Hlen, Hone. reflexivity.
  - intros interview_col relationship_col marital_col age_col.
    eapply returns_mono; [by apply get_household_transitions_returns|].
    intros events w' (-> & _ & _).
    pose proof (household_transitions_person interview_col relationship_col
                  marital_col age_col df i) as Hrows.
    destruct (person_rows_sort_values i (rows df)) as [Hperm _].
    exists (merge_sort by_time (person_rows i (merge_sort by_id_time (rows df)))).
    split; [by rewrite merge_sort_Permutation|].
    split; [apply Sorted_merge_sort; apply _|].
    split; [exact Hrows|].
    assert (Hlen : length (filter (fun e => tr_person_id e = i)
                     (household_transitions interview_col relationship_col
                        marital_col age_col df)) =
                   (observation_count i df - 1)%nat).
    { rewrite Hrows, length_fmap, length_adjacent_pairs.
      by rewrite merge_sort_Permutation, Hperm. }
    split; [|split; [exact Hlen|]].
    + rewrite Hrows. apply list_fmap_ext. intros k p _. apply transition_row_event.
    + intros Hone. apply nil_length_inv. rewrite Hlen, Hone. reflexivity.
Qed.

(** The incomes of person 1 of the example panel, and the events of the
    child of the example households, who stays in 2019 and leaves the
    parental home in 2021. *)
Lemma transitions_pair_consecutive_observations_witness :
  returns (get_transitions (Some ["income"]) example_panel) example_world
    (fun l w' =>
       exists table obs,
         heap w' !! l = Some table /\
         obs ≡ₚ person_rows 1 (rows example_table) /\ Sorted by_time obs /\
         summary <$> person_rows 1 (rows table) =
           (fun p => (1, year p.1, Some (PyInt (year p.2))))
             <$> adjacent_pairs obs /\
         (clean_columns (effective_cols (Some ["income"]) example_panel) ->
          Forall2 (pairs_observations (effective_cols (Some ["income"]) example_panel)
                     example_table)
            (person_rows 1 (rows table)) (adjacent_pairs obs)) /\
         length (person_rows 1 (rows table)) =
           (observation_count 1 example_table - 1)%nat /\
         (observation_count 1 example_table = 1%nat ->
          person_rows 1 (rows table) = [])) /\
  clean_columns ["income"] /\
  match get_transitions (Some ["income"]) example_panel example_world with
  | (Ok l, w') =>
      (fun table =>
         (fun row => (year row, row_get row "year_t1",
                      row_get row "income_t", row_get row "income_t1"))
           <$> person_rows 1 (rows table)) <$> heap w' !! l
      = Some [ (2017, PyInt 2019, PyInt 50000, PyInt 52000);
               (2019, PyInt 2021, PyInt 52000, PyInt 55000) ]
  | (Raise _, _) => False
  end /\
  match get_household_transitions households_panel "interview_number" "relationship"
          (Some "marital_status") None households_world with
  | (Ok events, _) =>
      (fun e => (tr_year_from e, tr_year_to e, tr_type e))
        <$> filter (fun e => tr_person_id e = 1) events
      = [ (2017, 2019, SAME_HOUSEHOLD); (2019, 2021, LEAVE_PARENTAL) ]
  | (Raise _, _) => False
  end.
Proof.
  split_and!.
  - apply (transitions_pair_consecutive_observations
             example_panel example_world example_table 1).
    reflexivity.
  - split_and!; [by apply (bool_decide_unpack _); vm_compute.. |].
    intros c c' ->%list_elem_of_singleton ->%list_elem_of_singleton. discriminate.
  - vm_compute. reflexivity.
  - vm_compute. reflexivity.
Defined.

(** ** The sample filter on the core column *)

#[global] Instance SampleType_value_inj : Inj (=) (=) SampleType_value.
Proof. intros [] []; simpl; intros H; first [reflexivity | discriminate H]. Qed.

(** The labels and the strata select the same rows. *)
Lemma filter_labelled (sample_types : list SampleType) (l : list Individual) :
  filter (fun row : Individual * string => row.2 ∈ SampleType_value <$> sample_types)
    (zip l ((fun p => SampleType_value (get_sample_type (ER30001 p))) <$> l)) =
  (fun p => (p, SampleType_value (get_sample_type (ER30001 p))))
    <$> filter (fun p => get_sample_type (ER30001 p) ∈ sample_types) l.
Proof.
  induction l as [|p l IH]; [reflexivity|].
  rewrite fmap_cons. cbn [zip zip_with]. rewrite !filter_cons. cbn [snd].
  fold (zip l ((fun p => SampleType_value (get_sample_type (ER30001 p))) <$> l)).
  rewrite IH.
  destruct (decide (get_sample_type (ER30001 p) ∈ sample_types)) as [Hin|Hout].
  - rewrite decide_True; [reflexivity|].
    apply list_elem_of_fmap. by eexists.
  - rewrite decide_False; [reflexivity|].
    intros (t & Ht & Hin)%list_elem_of_fmap. apply (inj _) in Ht. congruence.
Qed.

Lemma fmap_fst_pair {A B} (f : A -> B) (l : list A) :
  fst <$> ((fun p => (p, f p)) <$> l) = l.
Proof. induction l as [|a l IH]; [reflexivity|]. rewrite !fmap_cons, IH. reflexivity. Qed.

Lemma fmap_snd_pair {A B} (f : A -> B) (l : list A) :
  snd <$> ((fun p => (p, f p)) <$> l) = f <$> l.
Proof. induction l as [|a l IH]; [reflexivity|]. rewrite !fmap_cons, IH. reflexivity. Qed.

Lemma parse_sample_arg_is_not_None sample sample_types :
  _parse_sample_arg sample = Ok (Some sample_types) ->
  match sample with ArgNone => false | _ => true end = true.
Proof. by destruct sample. Qed.

Lemma parse_sample_arg_None sample :
  _parse_sample_arg sample = Ok None <-> sample = ArgNone.
Proof.
  split; [|by intros ->].
  destruct sample as [|s|t|items|shown]; simpl; try done.
  - by destruct (SampleType_getitem (upper s)).
  - by destruct (parse_items items []).
Qed.

(** Labelling by a column that holds an integer in every row. *)
Lemma apply_sample_type_integers er30001_col (code : Individual -> Z) l :
  (forall p, p ∈ l -> ind_value p er30001_col = PyInt (code p)) ->
  apply_sample_type er30001_col l =
  Ok ((fun p => SampleType_value (get_sample_type (code p))) <$> l).
Proof.
  induction l as [|p l IH]; intros Hint; [reflexivity|].
  cbn [apply_sample_type]. rewrite (Hint p) by apply list_elem_of_here.
  cbn [py_int]. rewrite IH by (intros q Hq; by apply Hint, list_elem_of_further).
  reflexivity.
Qed.

Lemma sample_type_column_core df :
  "ER30001" ∈ ind_columns df ->
  sample_type_column df "ER30001" =
  Ok ((fun p => SampleType_value (get_sample_type (ER30001 p))) <$> ind_rows df).
Proof.
  intros Hcol. unfold sample_type_column. rewrite decide_True by exact Hcol.
  by apply apply_sample_type_integers.
Qed.

(** What [filter_by_sample] returns when strata are asked for, the labels
    being read off the core column. *)
Lemma filter_by_sample_arg_core df sample add_column sample_types :
  "ER30001" ∈ ind_columns df ->
  _parse_sample_arg sample = Ok (Some sample_types) ->
  filter_by_sample_arg df sample "ER30001" add_column =
  Ok {| sf_columns := ind_columns df;
        sf_rows := filter (fun p => get_sample_type (ER30001 p) ∈ sample_types)
                     (ind_rows df);
        sf_sample_type :=
          Some ((fun p => SampleType_value (get_sample_type (ER30001 p)))
                  <$> filter (fun p => get_sample_type (ER30001 p) ∈ sample_types)
                        (ind_rows df)) |}.
Proof.
  intros Hcol Hparse. unfold filter_by_sample_arg.
  rewrite (parse_sample_arg_is_not_None _ _ Hparse), orb_true_r.
  rewrite (sample_type_column_core df Hcol), Hparse.
  by rewrite filter_labelled, fmap_fst_pair, fmap_snd_pair.
Qed.

(** ** The columns of a wave in the individual file *)

Lemma has_sequence_number_cases year :
  has_sequence_number year <->
  year ∈ [2021; 2019; 2017; 2015; 2013; 2011; 2009; 2007; 2005; 2003; 2001; 1999; 1997].
Proof.
  unfold has_sequence_number. rewrite !elem_of_cons, elem_of_nil. split.
  - intros [Hrange Hodd]. apply Z.odd_spec in Hodd as [k ->]. lia.
  - intros Hyear. repeat (destruct Hyear as [->|Hyear]; [split; [lia | reflexivity]|]).
    done.
Qed.

Lemma get_sequence_number_column_empty year :
  ~ has_sequence_number year -> get_sequence_number_column year = "".
Proof.
  intros Hnone. unfold get_sequence_number_column, seq_cols, dict_get.
  repeat (destruct (decide _) as [<-|?];
          [exfalso; apply Hnone; split; [lia | reflexivity]|]).
  reflexivity.
Qed.

Lemma get_relationship_column_empty year :
  ~ has_sequence_number year -> get_relationship_column year = "".
Proof.
  intros Hnone. unfold get_relationship_column, rel_cols, dict_get.
  repeat (destruct (decide _) as [<-|?];
          [exfalso; apply Hnone; split; [lia | reflexivity]|]).
  reflexivity.
Qed.

(** The interview column of a wave is a core column for 1968 only. *)
Lemma interview_column_not_core year :
  (year <> 1968 -> get_interview_number_column year <> "ER30001") /\
  get_interview_number_column year <> "ER30002" /\
  get_interview_number_column year <> "".
Proof.
  unfold get_interview_number_column, interview_cols, dict_get.
  repeat (destruct (decide _) as [<-|?];
          [cbn [default]; split_and!; [intros ?|..]; done|]).
  cbn [default]. split_and!.
  - intros Hyear [= Hname].
    change (pretty (30000 + (year - 1968) * 100 + 1) = pretty 30001) in Hname.
    apply (inj pretty) in Hname. lia.
  - intros [= Hname].
    change (pretty (30000 + (year - 1968) * 100 + 1) = pretty 30002) in Hname.
    apply (inj pretty) in Hname. lia.
  - discriminate.
Qed.

(** The selection of a year other than 1968, column by column. *)
Lemma individual_year_spec (ind : IndividualFile) year :
  year <> 1968 ->
  individual_year ind (get_interview_number_column year)
    (get_sequence_number_column year) (get_relationship_column year) =
  ( ["ER30001"; "ER30002"]
      ++ (if decide (get_interview_number_column year ∈ ind_columns ind)
          then ["interview_number"] else [])
      ++ (if decide (get_sequence_number_column year <> "" /\
                     get_sequence_number_column year ∈ ind_columns ind)
          then ["sequence"] else [])
      ++ (if decide (get_relationship_column year <> "" /\
                     get_relationship_column year ∈ ind_columns ind)
          then ["relationship"] else []),
    (fun p =>
       {| py_person_id :=
            resolve_identity (ER30001_bits ind) (ER30002_bits ind)
              (ER30001 p) (ER30002 p);
          py_cells :=
            [("ER30001", PyInt (ER30001 p)); ("ER30002", PyInt (ER30002 p))]
            ++ (if decide (get_interview_number_column year ∈ ind_columns ind)
                then [("interview_number",
                       ind_value p (get_interview_number_column year))]
                else [])
            ++ (if decide (get_sequence_number_column year <> "" /\
                           get_sequence_number_column year ∈ ind_columns ind)
                then [("sequence", ind_value p (get_sequence_number_column year))]
                else [])
            ++ (if decide (get_relationship_column year <> "" /\
                           get_relationship_column year ∈ ind_columns ind)
                then [("relationship", ind_value p (get_relationship_column year))]
                else []) |})
      <$> ind_rows ind ).
Proof.
  intros Hyear. unfold individual_year, year_columns.
  destruct (decide (has_sequence_number year)) as [Hseq|Hnone].
  - apply has_sequence_number_cases in Hseq.
    repeat (apply elem_of_cons in Hseq as [->|Hseq];
            [do 3 destruct (decide _); reflexivity|]).
    by apply elem_of_nil in Hseq.
  - rewrite (get_sequence_number_column_empty year Hnone),
            (get_relationship_column_empty year Hnone).
    destruct (interview_column_not_core year) as (Hcore1 & Hcore2 & Hempty).
    specialize (Hcore1 Hyear).
    set (ic := get_interview_number_column year) in *.
    assert (Hrename : friendly_name ic "" "" "ER30001" = "ER30001" /\
                      friendly_name ic "" "" "ER30002" = "ER30002" /\
                      friendly_name ic "" "" ic = "interview_number").
    { unfold friendly_name. split_and!.
      - rewrite (decide_False (P := "ER30001" = ic)) by congruence. reflexivity.
      - rewrite (decide_False (P := "ER30002" = ic)) by congruence. reflexivity.
      - rewrite !(decide_False (P := ic = "" /\ _)) by (intros [_ H]; by apply H).
        by rewrite decide_True. }
    destruct Hrename as (R1 & R2 & R3).
    rewrite !(decide_False (P := "" <> "" /\ _)) by (intros [H _]; by apply H).
    destruct (decide (ic ∈ ind_columns ind)); cbn [app fmap list_fmap];
      rewrite ?R1, ?R2, ?R3; (f_equal; apply list_fmap_ext; intros ? p _; f_equal;
        cbn [app fmap list_fmap]; by rewrite ?R1, ?R2, ?R3).
Qed.

(** In 1968 the interview column is the core column [ER30001], selected
    twice. *)
Lemma individual_year_1968 (ind : IndividualFile) :
  "ER30001" ∈ ind_columns ind ->
  (individual_year ind (get_interview_number_column 1968)
     (get_sequence_number_column 1968) (get_relationship_column 1968)).1 =
  ["interview_number"; "ER30002"; "interview_number"].
Proof.
  intros Hcol. unfold individual_year, year_columns. cbn [fst].
  change (get_interview_number_column 1968) with "ER30001".
  rewrite decide_True by exact Hcol. reflexivity.
Qed.

(** ** Building the panel: years without a family file *)

Lemma run_bind {A B} (m : M A) (f : A -> M B) w a w1 :
  m w = (Ok a, w1) -> (m ≫= f) w = f a w1.
Proof. intros Hm. unfold mbind, M_bind. by rewrite Hm. Qed.

Lemma run_bind_raise {A B} (m : M A) (f : A -> M B) w e w1 :
  m w = (Raise e, w1) -> (m ≫= f) w = (Raise e, w1).
Proof. intros Hm. unfold mbind, M_bind. by rewrite Hm. Qed.

Section BuildPanelFacts.

Variable load_individual : string -> result IndividualFile.
Variable load_family : Z -> string -> option (list string) -> result FamilyFile.
Variables (data_dir : string) (family_vars : option FamilyVars).
Variables (heads_only : bool) (sample_arg : SampleArg).
Variable sample : option (list SampleType).
Variable ind0 : IndividualFile.

Local Abbreviation ind := (ind sample ind0).
Local Abbreviation family_columns := (family_columns family_vars).
Local Abbreviation not_found := (not_found load_family data_dir family_vars).
Local Abbreviation individuals_in_year := (individuals_in_year heads_only sample ind0).
Local Abbreviation year_frame :=
  (year_frame load_family data_dir family_vars heads_only sample ind0).
Local Abbreviation year_lines :=
  (year_lines load_family data_dir family_vars heads_only sample ind0).
Local Abbreviation year_well_formed :=
  (year_well_formed load_family data_dir family_vars sample ind0).
Local Abbreviation world_before_years := (world_before_years sample ind0).

Lemma interview_number_selected year :
  year <> 1968 ->
  get_interview_number_column year ∈ ind_columns ind ->
  filter (fun c => c = "interview_number")
    (individual_year ind (get_interview_number_column year)
       (get_sequence_number_column year) (get_relationship_column year)).1
  = ["interview_number"].
Proof.
  intros Hyear Hcol. rewrite (individual_year_spec ind year Hyear). cbn [fst].
  rewrite decide_True by exact Hcol.
  do 2 destruct (decide (_ /\ _)); reflexivity.
Qed.

(** One turn of the loop. *)
Lemma process_year_returns all_years year w :
  year_well_formed year ->
  returns (process_year load_family data_dir family_vars heads_only ind all_years year) w
    (fun all_years' w' =>
       all_years' = all_years ++ option_list (year_frame year) /\
       heap w' = heap w /\ stdout w' = stdout w ++ year_lines year).
Proof.
  intros (Hyear & Hcol & Hraise & Hfam). unfold process_year. do 2 step. cbv zeta.
  step. rewrite (interview_number_selected year Hyear Hcol).
  step. fold (family_columns year).
  unfold year_frame, year_lines, year_frame. fold (individuals_in_year year).
  destruct (load_family year data_dir (family_columns year)) as [fam|e] eqn:E.
  - specialize (Hfam fam eq_refl).
    destruct (fam_columns fam) as [|c cs] eqn:Ecols; [done|].
    do 3 step. simpl. split_and!; [reflexivity.. |].
    by rewrite <- app_assoc.
  - destruct (Hraise e eq_refl) as [msg ->]. do 3 step. simpl.
    split_and!; [by rewrite app_nil_r | reflexivity | by rewrite <- app_assoc].
Qed.

(** The loop over the sorted years. *)
Lemma years_loop_returns ys all_years w :
  Forall year_well_formed ys ->
  returns (for_each (process_year load_family data_dir family_vars heads_only ind)
             ys all_years) w
    (fun all_years' w' =>
       all_years' = all_years ++ omap year_frame ys /\
       heap w' = heap w /\ stdout w' = stdout w ++ flat_map year_lines ys).
Proof.
  intros Hwf. revert all_years w.
  induction Hwf as [|y ys Hy Hys IH]; intros all_years w.
  - simpl. step. by rewrite !app_nil_r.
  - cbn [for_each]. step.
    eapply returns_mono; [by apply process_year_returns|].
    intros acc w1 (-> & Hheap & Hout).
    eapply returns_mono; [apply IH|].
    intros acc' w2 (-> & Hheap' & Hout').
    rewrite omap_cons_option_list, app_assoc. split_and!; [reflexivity | congruence |].
    rewrite Hout', Hout. simpl. by rewrite <- app_assoc.
Qed.

Lemma year_frame_None year :
  year_well_formed year -> year_frame year = None <-> not_found year.
Proof.
  intros (_ & _ & Hraise & Hfam). unfold year_frame, not_found.
  destruct (load_family year data_dir (family_columns year)) as [fam|e] eqn:E.
  - specialize (Hfam fam eq_refl). destruct (fam_columns fam); [done|].
    split; [discriminate | intros [msg Hmsg]; discriminate].
  - destruct (Hraise e eq_refl) as [msg ->]. split; [by exists msg | reflexivity].
Qed.

(** The end of [build_panel] when some year was loaded. *)
Lemma finish_panel_returns years_arg balanced_arg all_years w :
  all_years <> [] ->
  returns (finish_panel years_arg balanced_arg all_years) w (fun panel w' =>
    preserved w w' /\ (exists more, stdout w' = stdout w ++ more) /\
    (balanced_arg = false ->
     heap w' !! data panel =
       Some (drop_columns ["fam_interview"; "ER30001"; "ER30002"]
               (concat_frames all_years)))).
Proof.
  intros Hsome. unfold finish_panel.
  destruct all_years as [|merged rest]; [done|]. cbv zeta.
  do 2 step. unfold Panel_new. do 5 step.
  set (table := drop_columns _ _).
  match goal with |- returns _ ?w1 _ => set (w1' := w1) end.
  match goal with |- returns (if _ then _ else mret ?p) _ _ => set (panel := p) end.
  assert (Hpanel : returns (if balanced_arg then balanced (Some years_arg) panel
                            else mret panel) w1'
            (fun q w' => preserved w w' /\ stdout w' = stdout w /\
               (exists df, heap w' !! data q = Some df) /\
               (balanced_arg = false -> heap w' !! data q = Some table))).
  { destruct balanced_arg.
    - eapply returns_mono; [apply (balanced_returns _ panel w1' table)|].
      + apply lookup_insert_eq.
      + intros q w' [(Hpre & Hnew & Hq & Hout) _]. split_and!; [|exact Hout|by eexists|done].
        eapply preserved_trans; [|exact Hpre]. subst w1'. frame.
    - step. split_and!; [subst w1'; frame | reflexivity | eexists | intros _];
        apply lookup_insert_eq. }
  eapply returns_mono; [exact Hpanel|]. clear Hpanel.
  intros q w' (Hpre & Hout & [df Hq] & Htable).
  unfold n_individuals, n_years, years. do 17 step.
  split_and!; [exact Hpre | | exact Htable].
  simpl. rewrite Hout. eexists. rewrite <- app_assoc. reflexivity.
Qed.

(** Lines 246-257, for an individual file with its core columns and a
    sample argument that parses. *)
Lemma load_and_filter_returns w :
  load_individual data_dir = Ok ind0 ->
  "ER30001" ∈ ind_columns ind0 -> "ER30002" ∈ ind_columns ind0 ->
  _parse_sample_arg sample_arg = Ok sample ->
  load_and_filter load_individual data_dir sample_arg w =
  (Ok ind, world_before_years w).
Proof.
  intros Hind Hcore1 Hcore2 Hparse. unfold load_and_filter.
  unfold mbind at 1 2 3, M_bind at 1 2 3, print at 1. rewrite Hind.
  unfold mret at 1, M_ret at 1. rewrite decide_False by tauto.
  unfold mret at 1, M_ret at 1. unfold ind, world_before_years.
  destruct sample as [sample_types|].
  - rewrite (filter_by_sample_arg_core _ _ _ _ Hcore1 Hparse).
    pose proof (parse_sample_arg_is_not_None _ _ Hparse) as Hsome.
    destruct sample_arg; first [discriminate Hsome | reflexivity].
  - apply parse_sample_arg_None in Hparse as ->. reflexivity.
Qed.

Lemma build_panel_prefix years_arg balanced_arg w :
  load_individual data_dir = Ok ind0 ->
  "ER30001" ∈ ind_columns ind0 -> "ER30002" ∈ ind_columns ind0 ->
  _parse_sample_arg sample_arg = Ok sample ->
  build_panel load_individual load_family data_dir years_arg family_vars
    heads_only balanced_arg sample_arg w =
  (for_each (process_year load_family data_dir family_vars heads_only ind)
     (merge_sort Z.le years_arg) []
   ≫= finish_panel years_arg balanced_arg) (world_before_years w).
Proof.
  intros Hind Hcore1 Hcore2 Hparse. unfold build_panel.
  by rewrite (run_bind _ _ _ _ _ (load_and_filter_returns w Hind Hcore1 Hcore2 Hparse)).
Qed.

Lemma warning_printed year msg :
  load_family year data_dir (family_columns year) = Raise (FileNotFoundError msg) ->
  Warning msg ∈ year_lines year.
Proof.
  intros Hload. unfold year_lines. rewrite Hload.
  apply list_elem_of_further, list_elem_of_here.
Qed.

(** C2, as the code has it.  Let the individual file load and have the
    core columns [ER30001] and [ER30002], let the sample argument parse, let
    no requested year be 1968 and the individual file have the interview
    column of every requested year, and let the family loader raise
    [FileNotFoundError] only and return frames that have a column.  Then
    every requested year is processed, in ascending order; a year for which
    [load_family] raises [FileNotFoundError] (no family file, or a text
    file without its dictionary) is skipped, its warning is printed and the
    loop goes on; [build_panel] raises the no-data error if and only if
    [load_family] raises [FileNotFoundError] for every requested year; as
    soon as it returns a frame for one year [build_panel] returns a panel,
    which (when no balancing is asked) stacks the merged tables of the
    years loaded, in ascending order.  A year whose file is loaded counts
    even if its merge has no row. *)
Theorem build_panel_raises_iff_no_family_file :
  forall (years_arg : list Z) (balanced_arg : bool) (w : World),
    load_individual data_dir = Ok ind0 ->
    "ER30001" ∈ ind_columns ind0 -> "ER30002" ∈ ind_columns ind0 ->
    _parse_sample_arg sample_arg = Ok sample ->
    (forall y, y ∈ years_arg -> year_well_formed y) ->
    exists r w',
      build_panel load_individual load_family data_dir years_arg family_vars
        heads_only balanced_arg sample_arg w = (r, w') /\
      (r = Raise (ValueError no_data_message) <->
       forall y, y ∈ years_arg -> not_found y) /\
      (exists more,
          stdout w' = stdout (world_before_years w)
                      ++ flat_map year_lines (merge_sort Z.le years_arg) ++ more) /\
      (forall y msg,
          y ∈ years_arg ->
          load_family y data_dir (family_columns y) = Raise (FileNotFoundError msg) ->
          Warning msg ∈ stdout w') /\
      ((exists y, y ∈ years_arg /\ ~ not_found y) ->
       exists panel,
         r = Ok panel /\ preserved w w' /\
         (balanced_arg = false ->
          heap w' !! data panel =
            Some (drop_columns ["fam_interview"; "ER30001"; "ER30002"]
                    (concat_frames
                       (omap year_frame (merge_sort Z.le years_arg)))))).
Proof.
  intros years_arg balanced_arg w Hind Hcore1 Hcore2 Hparse Hwf.
  set (ys := merge_sort Z.le years_arg).
  assert (Hys : forall y, y ∈ ys <-> y ∈ years_arg)
    by (intros y; subst ys; by rewrite merge_sort_Permutation).
  assert (Hwf' : Forall year_well_formed ys)
    by (apply Forall_forall; intros y Hy; by apply Hwf, Hys).
  destruct (years_loop_returns ys [] (world_before_years w) Hwf')
    as (all_years & w2 & Hloop & -> & Hheap & Hout).
  rewrite app_nil_l in *.
  assert (Hnone : omap year_frame ys = [] <-> forall y, y ∈ years_arg -> not_found y).
  { rewrite omap_nil_iff. split.
    - intros Hall y Hy. apply year_frame_None; [by apply Hwf|]. by apply Hall, Hys.
    - intros Hall y Hy. apply year_frame_None; [by apply Hwf, Hys|]. by apply Hall, Hys. }
  assert (Hwarn : forall y msg, y ∈ years_arg ->
            load_family y data_dir (family_columns y) = Raise (FileNotFoundError msg) ->
            Warning msg ∈ stdout w2).
  { intros y msg Hy Hload. rewrite Hout. apply elem_of_app. right.
    apply elem_of_flat_map. exists y. split; [by apply Hys | by apply warning_printed]. }
  assert (Hpre : preserved w w2).
  { intros l df Hl. rewrite Hheap. unfold world_before_years.
    by destruct sample. }
  rewrite (build_panel_prefix years_arg balanced_arg w Hind Hcore1 Hcore2 Hparse).
  fold ys. rewrite (run_bind _ _ _ _ _ Hloop).
  destruct (omap year_frame ys) as [|merged rest] eqn:Eframes.
  - exists (Raise (ValueError no_data_message)), w2.
    split; [reflexivity|]. split_and!; [| |exact Hwarn|].
    + split; [intros _; by apply Hnone | reflexivity].
    + exists []. by rewrite Hout, app_nil_r.
    + intros (y & Hy & Hfound). destruct Hfound. by apply Hnone.
  - destruct (finish_panel_returns years_arg balanced_arg (merged :: rest) w2)
      as (panel & w3 & Hfinish & Hpre3 & [more Hmore] & Htable); [done|].
    exists (Ok panel), w3. split; [exact Hfinish|].
    split_and!.
    + split; [discriminate|]. intros Hall. apply Hnone in Hall. discriminate.
    + exists more. by rewrite Hmore, Hout, <- app_assoc.
    + intros y msg Hy Hload. rewrite Hmore. apply elem_of_app. left. by eapply Hwarn.
    + intros _. exists panel. split; [reflexivity|].
      split; [by eapply preserved_trans | exact Htable].
Qed.

End BuildPanelFacts.

Lemma example_core_columns :
  "ER30001" ∈ ind_columns example_individuals /\
  "ER30002" ∈ ind_columns example_individuals.
Proof. split; apply (bool_decide_unpack _); by vm_compute. Defined.

Lemma example_years_well_formed y :
  y ∈ [2019; 2021] ->
  year_well_formed example_load_family "data" None None example_individuals y.
Proof.
  intros Hy. apply elem_of_cons in Hy as [->|Hy];
    [|apply elem_of_cons in Hy as [->|Hy]; [|by apply elem_of_nil in Hy]].
  - split_and!.
    + discriminate.
    + apply (bool_decide_unpack _). by vm_compute.
    + intros e He. discriminate He.
    + intros fam [= <-]. discriminate.
  - split_and!.
    + discriminate.
    + apply (bool_decide_unpack _). by vm_compute.
    + intros e [= <-]. by eexists.
    + intros fam Hfam. discriminate Hfam.
Defined.

(** 2021 has no family file and 2019 has one: the warning of 2021 is
    printed and the panel of 2019 is returned. *)
Lemma build_panel_raises_iff_no_family_file_witness :
  exists r w',
    build_panel example_load_individual example_load_family "data" [2019; 2021]
      None false false ArgNone empty_world = (r, w') /\
    (r = Raise (ValueError no_data_message) <->
     forall y, y ∈ [2019; 2021] -> not_found example_load_family "data" None y) /\
    (exists more,
        stdout w' = stdout (world_before_years None example_individuals empty_world)
                    ++ flat_map (year_lines example_load_family "data" None false None
                                   example_individuals)
                         (merge_sort Z.le [2019; 2021]) ++ more) /\
    (forall y msg,
        y ∈ [2019; 2021] ->
        example_load_family y "data" (family_columns None y)
          = Raise (FileNotFoundError msg) ->
        Warning msg ∈ stdout w') /\
    ((exists y, y ∈ [2019; 2021] /\ ~ not_found example_load_family "data" None y) ->
     exists panel,
       r = Ok panel /\ preserved empty_world w' /\
       (false = false ->
        heap w' !! data panel =
          Some (drop_columns ["fam_interview"; "ER30001"; "ER30002"]
                  (concat_frames
                     (omap (year_frame example_load_family "data" None false None
                              example_individuals)
                           (merge_sort Z.le [2019; 2021])))))).
Proof.
  apply (build_panel_raises_iff_no_family_file
           example_load_individual example_load_family "data" None false ArgNone None
           example_individuals [2019; 2021] false empty_world).
  - reflexivity.
  - apply example_core_columns.
  - apply example_core_columns.
  - reflexivity.
  - apply example_years_well_formed.
Defined.

(** C2 as stated fails: the family file of 2017 is found but matches no
    person, so that no requested year produces a merged row; yet
    [build_panel] raises nothing and returns a panel without rows. *)
Lemma build_panel_without_rows_returns :
  match build_panel example_load_individual example_load_family "data" [2017]
          None false false ArgNone empty_world with
  | (Ok panel, w') => rows <$> heap w' !! data panel = Some []
  | (Raise _, _) => False
  end /\
  rows <$> year_frame example_load_family "data" None false None
             example_individuals 2017 = Some [].
Proof. split; vm_compute; reflexivity. Qed.

(** * More properties of the package *)

(** ** The events table *)

#[global] Instance TransitionType_value_inj : Inj (=) (=) TransitionType_value.
Proof. intros [] []; simpl; intros H; first [reflexivity | discriminate H]. Qed.

(** Every event of the table is the body of the loop run on two rows of
    the panel, the second of which is not earlier than the first. *)
Lemma household_transitions_rows interview_col relationship_col marital_col
    age_col df e :
  e ∈ household_transitions interview_col relationship_col marital_col age_col df ->
  exists row_t row_t1,
    row_t ∈ rows df /\ row_t1 ∈ rows df /\
    person_id row_t = tr_person_id e /\ person_id row_t1 = tr_person_id e /\
    year row_t <= year row_t1 /\
    e = transition_row interview_col relationship_col marital_col age_col
          (tr_person_id e) row_t row_t1.
Proof.
  intros He. remember (tr_person_id e) as i eqn:Ei.
  assert (Hi : e ∈ filter (fun e' => tr_person_id e' = i)
                 (household_transitions interview_col relationship_col
                    marital_col age_col df))
    by by apply list_elem_of_filter.
  rewrite household_transitions_person in Hi.
  apply list_elem_of_fmap in Hi as ([row_t row_t1] & Heq & Hpair). simpl in *.
  set (obs := merge_sort by_time (person_rows i (merge_sort by_id_time (rows df)))) in *.
  assert (Hobs : forall row, row ∈ obs -> row ∈ rows df /\ person_id row = i).
  { intros row. subst obs. rewrite !merge_sort_Permutation.
    intros [Hin Hid]%elem_of_person_rows. rewrite merge_sort_Permutation in Hin. done. }
  assert (Hsorted : StronglySorted by_time obs)
    by (apply StronglySorted_merge_sort; apply _).
  clearbody obs.
  assert (Hadj : row_t ∈ obs /\ row_t1 ∈ obs /\ by_time row_t row_t1).
  { clear Hobs. induction obs as [|x [|y l] IH]; [by apply elem_of_nil in Hpair..|].
    change (adjacent_pairs (x :: y :: l)) with ((x, y) :: adjacent_pairs (y :: l)) in Hpair.
    apply StronglySorted_cons in Hsorted as [Hx Hsorted].
    apply elem_of_cons in Hpair as [[= -> ->]|Hpair].
    - split_and!; [apply list_elem_of_here | apply list_elem_of_further, list_elem_of_here|].
      by apply Forall_cons in Hx as [Hx _].
    - destruct (IH Hpair Hsorted) as (H1 & H2 & H3).
      split_and!; [by apply list_elem_of_further.. | exact H3]. }
  destruct Hadj as (H1 & H2 & H3).
  destruct (Hobs _ H1) as [? ?], (Hobs _ H2) as [? ?].
  exists row_t, row_t1. subst i. split_and!; try done; congruence.
Qed.

Lemma py_eq_int a k : py_eq a (PyInt k) = true <-> a = PyInt k.
Proof.
  destruct a as [| |z]; simpl; try (split; [discriminate | intros [=]]).
  rewrite Z.eqb_eq. split; [by intros -> | by intros [= ->]].
Qed.

Lemma py_in_elem a ks : py_in a ks = true <-> exists k, k ∈ ks /\ a = PyInt k.
Proof.
  unfold py_in. rewrite existsb_exists. split.
  - intros (k & Hin & Heq). exists k. by rewrite list_elem_of_In, <- py_eq_int.
  - intros (k & Hin & Heq). exists k. by rewrite <- list_elem_of_In, py_eq_int.
Qed.

Lemma marital_block_inversion marital_from marital_to t :
  marital_block marital_from marital_to = Some t ->
  (t = MARRIAGE /\ marital_to = PyInt 1 /\
   (marital_from = PyInt 2 \/ marital_from = PyInt 4 \/ marital_from = PyInt 5)) \/
  (t = DIVORCE /\ marital_from = PyInt 1 /\
   (marital_to = PyInt 4 \/ marital_to = PyInt 5)) \/
  (t = WIDOWHOOD /\ marital_from = PyInt 1 /\ marital_to = PyInt 3).
Proof.
  unfold marital_block. rewrite py_in_3, py_in_2. unfold code_is.
  destruct (is_not_None marital_from && is_not_None marital_to); [|discriminate].
  destruct (py_eq marital_to (PyInt 1)) eqn:Et1.
  - destruct (py_eq marital_from (PyInt 2)) eqn:Em2,
             (py_eq marital_from (PyInt 4)) eqn:Em4,
             (py_eq marital_from (PyInt 5)) eqn:Em5;
      rewrite ?py_eq_int in *; simpl;
      try (intros [= <-]; left; tauto).
    subst marital_to. simpl. rewrite !andb_false_r. discriminate.
  - rewrite !andb_false_r.
    destruct (py_eq marital_from (PyInt 1)) eqn:Em1; simpl; [|discriminate].
    destruct (py_eq marital_to (PyInt 4)) eqn:Et4,
             (py_eq marital_to (PyInt 5)) eqn:Et5,
             (py_eq marital_to (PyInt 3)) eqn:Et3;
      rewrite ?py_eq_int in *; simpl;
      first [ discriminate
            | intros [= <-]; right; left; tauto
            | intros [= <-]; right; right; tauto ].
Qed.

Lemma splitoff_block_inversion rel_from rel_to t :
  splitoff_block rel_from rel_to = Some t ->
  rel_to = PyInt 1 /\ rel_from <> PyInt 1 /\ rel_from <> PyNone /\
  (t = LEAVE_PARENTAL /\ rel_from = PyInt 3 \/
   t = SPLITOFF /\ rel_from <> PyInt 3).
Proof.
  unfold splitoff_block, py_ne.
  destruct (is_not_None rel_from) eqn:Nr; [|discriminate].
  destruct (is_not_None rel_to); [|discriminate]. simpl.
  assert (Hnone : rel_from <> PyNone) by (intros ->; discriminate).
  destruct (py_eq rel_to (PyInt 1)) eqn:Eq1;
    [|rewrite !andb_false_r; discriminate].
  destruct (py_eq rel_from (PyInt 3)) eqn:Er3,
           (py_eq rel_from (PyInt 1)) eqn:Er1;
    rewrite ?py_eq_int in *; simpl; try discriminate;
    intros [= <-]; split_and!;
    first [ done | congruence
          | intros ->; simpl in *; discriminate
          | left; split; done
          | right; split; [done | intros ->; simpl in *; discriminate] ].
Qed.

Lemma join_block_inversion rel_from rel_to t :
  join_block rel_from rel_to = Some t ->
  t = JOIN_HOUSEHOLD /\ rel_from = PyInt 1 /\ rel_to <> PyInt 1 /\ rel_to <> PyNone.
Proof.
  unfold join_block, py_ne.
  destruct (is_not_None rel_from); [|discriminate].
  destruct (is_not_None rel_to) eqn:Nq; [|discriminate]. simpl.
  destruct (py_eq rel_from (PyInt 1)) eqn:Er1; [|discriminate].
  destruct (py_eq rel_to (PyInt 1)) eqn:Eq1; [discriminate|].
  rewrite ?py_eq_int in *. simpl. intros [= <-].
  split_and!; try done.
  - intros ->. simpl in Eq1. discriminate.
  - intros ->. discriminate.
Qed.

(** What the classifier has seen when it answers one of the marital or
    relationship categories. *)
Lemma classify_transition_inversion hh_from hh_to rel_from rel_to
    marital_from marital_to age_from age_to :
  let t := _classify_transition hh_from hh_to rel_from rel_to
             marital_from marital_to age_from age_to in
  (t = SAME_HOUSEHOLD <-> py_eq hh_from hh_to = true) /\
  (t = MARRIAGE ->
     marital_to = PyInt 1 /\
     (marital_from = PyInt 2 \/ marital_from = PyInt 4 \/ marital_from = PyInt 5)) /\
  (t = DIVORCE ->
     marital_from = PyInt 1 /\ (marital_to = PyInt 4 \/ marital_to = PyInt 5)) /\
  (t = WIDOWHOOD -> marital_from = PyInt 1 /\ marital_to = PyInt 3) /\
  (t = LEAVE_PARENTAL -> rel_from = PyInt 3 /\ rel_to = PyInt 1) /\
  (t = SPLITOFF ->
     rel_to = PyInt 1 /\ rel_from <> PyInt 1 /\ rel_from <> PyInt 3 /\
     rel_from <> PyNone) /\
  (t = JOIN_HOUSEHOLD ->
     rel_from = PyInt 1 /\ rel_to <> PyInt 1 /\ rel_to <> PyNone).
Proof.
  intros t. subst t. unfold _classify_transition.
  destruct (py_eq hh_from hh_to) eqn:Ehh.
  { split_and!; first [done | discriminate]. }
  destruct (marital_block marital_from marital_to) as [t|] eqn:Em; simpl.
  { apply marital_block_inversion in Em
      as [(-> & ? & ?)|[(-> & ? & ?)|(-> & ? & ?)]];
      (split; [split; discriminate|]); split_and!; first [discriminate | done]. }
  destruct (splitoff_block rel_from rel_to) as [t|] eqn:Es; simpl.
  { apply splitoff_block_inversion in Es
      as (? & ? & ? & [[-> ?]|[-> ?]]);
      (split; [split; discriminate|]); split_and!; first [discriminate | done]. }
  destruct (join_block rel_from rel_to) as [t|] eqn:Ej; simpl.
  { apply join_block_inversion in Ej as (-> & ? & ? & ?).
    (split; [split; discriminate|]); split_and!; first [discriminate | done]. }
  (split; [split; discriminate|]); split_and!; discriminate.
Qed.

(** What holds of the body of the loop on any two rows of a person holds
    of every event of the table. *)
Lemma events_forall (P : TransitionRow -> Prop) self interview_col
    relationship_col marital_col age_col w df :
  heap w !! data self = Some df ->
  (forall pid row_t row_t1,
      row_t ∈ rows df -> row_t1 ∈ rows df ->
      person_id row_t = pid -> person_id row_t1 = pid ->
      year row_t <= year row_t1 ->
      P (transition_row interview_col relationship_col marital_col age_col
           pid row_t row_t1)) ->
  returns
    (get_household_transitions self interview_col relationship_col
       marital_col age_col) w
    (fun events _ => forall e, e ∈ events -> P e).
Proof.
  intros Hdf HP.
  eapply returns_mono; [by apply get_household_transitions_returns|].
  intros events w' (-> & _) e He.
  apply household_transitions_rows in He
    as (row_t & row_t1 & H1 & H2 & H3 & H4 & H5 & ->).
  by apply HP.
Qed.

Lemma type_value_eq (t t' : TransitionType) :
  TransitionType_value t = TransitionType_value t' <-> t = t'.
Proof. split; [apply (inj _) | by intros ->]. Qed.

(** X1. The [hh_changed] flag of every extracted event is false exactly
    when the event is typed [same_household]. *)
Theorem events_flag_household_change :
  forall self interview_col relationship_col marital_col age_col w df,
    heap w !! data self = Some df ->
    returns
      (get_household_transitions self interview_col relationship_col
         marital_col age_col) w
      (fun events _ => forall e, e ∈ events -> flag_agrees e).
Proof.
  intros self ic rc mc ac w df Hdf. apply (events_forall _ _ _ _ _ _ _ df); [exact Hdf|].
  intros pid row_t row_t1 _ _ _ _ _. unfold flag_agrees, tr_type_value. simpl.
  change "same_household" with (TransitionType_value SAME_HOUSEHOLD).
  rewrite type_value_eq.
  pose proof (classify_transition_inversion
    (row_get row_t ic) (row_get row_t1 ic) (row_get row_t rc) (row_get row_t1 rc)
    (optional_get mc row_t) (optional_get mc row_t1)
    (optional_get ac row_t) (optional_get ac row_t1)) as [Hsame _].
  cbv zeta in Hsame. rewrite Hsame. unfold py_ne.
  destruct (py_eq _ _); simpl; split; congruence.
Qed.

Lemma events_flag_household_change_witness :
  returns
    (get_household_transitions example_panel "interview_number" "relationship"
       None None) example_world
    (fun events _ => forall e, e ∈ events -> flag_agrees e).
Proof.
  apply (events_flag_household_change example_panel "interview_number"
           "relationship" None None example_world example_table).
  reflexivity.
Defined.

(** X2. Without a marital column (the default [marital_col=None], or an
    empty name) both marital fields of every event are [None] and no event
    is typed marriage, divorce or widowhood. *)
Theorem events_without_marital_column :
  forall self interview_col relationship_col marital_col age_col w df,
    heap w !! data self = Some df ->
    marital_col = None \/ marital_col = Some "" ->
    returns
      (get_household_transitions self interview_col relationship_col
         marital_col age_col) w
      (fun events _ => forall e, e ∈ events ->
         tr_marital_from e = PyNone /\ tr_marital_to e = PyNone /\
         ~ is_marital_value (tr_type_value e)).
Proof.
  intros self ic rc mc ac w df Hdf Hmc. apply (events_forall _ _ _ _ _ _ _ df); [exact Hdf|].
  intros pid row_t row_t1 _ _ _ _ _. unfold tr_type_value, is_marital_value. simpl.
  assert (Hnone : forall row, optional_get mc row = PyNone)
    by (intros row; by destruct Hmc as [-> | ->]).
  rewrite !Hnone. split_and!; [reflexivity..|].
  change "marriage" with (TransitionType_value MARRIAGE).
  change "divorce" with (TransitionType_value DIVORCE).
  change "widowhood" with (TransitionType_value WIDOWHOOD).
  rewrite !type_value_eq.
  pose proof (classify_transition_inversion
    (row_get row_t ic) (row_get row_t1 ic) (row_get row_t rc) (row_get row_t1 rc)
    PyNone PyNone (optional_get ac row_t) (optional_get ac row_t1))
    as (_ & Hm & Hd & Hw & _).
  cbv zeta in *. intros [H|[H|H]].
  - apply Hm in H as [? _]. discriminate.
  - apply Hd in H as [? _]. discriminate.
  - apply Hw in H as [? _]. discriminate.
Qed.

Lemma events_without_marital_column_witness :
  returns
    (get_household_transitions example_panel "interview_number" "relationship"
       None None) example_world
    (fun events _ => forall e, e ∈ events ->
       tr_marital_from e = PyNone /\ tr_marital_to e = PyNone /\
       ~ is_marital_value (tr_type_value e)).
Proof.
  apply (events_without_marital_column example_panel "interview_number"
           "relationship" None None example_world example_table).
  - reflexivity.
  - left. reflexivity.
Defined.

(** The fields of an event, as the classifier was given them. *)
Lemma transition_row_inversion interview_col relationship_col marital_col
    age_col pid row_t row_t1 :
  let e := transition_row interview_col relationship_col marital_col age_col
             pid row_t row_t1 in
  (tr_type e = MARRIAGE -> marriage_recorded e) /\
  (tr_type e = DIVORCE -> divorce_recorded e) /\
  (tr_type e = LEAVE_PARENTAL \/ tr_type e = SPLITOFF -> splitoff_recorded e).
Proof.
  intros e.
  pose proof (classify_transition_inversion
    (tr_hh_from e) (tr_hh_to e) (tr_relationship_from e) (tr_relationship_to e)
    (tr_marital_from e) (tr_marital_to e) (tr_age_from e) (tr_age_to e))
    as (Hsame & Hm & Hd & _ & Hl & Hs & _).
  cbv zeta in *.
  change (_classify_transition _ _ _ _ _ _ _ _) with (tr_type e) in *.
  assert (Hchanged : tr_type e <> SAME_HOUSEHOLD -> tr_hh_changed e = true).
  { intros Hne. change (tr_hh_changed e) with (py_ne (tr_hh_from e) (tr_hh_to e)).
    unfold py_ne. destruct (py_eq (tr_hh_from e) (tr_hh_to e)); [|reflexivity].
    destruct Hne. by apply Hsame. }
  unfold marriage_recorded, divorce_recorded, splitoff_recorded, tr_type_value.
  change "leave_parental" with (TransitionType_value LEAVE_PARENTAL).
  rewrite type_value_eq.
  split_and!.
  - intros Ht. split; [apply Hchanged; congruence | by apply Hm].
  - intros Ht. split; [apply Hchanged; congruence | by apply Hd].
  - intros [Ht|Ht].
    + destruct (Hl Ht) as [Hfrom Hto]. rewrite Hfrom.
      split_and!; [apply Hchanged; congruence | done | done | done | done].
    + destruct (Hs Ht) as (Hto & H1 & H3 & Hn).
      split_and!; [apply Hchanged; congruence | done | done | done |].
      split; [congruence | done].
Qed.

Lemma events_of_type (P : TransitionRow -> Prop) `{!forall e, Decision (P e)}
    (table : list TransitionRow -> result (list TransitionRow)) events selected :
  (forall transitions_df,
      table transitions_df =
      match type_column transitions_df with
      | Ok _ => Ok (filter P transitions_df)
      | Raise e => Raise e
      end) ->
  table events = Ok selected ->
  events <> [] /\ selected = filter P events.
Proof.
  intros Htable. rewrite Htable. destruct events; [discriminate|].
  intros [= <-]. by split.
Qed.

(** X3. Every row of the table [get_marriage_events] makes of the
    transitions of a panel records a household change into marriage (marital
    status 2, 4 or 5 before, 1 after), and every row of the table of
    [get_divorce_events] a household change out of it (1 before, 4 or 5
    after). *)
Theorem marital_events_record_the_change :
  forall self interview_col relationship_col marital_col age_col w df,
    heap w !! data self = Some df ->
    returns
      (get_household_transitions self interview_col relationship_col
         marital_col age_col) w
      (fun events _ =>
         (forall marriages, get_marriage_events events = Ok marriages ->
            forall e, e ∈ marriages -> marriage_recorded e) /\
         (forall divorces, get_divorce_events events = Ok divorces ->
            forall e, e ∈ divorces -> divorce_recorded e)).
Proof.
  intros self ic rc mc ac w df Hdf.
  eapply returns_mono.
  { apply (events_forall (fun e =>
      (tr_type e = MARRIAGE -> marriage_recorded e) /\
      (tr_type e = DIVORCE -> divorce_recorded e)) _ _ _ _ _ _ df); [exact Hdf|].
    intros pid row_t row_t1 _ _ _ _ _.
    destruct (transition_row_inversion ic rc mc ac pid row_t row_t1) as (? & ? & _).
    done. }
  intros events w' Hall. split; intros selected Hselected;
    apply (events_of_type _ _ events selected (fun _ => eq_refl)) in Hselected
      as [_ ->];
    intros e [Ht He]%list_elem_of_filter;
    apply type_value_eq in Ht; by apply (Hall e He).
Qed.

(** In the example households person 2 marries between 2017 and 2019 and
    divorces between 2019 and 2021: one marriage row and one divorce row. *)
Lemma marital_events_record_the_change_witness :
  returns
    (get_household_transitions households_panel "interview_number" "relationship"
       (Some "marital_status") None) households_world
    (fun events _ =>
       (forall marriages, get_marriage_events events = Ok marriages ->
          forall e, e ∈ marriages -> marriage_recorded e) /\
       (forall divorces, get_divorce_events events = Ok divorces ->
          forall e, e ∈ divorces -> divorce_recorded e)) /\
  match get_household_transitions households_panel "interview_number" "relationship"
          (Some "marital_status") None households_world with
  | (Ok events, _) =>
      match get_marriage_events events, get_divorce_events events with
      | Ok marriages, Ok divorces =>
          (fun e => (tr_person_id e, tr_year_from e, tr_year_to e,
                     tr_marital_from e, tr_marital_to e, tr_hh_changed e))
            <$> marriages = [ (2, 2017, 2019, PyInt 2, PyInt 1, true) ] /\
          (fun e => (tr_person_id e, tr_year_from e, tr_year_to e,
                     tr_marital_from e, tr_marital_to e, tr_hh_changed e))
            <$> divorces = [ (2, 2019, 2021, PyInt 1, PyInt 4, true) ]
      | _, _ => False
      end
  | (Raise _, _) => False
  end.
Proof.
  split.
  - apply (marital_events_record_the_change households_panel "interview_number"
             "relationship" (Some "marital_status") None households_world
             example_households).
    reflexivity.
  - vm_compute. split; reflexivity.
Defined.

(** X4. Every row of the table [get_splitoff_events] makes of the
    transitions of a panel records a household change in which a person who
    was not the head (relationship code not [None] and not 1) becomes the
    head; it is typed [leave_parental] exactly when the person was a child
    (code 3). *)
Theorem splitoff_events_record_new_heads :
  forall self interview_col relationship_col marital_col age_col w df,
    heap w !! data self = Some df ->
    returns
      (get_household_transitions self interview_col relationship_col
         marital_col age_col) w
      (fun events _ =>
         forall splitoffs, get_splitoff_events events = Ok splitoffs ->
           forall e, e ∈ splitoffs -> splitoff_recorded e).
Proof.
  intros self ic rc mc ac w df Hdf.
  eapply returns_mono.
  { apply (events_forall (fun e =>
      tr_type e = LEAVE_PARENTAL \/ tr_type e = SPLITOFF -> splitoff_recorded e)
      _ _ _ _ _ _ df); [exact Hdf|].
    intros pid row_t row_t1 _ _ _ _ _.
    by destruct (transition_row_inversion ic rc mc ac pid row_t row_t1) as (_ & _ & ?). }
  intros events w' Hall splitoffs Hselected.
  apply (events_of_type _ _ events splitoffs (fun _ => eq_refl)) in Hselected
    as [_ ->].
  intros e [Ht He]%list_elem_of_filter.
  apply (Hall e He). unfold tr_type_value in Ht.
  rewrite !elem_of_cons, elem_of_nil, !type_value_eq in Ht. tauto.
Qed.

(** In the example households person 1, a child, and person 3, a spouse,
    head a household of their own in 2021: two splitoff rows, the first
    typed [leave_parental]. *)
Lemma splitoff_events_record_new_heads_witness :
  returns
    (get_household_transitions households_panel "interview_number" "relationship"
       (Some "marital_status") None) households_world
    (fun events _ =>
       forall splitoffs, get_splitoff_events events = Ok splitoffs ->
         forall e, e ∈ splitoffs -> splitoff_recorded e) /\
  match get_household_transitions households_panel "interview_number" "relationship"
          (Some "marital_status") None households_world with
  | (Ok events, _) =>
      match get_splitoff_events events with
      | Ok splitoffs =>
          (fun e => (tr_person_id e, tr_type_value e,
                     tr_relationship_from e, tr_relationship_to e, tr_hh_changed e))
            <$> splitoffs
          = [ (1, "leave_parental", PyInt 3, PyInt 1, true);
              (3, "splitoff", PyInt 2, PyInt 1, true) ]
      | Raise _ => False
      end
  | (Raise _, _) => False
  end.
Proof.
  split.
  - apply (splitoff_events_record_new_heads households_panel "interview_number"
             "relationship" (Some "marital_status") None households_world
             example_households).
    reflexivity.
  - vm_compute. reflexivity.
Defined.

(** ** The years and the cross-sections of a panel *)

Lemma StronglySorted_le_lt (l : list Z) :
  StronglySorted Z.le l -> NoDup l -> StronglySorted Z.lt l.
Proof.
  induction 1 as [|x l Hsorted IH Hall]; intros Hnodup; [constructor|].
  apply NoDup_cons in Hnodup as [Hx Hnodup]. constructor; [by apply IH|].
  rewrite Forall_forall in *. intros y Hy. specialize (Hall y Hy).
  assert (x <> y) by (intros ->; done). lia.
Qed.

Lemma sorted_keys_increasing (values : list Z) :
  StronglySorted Z.lt (merge_sort Z.le (remove_dups values)).
Proof.
  apply StronglySorted_le_lt.
  - apply StronglySorted_merge_sort; apply _.
  - rewrite merge_sort_Permutation. apply NoDup_remove_dups.
Qed.

Lemma length_sorted_keys (values : list Z) :
  length (merge_sort Z.le (remove_dups values)) = nunique values.
Proof. unfold nunique. by rewrite merge_sort_Permutation. Qed.

(** X5. [years] lists the years of the rows of the panel, each once, in
    strictly increasing order, and [n_years] is the length of that list;
    neither changes anything. *)
Theorem years_strictly_increasing :
  forall self w df,
    heap w !! data self = Some df ->
    returns (years self) w (fun ys w' =>
      w' = w /\ StronglySorted Z.lt ys /\
      (forall y, y ∈ ys <-> exists row, row ∈ rows df /\ year row = y) /\
      returns (n_years self) w' (fun k w'' => w'' = w /\ k = length ys)).
Proof.
  intros self w df Hdf. unfold years. do 3 step.
  split_and!; [reflexivity | apply sorted_keys_increasing | |].
  - intros y. rewrite merge_sort_Permutation, elem_of_remove_dups, list_elem_of_fmap.
    split; intros (row & ? & ?); exists row; by split.
  - unfold n_years. do 3 step. split; [reflexivity|].
    by rewrite length_sorted_keys.
Qed.

Lemma years_strictly_increasing_witness :
  returns (years example_panel) example_world (fun ys w' =>
    w' = example_world /\ StronglySorted Z.lt ys /\
    (forall y, y ∈ ys <-> exists row, row ∈ rows example_table /\ year row = y) /\
    returns (n_years example_panel) w'
      (fun k w'' => w'' = example_world /\ k = length ys)).
Proof.
  apply (years_strictly_increasing example_panel example_world example_table).
  reflexivity.
Defined.

Lemma idxmax_spec (l : list (Observation * Z)) r :
  idxmax l = Some r -> r ∈ l /\ forall r', r' ∈ l -> year r'.1 <= year r.1.
Proof.
  revert r. induction l as [|a l IH]; intros r; [discriminate|].
  simpl. destruct (idxmax l) as [best|] eqn:E.
  - destruct (IH best eq_refl) as [Hin Hmax].
    destruct (decide (year a.1 < year best.1)); intros [= <-].
    + split; [by apply list_elem_of_further|].
      intros r' [->|Hr]%elem_of_cons; [lia | by apply Hmax].
    + split; [apply list_elem_of_here|].
      intros r' [->|Hr]%elem_of_cons; [lia|]. specialize (Hmax r' Hr). lia.
  - intros [= <-]. split; [apply list_elem_of_here|].
    destruct l as [|b l]; [|simpl in E; destruct (idxmax l); [destruct (decide _)|]; discriminate].
    intros r' [->|Hr]%elem_of_cons; [lia | by apply elem_of_nil in Hr].
Qed.

Lemma idxmax_is_Some (l : list (Observation * Z)) : l <> [] -> is_Some (idxmax l).
Proof.
  destruct l as [|a l]; [done|]. intros _. simpl.
  destruct (idxmax l); [destruct (decide _)|]; by eexists.
Qed.

(** In a table whose labels are all different a label locates one row. *)
Lemma filter_label_unique (l : list (Observation * Z)) x :
  NoDup (l.*2) -> x ∈ l -> filter (fun r : Observation * Z => r.2 = x.2) l = [x].
Proof.
  induction l as [|a l IH]; intros Hnodup Hx; [by apply elem_of_nil in Hx|].
  rewrite fmap_cons in Hnodup. apply NoDup_cons in Hnodup as [Ha Hnodup].
  rewrite filter_cons. apply elem_of_cons in Hx as [->|Hx].
  - rewrite decide_True by reflexivity. f_equal. apply filter_none.
    intros r Hr Heq. apply Ha. rewrite <- Heq. apply list_elem_of_fmap. by exists r.
  - rewrite decide_False; [by apply IH|].
    intros Heq. apply Ha. rewrite Heq. apply list_elem_of_fmap. by exists x.
Qed.

Lemma elem_of_zip_left {A B} (l : list A) (k : list B) a :
  length k = length l -> a ∈ l <-> exists b, (a, b) ∈ zip l k.
Proof.
  revert k. induction l as [|x l IH]; intros [|y k] Hlen; try discriminate.
  - split; [by intros ?%elem_of_nil | by intros [b ?%elem_of_nil]].
  - cbn [zip zip_with]. fold (zip l k). split.
    + intros [->|Ha]%elem_of_cons.
      * exists y. apply list_elem_of_here.
      * apply (IH k) in Ha as [b Hb]; [|simpl in Hlen; lia].
        exists b. by apply list_elem_of_further.
    + intros [b [[= -> ->]|Hb]%elem_of_cons]; [apply list_elem_of_here|].
      apply list_elem_of_further, (IH k); [simpl in Hlen; lia | by exists b].
Qed.

(** On a table without repeated labels [loc] finds, for every person, the
    latest row and nothing else. *)
Lemma cross_section_latest df :
  unique_index df ->
  exists latest : list (Observation * Z),
    rows (cross_section_table None df) = latest.*1 /\
    person_id <$> latest.*1 = group_keys (rows df) /\
    forall r, r ∈ latest ->
      r ∈ labelled df /\
      forall r', r' ∈ labelled df -> person_id r'.1 = person_id r.1 ->
                 year r'.1 <= year r.1.
Proof.
  intros [Hlen Hnodup].
  set (group := fun i : Z =>
         filter (fun r : Observation * Z => person_id r.1 = i) (labelled df)).
  assert (Hlabels : NoDup ((labelled df).*2)).
  { unfold labelled. rewrite snd_zip by lia. exact Hnodup. }
  assert (Hkeys : forall keys, (forall k, k ∈ keys -> k ∈ group_keys (rows df)) ->
    flat_map (fun label => filter (fun r : Observation * Z => r.2 = label) (labelled df))
      (omap (fun i => snd <$> idxmax (group i)) keys)
      = omap (fun i => idxmax (group i)) keys /\
    person_id <$> (omap (fun i => idxmax (group i)) keys).*1 = keys).
  { induction keys as [|k keys IH]; intros Hin; [done|].
    destruct IH as [IH1 IH2];
      [intros k' Hk'; by apply Hin, list_elem_of_further|].
    destruct (idxmax_is_Some (group k)) as [r Hr].
    { assert (Hk : k ∈ group_keys (rows df)) by apply Hin, list_elem_of_here.
      apply elem_of_group_keys in Hk as (row & Hrow & Hid).
      apply (elem_of_zip_left _ (index df)) in Hrow as [label Hlabel]; [|exact Hlen].
      intros Hnil.
      assert (Hmem : (row, label) ∈ group k) by by apply list_elem_of_filter.
      rewrite Hnil in Hmem. by apply elem_of_nil in Hmem. }
    cbn [omap list_omap]. rewrite Hr. cbn [fmap option_fmap option_map flat_map].
    fold (omap (fun i => snd <$> idxmax (group i)) keys).
    fold (omap (fun i => idxmax (group i)) keys).
    apply idxmax_spec in Hr as [[Hid Hmem]%list_elem_of_filter _].
    rewrite (filter_label_unique _ r Hlabels Hmem), IH1. split; [reflexivity|].
    rewrite !fmap_cons, IH2. by rewrite Hid. }
  destruct (Hkeys (group_keys (rows df))) as [Hlocated Hids]; [done|].
  exists (omap (fun i => idxmax (group i)) (group_keys (rows df))).
  split_and!.
  - exact (f_equal (fmap fst) Hlocated).
  - exact Hids.
  - intros r (k & _ & Hr)%list_elem_of_omap.
    apply idxmax_spec in Hr as [[Hid Hmem]%list_elem_of_filter Hmax].
    split; [exact Hmem|]. intros r' Hr' Hsame. apply Hmax.
    apply list_elem_of_filter. split; [congruence | exact Hr'].
Qed.

(** X6. On a panel whose table bears no label twice (as the tables
    [build_panel], [balanced] and [min_periods] make are), [to_cross_section()]
    (no year given) holds exactly one row for every person of the panel, in
    increasing order of the person identifiers: a row of the panel than
    which no row of that person has a later year.  It has [n_individuals]
    rows.  (The latest rows are located by their labels: a label borne by
    several rows brings them all.) *)
Theorem cross_section_latest_per_person :
  forall self w df,
    heap w !! data self = Some df ->
    unique_index df ->
    returns (to_cross_section None self) w (fun l w' =>
      exists cs, heap w' !! l = Some cs /\
        StronglySorted Z.lt (person_id <$> rows cs) /\
        (forall row, row ∈ rows cs ->
           row ∈ rows df /\
           forall r, r ∈ rows df -> person_id r = person_id row ->
                     year r <= year row) /\
        (forall r, r ∈ rows df ->
           exists row, row ∈ rows cs /\ person_id row = person_id r) /\
        returns (n_individuals self) w' (fun n _ => length (rows cs) = n)).
Proof.
  intros self w df Hdf Hindex.
  eapply returns_mono; [by apply to_cross_section_returns|].
  intros l w' (Hpre & _ & Hl & _). eexists. split; [exact Hl|].
  destruct (cross_section_latest df Hindex) as (latest & -> & Hids & Hlatest).
  destruct Hindex as [Hlen _].
  split_and!.
  - rewrite Hids. apply sorted_keys_increasing.
  - intros row ([row' label] & -> & Hin)%list_elem_of_fmap.
    destruct (Hlatest _ Hin) as [Hmem Hmax]. cbn [fst] in *. split.
    + apply (elem_of_zip_left _ (index df)); [exact Hlen | by exists label].
    + intros r Hr Hid.
      apply (elem_of_zip_left _ (index df)) in Hr as [label' Hr]; [|exact Hlen].
      by apply (Hmax (r, label')).
  - intros r Hr.
    assert (Hk : person_id r ∈ group_keys (rows df))
      by (apply elem_of_group_keys; by exists r).
    rewrite <- Hids in Hk. apply list_elem_of_fmap in Hk as (row & Hid & Hrow).
    by exists row.
  - unfold n_individuals. step. eapply returns_read; [by apply Hpre|]. step. simpl.
    rewrite <- (length_fmap person_id), Hids. apply length_sorted_keys.
Qed.

Lemma example_unique_index : unique_index example_table.
Proof. split; [reflexivity | apply (bool_decide_unpack _); by vm_compute]. Defined.

Lemma cross_section_latest_per_person_witness :
  returns (to_cross_section None example_panel) example_world (fun l w' =>
    exists cs, heap w' !! l = Some cs /\
      StronglySorted Z.lt (person_id <$> rows cs) /\
      (forall row, row ∈ rows cs ->
         row ∈ rows example_table /\
         forall r, r ∈ rows example_table -> person_id r = person_id row ->
                   year r <= year row) /\
      (forall r, r ∈ rows example_table ->
         exists row, row ∈ rows cs /\ person_id row = person_id r) /\
      returns (n_individuals example_panel) w' (fun n _ => length (rows cs) = n)).
Proof.
  apply (cross_section_latest_per_person example_panel example_world example_table).
  - reflexivity.
  - apply example_unique_index.
Defined.

Lemma NoDup_person_id_same_year (l : list Observation) y :
  NoDup (skeleton l) -> (forall row, row ∈ l -> year row = y) ->
  NoDup (person_id <$> l).
Proof.
  induction l as [|a l IH]; intros Hnodup Hyear; [constructor|].
  unfold skeleton in Hnodup. rewrite fmap_cons in *.
  apply NoDup_cons in Hnodup as [Ha Hnodup]. apply NoDup_cons. split.
  - intros (r & Hid & Hr)%list_elem_of_fmap. apply Ha.
    apply list_elem_of_fmap. exists r. split; [|exact Hr].
    rewrite Hid, (Hyear a), (Hyear r);
      [reflexivity | by apply list_elem_of_further | apply list_elem_of_here].
  - apply IH; [exact Hnodup|]. intros row Hrow. by apply Hyear, list_elem_of_further.
Qed.

(** X7. [to_cross_section(year=y)] holds the rows of year [y], all of them,
    in the order of the panel, under the columns of the panel; it is empty,
    not an error, for a year the panel does not have.  It has one row per
    person provided no person is recorded twice in a year. *)
Theorem cross_section_of_year :
  forall self w df y,
    heap w !! data self = Some df ->
    returns (to_cross_section (Some y) self) w (fun l w' =>
      exists cs, heap w' !! l = Some cs /\ columns cs = columns df /\
        rows cs `sublist_of` rows df /\
        (forall row, row ∈ rows cs <-> row ∈ rows df /\ year row = y) /\
        ((forall row, row ∈ rows df -> year row <> y) -> rows cs = []) /\
        (NoDup (skeleton (rows df)) -> NoDup (person_id <$> rows cs))).
Proof.
  intros self w df y Hdf.
  eapply returns_mono; [by apply to_cross_section_returns|].
  intros l w' (_ & _ & Hl & _). eexists. split; [exact Hl|].
  cbn [cross_section_table select_rows rows columns].
  split_and!; [reflexivity | apply sublist_filter | | |].
  - intros row. rewrite list_elem_of_filter. tauto.
  - intros Hnone. by apply filter_none.
  - intros Hnodup. apply (NoDup_person_id_same_year _ y).
    + apply (sublist_NoDup _ (skeleton (rows df))); [exact Hnodup|].
      unfold skeleton. apply fmap_sublist, sublist_filter.
    + by intros row [? _]%list_elem_of_filter.
Qed.

Lemma cross_section_of_year_witness :
  returns (to_cross_section (Some 2019) example_panel) example_world (fun l w' =>
    exists cs, heap w' !! l = Some cs /\ columns cs = columns example_table /\
      rows cs `sublist_of` rows example_table /\
      (forall row, row ∈ rows cs <-> row ∈ rows example_table /\ year row = 2019) /\
      ((forall row, row ∈ rows example_table -> year row <> 2019) -> rows cs = []) /\
      (NoDup (skeleton (rows example_table)) -> NoDup (person_id <$> rows cs))).
Proof.
  apply (cross_section_of_year example_panel example_world example_table 2019).
  reflexivity.
Defined.

(** ** Filtering twice, and the histories that survive *)

Lemma get_individual_returns i self w df :
  heap w !! data self = Some df ->
  returns (get_individual i self) w
    (new_table w (select_rows (fun row => person_id row = i) df)).
Proof.
  intros Hdf. unfold get_individual. do 7 step. unfold new_table.
  split_and!; [frame | fresh_loc | apply lookup_insert_eq | reflexivity].
Qed.

(** The rows of a person in a table filtered by a test on the person. *)
Lemma person_rows_filter_by_person (P : Z -> Prop) {Hdec : forall i, Decision (P i)} i l :
  person_rows i (filter (fun row => P (person_id row)) l) =
  if decide (P i) then person_rows i l else [].
Proof.
  rewrite person_rows_filter. unfold person_rows. destruct (decide (P i)) as [Hi|Hi].
  - apply filter_all. by intros row [-> _]%list_elem_of_filter.
  - apply filter_none. by intros row [-> _]%list_elem_of_filter.
Qed.

Lemma observation_count_min_periods_table n df i :
  observation_count i (min_periods_table n df) =
  if decide (n <= Z.of_nat (observation_count i df))
  then observation_count i df else 0%nat.
Proof.
  unfold observation_count at 1. rewrite rows_min_periods_table.
  fold (person_rows i (filter (fun row => n <= Z.of_nat (observation_count (person_id row) df))
                         (rows df))).
  rewrite (person_rows_filter_by_person
             (fun j => n <= Z.of_nat (observation_count j df))
             (Hdec := fun j => Z.le_dec n (Z.of_nat (observation_count j df)))).
  unfold decide, decide_rel. by destruct (Z.le_dec _ _).
Qed.

(** X8. [min_periods] keeps whole histories: asked of the panel
    [min_periods(n)] returns, [get_individual(i)] gives all the observations
    that person has in the original panel when there are at least [n] of
    them, and an empty table (no error) otherwise. *)
Theorem min_periods_keeps_whole_histories :
  forall self w df n i,
    heap w !! data self = Some df ->
    returns (q ← min_periods n self; get_individual i q) w (fun l w' =>
      exists table, heap w' !! l = Some table /\
        rows table =
          if decide (n <= Z.of_nat (observation_count i df))
          then person_rows i (rows df) else []).
Proof.
  intros self w df n i Hdf. step.
  eapply returns_mono; [by apply min_periods_returns|].
  intros q w1 [(_ & _ & Hq & _) _].
  eapply returns_mono; [by apply get_individual_returns|].
  intros l w2 (_ & _ & Hl & _). eexists. split; [exact Hl|].
  cbn [select_rows rows]. rewrite rows_min_periods_table.
  apply (person_rows_filter_by_person
           (fun j => n <= Z.of_nat (observation_count j df))
           (Hdec := fun j => Z.le_dec n (Z.of_nat (observation_count j df)))).
Qed.

Lemma min_periods_keeps_whole_histories_witness :
  returns (q ← min_periods 2 example_panel; get_individual 1 q) example_world
    (fun l w' =>
      exists table, heap w' !! l = Some table /\
        rows table =
          if decide (2 <= Z.of_nat (observation_count 1 example_table))
          then person_rows 1 (rows example_table) else []).
Proof.
  apply (min_periods_keeps_whole_histories example_panel example_world
           example_table 2 1).
  reflexivity.
Defined.

(** X9. Two [min_periods] filters in a row are one: [min_periods(m)] of
    [min_periods(n)] holds the rows [min_periods(max(n, m))] holds. *)
Theorem min_periods_twice :
  forall self w df n m,
    heap w !! data self = Some df ->
    returns (q ← min_periods n self; min_periods m q) w (fun q' w' =>
      exists table, heap w' !! data q' = Some table /\
        rows table = rows (min_periods_table (Z.max n m) df)).
Proof.
  intros self w df n m Hdf. step.
  eapply returns_mono; [by apply min_periods_returns|].
  intros q w1 [(_ & _ & Hq & _) _].
  eapply returns_mono; [by apply min_periods_returns|].
  intros q' w2 [(_ & _ & Hq' & _) _]. eexists. split; [exact Hq'|].
  rewrite (rows_min_periods_table m), !rows_min_periods_table, list_filter_filter.
  apply list_filter_iff. intros row.
  rewrite observation_count_min_periods_table.
  destruct (decide (n <= Z.of_nat (observation_count (person_id row) df))); lia.
Qed.

Lemma min_periods_twice_witness :
  returns (q ← min_periods 2 example_panel; min_periods 3 q) example_world
    (fun q' w' =>
      exists table, heap w' !! data q' = Some table /\
        rows table = rows (min_periods_table (Z.max 2 3) example_table)).
Proof.
  apply (min_periods_twice example_panel example_world example_table 2 3).
  reflexivity.
Defined.

(** ** Balancing: what it implies and when it keeps nobody *)

Lemma length_remove_dups (l : list Z) : (length (remove_dups l) <= length l)%nat.
Proof.
  induction l as [|x l IH]; simpl; [lia|].
  destruct (decide_rel elem_of x l); simpl; lia.
Qed.

Lemma remove_dups_full (l : list Z) : length (remove_dups l) = length l -> NoDup l.
Proof.
  induction l as [|x l IH]; simpl; [constructor|].
  pose proof (length_remove_dups l).
  destruct (decide_rel elem_of x l) as [Hin|Hout]; simpl; intros Hlen; [lia|].
  constructor; [exact Hout | apply IH; lia].
Qed.

Lemma sublist_filter_impl {A} (P Q : A -> Prop)
    `{!forall x, Decision (P x), !forall x, Decision (Q x)} (l : list A) :
  (forall x, x ∈ l -> P x -> Q x) -> filter P l `sublist_of` filter Q l.
Proof.
  induction l as [|a l IH]; intros Himpl; [constructor|].
  assert (IH' : filter P l `sublist_of` filter Q l).
  { apply IH. intros x Hx. by apply Himpl, list_elem_of_further. }
  rewrite !filter_cons. destruct (decide (P a)) as [HP|HP].
  - rewrite decide_True by (apply Himpl; [apply list_elem_of_here | exact HP]).
    by constructor.
  - destruct (decide (Q a)); [by constructor | exact IH'].
Qed.

Lemma years_within_subseteq Y i df : years_within Y i df ⊆ list_to_set Y.
Proof.
  intros y. unfold years_within.
  rewrite !elem_of_list_to_set, list_elem_of_fmap.
  by intros (row & -> & [[_ HY] _]%list_elem_of_filter).
Qed.

Lemma size_years_within_le Y i df :
  (size (years_within Y i df) <= nunique Y)%nat /\
  (size (years_within Y i df) <= observation_count i df)%nat.
Proof.
  split.
  - rewrite nunique_size. apply subseteq_size, years_within_subseteq.
  - unfold years_within, observation_count. rewrite <- nunique_size. unfold nunique.
    etrans; [apply length_remove_dups|]. rewrite length_fmap.
    apply sublist_length, sublist_filter_impl. tauto.
Qed.

Lemma columns_balanced_table Y df : columns (balanced_table Y df) = columns df.
Proof. reflexivity. Qed.

Lemma rows_balanced_table_nil Y df : rows df = [] -> rows (balanced_table Y df) = [].
Proof. intros Hnil. unfold balanced_table, isin_ids, reset_index, select_rows. cbn [rows]. by rewrite Hnil. Qed.

(** The persons [balanced] retains, whatever the list of years. *)
Lemma elem_of_rows_balanced_table Y df row :
  row ∈ rows (balanced_table Y df) ->
  row ∈ rows df /\ size (years_within Y (person_id row) df) = length Y.
Proof.
  unfold balanced_table, isin_ids, reset_index, select_rows. cbn [rows].
  intros [Hvalid Hrow]%list_elem_of_filter. split; [exact Hrow|].
  apply (elem_of_group_stat (fun g => nunique (year <$> g))) in Hvalid as [_ Hcount].
  rewrite nunique_years_within in Hcount. by apply Nat.eqb_eq.
Qed.

Lemma balanced_table_within_min_periods Y df :
  rows (balanced_table Y df)
    `sublist_of` rows (min_periods_table (Z.of_nat (length Y)) df).
Proof.
  rewrite rows_min_periods_table. unfold balanced_table, isin_ids, reset_index, select_rows. cbn [rows].
  apply sublist_filter_impl. intros row Hrow Hvalid.
  assert (Hin : row ∈ rows (balanced_table Y df)).
  { unfold balanced_table, isin_ids, reset_index, select_rows. cbn [rows]. by apply list_elem_of_filter. }
  apply elem_of_rows_balanced_table in Hin as [_ Hsize].
  pose proof (size_years_within_le Y (person_id row) df) as [_ Hle]. lia.
Qed.

(** X10. A person [balanced] retains has at least as many observations as
    there are years asked for: the rows of [balanced(Y)] are among those of
    [min_periods(len(Y))], and the rows of [balanced()] among those of
    [min_periods(n_years)]. *)
Theorem balanced_within_min_periods :
  forall self w df,
    heap w !! data self = Some df ->
    (forall Y, Y <> [] ->
       returns (balanced (Some Y) self) w (fun q w1 =>
         returns (min_periods (Z.of_nat (length Y)) self) w1 (fun q' w2 =>
           exists t t', heap w2 !! data q = Some t /\ heap w2 !! data q' = Some t' /\
                        rows t `sublist_of` rows t'))) /\
    returns (balanced None self) w (fun q w1 =>
      returns (k ← n_years self; min_periods (Z.of_nat k) self) w1 (fun q' w2 =>
        exists t t', heap w2 !! data q = Some t /\ heap w2 !! data q' = Some t' /\
                     rows t `sublist_of` rows t')).
Proof.
  intros self w df Hdf.
  assert (Hmin : forall years_arg q w1,
    new_panel w self (balanced_table (effective_years years_arg df) df) q w1 ->
    returns (min_periods (Z.of_nat (length (effective_years years_arg df))) self) w1
      (fun q' w2 =>
         exists t t', heap w2 !! data q = Some t /\ heap w2 !! data q' = Some t' /\
                      rows t `sublist_of` rows t')).
  { intros years_arg q w1 [(Hpre & _ & Hq & _) _].
    eapply returns_mono; [apply min_periods_returns; by apply Hpre|].
    intros q' w2 [(Hpre' & _ & Hq' & _) _].
    eexists _, _. split_and!; [by apply Hpre' | exact Hq' |].
    apply balanced_table_within_min_periods. }
  split.
  - intros Y HY.
    eapply returns_mono; [by apply (balanced_returns (Some Y))|].
    intros q w1 Hq. specialize (Hmin (Some Y) q w1 Hq). by destruct Y.
  - eapply returns_mono; [by apply (balanced_returns None)|].
    intros q w1 Hq. specialize (Hmin None q w1 Hq).
    destruct Hq as [(Hpre & _) _].
    unfold n_years. do 2 step. eapply returns_read; [by apply Hpre|]. step.
    cbn [effective_years] in Hmin. by rewrite length_sorted_keys in Hmin.
Qed.

Lemma balanced_within_min_periods_witness :
  (forall Y, Y <> [] ->
     returns (balanced (Some Y) example_panel) example_world (fun q w1 =>
       returns (min_periods (Z.of_nat (length Y)) example_panel) w1 (fun q' w2 =>
         exists t t', heap w2 !! data q = Some t /\ heap w2 !! data q' = Some t' /\
                      rows t `sublist_of` rows t'))) /\
  returns (balanced None example_panel) example_world (fun q w1 =>
    returns (k ← n_years example_panel; min_periods (Z.of_nat k) example_panel) w1
      (fun q' w2 =>
        exists t t', heap w2 !! data q = Some t /\ heap w2 !! data q' = Some t' /\
                     rows t `sublist_of` rows t')).
Proof.
  apply (balanced_within_min_periods example_panel example_world example_table).
  reflexivity.
Defined.

Lemma rows_balanced_table_repeated Y df :
  ~ NoDup Y -> rows (balanced_table Y df) = [].
Proof.
  intros Hdup.
  destruct (rows (balanced_table Y df)) as [|row rest] eqn:E; [reflexivity|].
  assert (Hrow : row ∈ rows (balanced_table Y df)) by (rewrite E; apply list_elem_of_here).
  apply elem_of_rows_balanced_table in Hrow as [_ Hsize].
  pose proof (size_years_within_le Y (person_id row) df) as [Hle _].
  pose proof (length_remove_dups Y). unfold nunique in Hle.
  destruct Hdup. apply remove_dups_full. lia.
Qed.

(** X11. [balanced(Y)] counts a year that is listed twice in [Y] twice
    ([len(years)]), while a person's distinct years cannot: with a repeated
    year in [Y] the balanced panel has no row at all. *)
Theorem balanced_repeated_year_keeps_nobody :
  forall self w df Y,
    heap w !! data self = Some df -> ~ NoDup Y ->
    returns (balanced (Some Y) self) w (fun q w' =>
      exists table, heap w' !! data q = Some table /\ rows table = []).
Proof.
  intros self w df Y Hdf Hdup.
  eapply returns_mono; [by apply (balanced_returns (Some Y))|].
  intros q w' [(_ & _ & Hq & _) _]. eexists. split; [exact Hq|].
  assert (Heff : effective_years (Some Y) df = Y).
  { destruct Y; [|reflexivity]. destruct Hdup. constructor. }
  rewrite Heff. by apply rows_balanced_table_repeated.
Qed.

Lemma balanced_repeated_year_keeps_nobody_witness :
  returns (balanced (Some [2017; 2019; 2017]) example_panel) example_world
    (fun q w' => exists table, heap w' !! data q = Some table /\ rows table = []).
Proof.
  apply (balanced_repeated_year_keeps_nobody example_panel example_world
           example_table [2017; 2019; 2017]).
  - reflexivity.
  - apply (bool_decide_unpack _). vm_compute. reflexivity.
Defined.

(** A year asked for in which nobody is observed: nobody is retained. *)
Lemma rows_balanced_table_missing_year Y df y0 :
  y0 ∈ Y -> (forall row, row ∈ rows df -> year row <> y0) ->
  rows (balanced_table Y df) = [].
Proof.
  intros Hy0 Hnone.
  destruct (rows (balanced_table Y df)) as [|row rest] eqn:E; [reflexivity|].
  assert (Hrow : row ∈ rows (balanced_table Y df)) by (rewrite E; apply list_elem_of_here).
  apply elem_of_rows_balanced_table in Hrow as [_ Hsize].
  assert (Hstrict : years_within Y (person_id row) df ⊂ list_to_set Y).
  { split; [apply years_within_subseteq|]. intros Hsub.
    assert (Hin : y0 ∈ years_within Y (person_id row) df)
      by (apply Hsub; by apply elem_of_list_to_set).
    unfold years_within in Hin. rewrite elem_of_list_to_set, list_elem_of_fmap in Hin.
    destruct Hin as (r & Hyear & [_ Hr]%list_elem_of_filter).
    by apply (Hnone r). }
  apply subset_size in Hstrict. rewrite <- nunique_size in Hstrict.
  pose proof (length_remove_dups Y). unfold nunique in Hstrict. lia.
Qed.

Lemma balanced_table_ext Y Y' df :
  (forall y, y ∈ Y <-> y ∈ Y') -> length Y = length Y' ->
  balanced_table Y df = balanced_table Y' df.
Proof.
  intros HY Hlen. unfold balanced_table. rewrite Hlen.
  rewrite (list_filter_iff (fun row => year row ∈ Y) (fun row => year row ∈ Y'));
    [reflexivity|]. intros row. apply HY.
Qed.

(** The years of a retained person, in the balanced table and in the
    original. *)
Lemma years_within_balanced_table Y df i :
  Y <> [] -> size (years_within Y i df) = length Y ->
  years_within Y i (balanced_table Y df) = years_within Y i df.
Proof.
  intros HY Hsize. unfold years_within.
  rewrite (rows_balanced_table Y df HY), list_filter_filter.
  do 2 f_equal. apply list_filter_iff. intros row. split; [tauto|].
  intros [Hid Hin]. split_and!; [done.. |]. by rewrite Hid.
Qed.

Lemma balanced_table_twice Y df :
  Y <> [] ->
  rows (balanced_table Y (balanced_table Y df)) = rows (balanced_table Y df).
Proof.
  intros HY. rewrite (rows_balanced_table Y (balanced_table Y df) HY).
  apply filter_all. intros row [_ Hsize]%elem_of_rows_balanced_table.
  by rewrite years_within_balanced_table.
Qed.

Lemma elem_of_sorted_years df y :
  y ∈ merge_sort Z.le (remove_dups (year <$> rows df)) <->
  exists row, row ∈ rows df /\ year row = y.
Proof.
  rewrite merge_sort_Permutation, elem_of_remove_dups, list_elem_of_fmap.
  split; intros (row & ? & ?); exists row; by split.
Qed.

(** Balancing on all the years of a panel leaves a panel with those very
    years, unless it leaves nothing. *)
Lemma years_of_balanced_table df row0 y :
  let Y := merge_sort Z.le (remove_dups (year <$> rows df)) in
  row0 ∈ rows (balanced_table Y df) ->
  y ∈ Y -> exists row, row ∈ rows (balanced_table Y df) /\ year row = y.
Proof.
  intros Y Hrow0 Hy.
  assert (HY : Y <> []) by (intros HY; rewrite HY in Hy; by apply elem_of_nil in Hy).
  apply elem_of_rows_balanced_table in Hrow0 as [Hin0 Hsize].
  assert (Hall : years_within Y (person_id row0) df ≡ list_to_set Y).
  { apply set_subseteq_size_equiv; [apply years_within_subseteq|].
    rewrite Hsize, <- nunique_size. unfold nunique. apply length_remove_dups. }
  assert (Hy' : y ∈ years_within Y (person_id row0) df)
    by (apply Hall; by apply elem_of_list_to_set).
  unfold years_within in Hy'. rewrite elem_of_list_to_set, list_elem_of_fmap in Hy'.
  destruct Hy' as (row & -> & [[Hid _] Hrow]%list_elem_of_filter).
  exists row. split; [|reflexivity].
  rewrite (rows_balanced_table Y df HY). apply list_elem_of_filter.
  split; [by rewrite Hid | exact Hrow].
Qed.

Lemma balanced_table_same_rows Y table :
  index table = RangeIndex (length (rows table)) ->
  rows (balanced_table Y table) = rows table -> balanced_table Y table = table.
Proof.
  intros Hindex Hrows. destruct table as [cs labels rs].
  unfold balanced_table, reset_index in *.
  cbn [rows columns index isin_ids select_rows] in *. by rewrite Hrows, Hindex.
Qed.

Lemma balanced_table_default_years df :
  let Y := merge_sort Z.le (remove_dups (year <$> rows df)) in
  let Y' := merge_sort Z.le (remove_dups (year <$> rows (balanced_table Y df))) in
  rows (balanced_table Y df) <> [] ->
  Y <> [] /\ (forall y, y ∈ Y' <-> y ∈ Y) /\ length Y' = length Y.
Proof.
  intros Y Y' Hrows.
  destruct (rows (balanced_table Y df)) as [|row0 rest] eqn:E; [done|]. clear Hrows.
  assert (Hrow0 : row0 ∈ rows (balanced_table Y df))
    by (rewrite E; apply list_elem_of_here).
  assert (Hmem : forall y, y ∈ Y' <-> y ∈ Y).
  { intros y. subst Y'. rewrite <- E. rewrite elem_of_sorted_years. split.
    - intros (row & [Hrow _]%elem_of_rows_balanced_table & <-).
      apply elem_of_sorted_years. by exists row.
    - intros Hy. by apply (years_of_balanced_table df row0). }
  split_and!.
  - apply elem_of_rows_balanced_table in Hrow0 as [Hin _].
    assert (Hy : year row0 ∈ Y) by (apply elem_of_sorted_years; by exists row0).
    intros HY. rewrite HY in Hy. by apply elem_of_nil in Hy.
  - exact Hmem.
  - apply Permutation_length, NoDup_Permutation; [| |exact Hmem].
    + subst Y'. rewrite merge_sort_Permutation. apply NoDup_remove_dups.
    + subst Y. rewrite merge_sort_Permutation. apply NoDup_remove_dups.
Qed.

Lemma balanced_table_idempotent years_arg df :
  balanced_table
    (effective_years years_arg (balanced_table (effective_years years_arg df) df))
    (balanced_table (effective_years years_arg df) df) =
  balanced_table (effective_years years_arg df) df.
Proof.
  apply balanced_table_same_rows; [reflexivity|].
  destruct (decide (rows (balanced_table (effective_years years_arg df) df) = []))
    as [Hnil|Hrows].
  { rewrite Hnil. by apply rows_balanced_table_nil. }
  assert (Hdefault :
    let Y := merge_sort Z.le (remove_dups (year <$> rows df)) in
    let Y' := merge_sort Z.le (remove_dups (year <$> rows (balanced_table Y df))) in
    rows (balanced_table Y df) <> [] ->
    rows (balanced_table Y' (balanced_table Y df)) = rows (balanced_table Y df)).
  { intros Y Y' Hne.
    destruct (balanced_table_default_years df Hne) as (HY & Hmem & Hlen).
    fold Y Y' in Hmem, Hlen.
    rewrite (balanced_table_ext Y' Y) by done. by apply balanced_table_twice. }
  destruct years_arg as [[|y ys]|]; cbn [effective_years] in *.
  - by apply Hdefault.
  - by apply balanced_table_twice.
  - by apply Hdefault.
Qed.

(** X12. Balancing a balanced panel changes nothing: [balanced(Y)] asked of
    the panel [balanced(Y)] returned gives a table equal to the one it was
    given, and so does [balanced()] after [balanced()], the years of the
    balanced panel being those of the original unless no row is left. *)
Theorem balanced_twice :
  forall self w df years_arg,
    heap w !! data self = Some df ->
    returns (balanced years_arg self) w (fun q w1 =>
      exists t1, heap w1 !! data q = Some t1 /\
        returns (balanced years_arg q) w1 (fun q' w2 =>
          heap w2 !! data q = Some t1 /\ heap w2 !! data q' = Some t1)).
Proof.
  intros self w df years_arg Hdf.
  eapply returns_mono; [by apply balanced_returns|].
  intros q w1 [(_ & _ & Hq & _) _]. eexists. split; [exact Hq|].
  eapply returns_mono; [by apply balanced_returns|].
  intros q' w2 [(Hpre & _ & Hq' & _) _].
  split; [by apply Hpre|]. by rewrite Hq', balanced_table_idempotent.
Qed.

Lemma balanced_twice_witness :
  returns (balanced None example_panel) example_world (fun q w1 =>
    exists t1, heap w1 !! data q = Some t1 /\
      returns (balanced None q) w1 (fun q' w2 =>
        heap w2 !! data q = Some t1 /\ heap w2 !! data q' = Some t1)).
Proof.
  apply (balanced_twice example_panel example_world example_table None).
  reflexivity.
Defined.

(** ** The number of transitions *)

Lemma nunique_cons (x : Z) (l : list Z) :
  nunique (x :: l) = if decide (x ∈ l) then nunique l else S (nunique l).
Proof. unfold nunique. simpl. unfold decide. by destruct (decide_rel elem_of x l). Qed.

Lemma nunique_Permutation (l l' : list Z) : l ≡ₚ l' -> nunique l = nunique l'.
Proof.
  intros Hperm. rewrite !nunique_size. f_equal. apply set_eq. intros x.
  by rewrite !elem_of_list_to_set, Hperm.
Qed.

(** Every row but the last of each person has a following row. *)
Lemma length_pair_summaries sk :
  (length (pair_summaries sk) + nunique (fst <$> sk) = length sk)%nat.
Proof.
  induction sk as [|[i y] rest IH]; [reflexivity|].
  rewrite fmap_cons, nunique_cons. cbn [pair_summaries fst length].
  destruct (filter (fun s : Z * Z => s.1 = i) rest) as [|next more] eqn:E.
  - rewrite decide_False; [simpl; lia|].
    intros ([j y'] & Hj & Hin)%list_elem_of_fmap. simpl in Hj. subst j.
    assert (Hnext : (i, y') ∈ filter (fun s : Z * Z => s.1 = i) rest)
      by by apply list_elem_of_filter.
    rewrite E in Hnext. by apply elem_of_nil in Hnext.
  - rewrite decide_True; [simpl; lia|].
    assert (Hnext : next ∈ filter (fun s : Z * Z => s.1 = i) rest)
      by (rewrite E; apply list_elem_of_here).
    apply list_elem_of_filter in Hnext as [Hi Hin].
    apply list_elem_of_fmap. by exists next.
Qed.

Lemma length_pair_summaries_skeleton (l : list Observation) :
  (length (pair_summaries (skeleton l)) + nunique (person_id <$> l) = length l)%nat.
Proof.
  pose proof (length_pair_summaries (skeleton l)) as Hlen.
  assert (Hids : fst <$> skeleton l = person_id <$> l)
    by (unfold skeleton; by rewrite <- list_fmap_compose).
  assert (Hrows : length (skeleton l) = length l)
    by (unfold skeleton; by rewrite length_fmap).
  by rewrite Hids, Hrows in Hlen.
Qed.

Lemma length_transitions_table cols df :
  (length (rows (transitions_table cols df)) + nunique (person_id <$> rows df)
   = length (rows df))%nat.
Proof.
  rewrite <- (length_fmap summary). unfold transitions_table, shifted_table.
  rewrite summary_transition_rows, skeleton_shift_steps. cbn [fst sort_values rows].
  pose proof (length_pair_summaries_skeleton (merge_sort by_id_time (rows df))) as Hlen.
  rewrite (nunique_Permutation (person_id <$> merge_sort by_id_time (rows df))
             (person_id <$> rows df)) in Hlen
    by (by rewrite merge_sort_Permutation).
  rewrite Hlen. by rewrite merge_sort_Permutation.
Qed.

Lemma length_filter_cons_key k ks (l : list Observation) :
  k ∉ ks ->
  length (filter (fun row => person_id row ∈ k :: ks) l) =
  (length (person_rows k l) + length (filter (fun row => person_id row ∈ ks) l))%nat.
Proof.
  intros Hk. unfold person_rows. induction l as [|a l IH]; [reflexivity|].
  rewrite !filter_cons.
  destruct (decide (person_id a = k)) as [Ha|Ha].
  - rewrite decide_True by (rewrite Ha; apply list_elem_of_here).
    rewrite decide_False by by rewrite Ha. simpl. by rewrite IH.
  - destruct (decide (person_id a ∈ ks)) as [Hin|Hout].
    + rewrite decide_True by by apply list_elem_of_further.
      simpl. rewrite IH. lia.
    + rewrite decide_False; [exact IH|].
      intros [?|?]%elem_of_cons; done.
Qed.

Lemma length_group_transitions interview_col relationship_col marital_col age_col
    (group : Z * list Observation) :
  length (group_transitions interview_col relationship_col marital_col age_col group)
  = (length group.2 - 1)%nat.
Proof.
  unfold group_transitions. destruct (decide (length group.2 < 2)%nat); [simpl; lia|].
  by rewrite length_fmap, length_adjacent_pairs, merge_sort_Permutation.
Qed.

(** One event less than rows, for every group. *)
Lemma length_groups_transitions interview_col relationship_col marital_col age_col
    (l : list Observation) (keys : list Z) :
  NoDup keys -> (forall k, k ∈ keys -> person_rows k l <> []) ->
  (length (flat_map
             (group_transitions interview_col relationship_col marital_col age_col)
             ((fun i => (i, person_rows i l)) <$> keys))
   + length keys
   = length (filter (fun row => person_id row ∈ keys) l))%nat.
Proof.
  induction 1 as [|k keys Hk Hnodup IH]; intros Hgroups.
  - simpl. rewrite filter_none; [reflexivity|]. intros row _ Hin.
    by apply elem_of_nil in Hin.
  - rewrite fmap_cons. cbn [flat_map]. rewrite length_app, length_group_transitions.
    cbn [snd length]. rewrite (length_filter_cons_key k keys l Hk).
    assert (Hgroup : person_rows k l <> []) by apply Hgroups, list_elem_of_here.
    assert (length (person_rows k l) <> 0)%nat by by intros ?%nil_length_inv.
    rewrite <- IH by (intros k' Hk'; by apply Hgroups, list_elem_of_further). lia.
Qed.

Lemma length_household_transitions interview_col relationship_col marital_col
    age_col df :
  (length (household_transitions interview_col relationship_col marital_col age_col df)
   + nunique (person_id <$> rows df) = length (rows df))%nat.
Proof.
  unfold household_transitions, groupby, sort_values. cbn [rows].
  set (l := merge_sort by_id_time (rows df)).
  pose proof (length_groups_transitions interview_col relationship_col marital_col
                age_col l (group_keys l) (NoDup_group_keys l)) as Hlen.
  rewrite filter_all in Hlen
    by (intros row Hrow; apply elem_of_group_keys; by exists row).
  assert (Hkeys : length (group_keys l) = nunique (person_id <$> l))
    by apply length_sorted_keys.
  rewrite Hkeys in Hlen.
  rewrite (nunique_Permutation _ (person_id <$> rows df)) in Hlen
    by (subst l; by rewrite merge_sort_Permutation).
  rewrite Hlen.
  - subst l. by rewrite merge_sort_Permutation.
  - intros k (row & Hrow & Hid)%elem_of_group_keys Hnil.
    rewrite person_rows_nil in Hnil. by apply (Hnil row).
Qed.

(** X13. Either extraction returns as many transitions as the panel has
    rows, less one for every person ([n_individuals]): the last observation
    of a person starts no transition, every other observation exactly
    one. *)
Theorem transitions_count :
  forall self w df,
    heap w !! data self = Some df ->
    (forall cols,
        returns (get_transitions cols self) w (fun l w' =>
          exists table, heap w' !! l = Some table /\
            (length (rows table) + nunique (person_id <$> rows df)
             = length (rows df))%nat)) /\
    (forall interview_col relationship_col marital_col age_col,
        returns
          (get_household_transitions self interview_col relationship_col
             marital_col age_col) w
          (fun events _ =>
             (length events + nunique (person_id <$> rows df)
              = length (rows df))%nat)).
Proof.
  intros self w df Hdf. split.
  - intros cols. eapply returns_mono; [by apply get_transitions_returns|].
    intros l w' (_ & _ & Hl & _). eexists. split; [exact Hl|].
    apply length_transitions_table.
  - intros interview_col relationship_col marital_col age_col.
    eapply returns_mono; [by apply get_household_transitions_returns|].
    intros events w' (-> & _). apply length_household_transitions.
Qed.

Lemma transitions_count_witness :
  (forall cols,
      returns (get_transitions cols example_panel) example_world (fun l w' =>
        exists table, heap w' !! l = Some table /\
          (length (rows table) + nunique (person_id <$> rows example_table)
           = length (rows example_table))%nat)) /\
  (forall interview_col relationship_col marital_col age_col,
      returns
        (get_household_transitions example_panel interview_col relationship_col
           marital_col age_col) example_world
        (fun events _ =>
           (length events + nunique (person_id <$> rows example_table)
            = length (rows example_table))%nat)).
Proof.
  apply (transitions_count example_panel example_world example_table).
  reflexivity.
Defined.

Lemma nunique_full (l : list Z) : nunique l = length l <-> NoDup l.
Proof.
  split; [apply remove_dups_full|]. unfold nunique.
  induction 1 as [|x l Hx Hnodup IH]; [reflexivity|].
  simpl. destruct (decide_rel elem_of x l); [done|]. simpl. by rewrite IH.
Qed.

(** X14. A panel in which nobody is observed twice has no transition, and
    then there is no event table to select from: [get_household_transitions]
    returns the table of an empty list, which has no [type] column, and
    [get_marriage_events], [get_divorce_events] and [get_splitoff_events]
    raise [KeyError("type")] on it.  As soon as somebody is observed twice
    all three return a table, a part of the transitions in their order. *)
Theorem event_tables_need_a_transition :
  forall self interview_col relationship_col marital_col age_col w df,
    heap w !! data self = Some df ->
    returns
      (get_household_transitions self interview_col relationship_col
         marital_col age_col) w
      (fun events _ =>
         (events = [] <-> NoDup (person_id <$> rows df)) /\
         (events = [] ->
          get_marriage_events events = Raise (KeyError "type") /\
          get_divorce_events events = Raise (KeyError "type") /\
          get_splitoff_events events = Raise (KeyError "type")) /\
         (events <> [] ->
          exists marriages divorces splitoffs,
            get_marriage_events events = Ok marriages /\
            get_divorce_events events = Ok divorces /\
            get_splitoff_events events = Ok splitoffs /\
            marriages `sublist_of` events /\ divorces `sublist_of` events /\
            splitoffs `sublist_of` events)).
Proof.
  intros self ic rc mc ac w df Hdf.
  eapply returns_mono; [by apply get_household_transitions_returns|].
  intros events w' (-> & _).
  pose proof (length_household_transitions ic rc mc ac df) as Hlen.
  split_and!.
  - rewrite <- nunique_full. split.
    + intros Hnil. rewrite Hnil in Hlen. rewrite length_fmap. simpl in Hlen. lia.
    + intros Hfull. rewrite length_fmap in Hfull. apply nil_length_inv. lia.
  - intros ->. by repeat split.
  - intros Hsome.
    destruct (household_transitions ic rc mc ac df) as [|e events]; [done|].
    eexists _, _, _. split_and!; [reflexivity.. | | |]; apply sublist_filter.
Qed.

Lemma event_tables_need_a_transition_witness :
  returns
    (get_household_transitions example_panel "interview_number" "relationship"
       None None) example_world
    (fun events _ =>
       (events = [] <-> NoDup (person_id <$> rows example_table)) /\
       (events = [] ->
        get_marriage_events events = Raise (KeyError "type") /\
        get_divorce_events events = Raise (KeyError "type") /\
        get_splitoff_events events = Raise (KeyError "type")) /\
       (events <> [] ->
        exists marriages divorces splitoffs,
          get_marriage_events events = Ok marriages /\
          get_divorce_events events = Ok divorces /\
          get_splitoff_events events = Ok splitoffs /\
          marriages `sublist_of` events /\ divorces `sublist_of` events /\
          splitoffs `sublist_of` events)).
Proof.
  apply (event_tables_need_a_transition example_panel "interview_number"
           "relationship" None None example_world example_table).
  reflexivity.
Defined.

(** ** The sample argument *)

Lemma SampleType_getitem_Ok name t :
  SampleType_getitem name = Ok t <-> name = SampleType_value t.
Proof.
  split.
  - unfold SampleType_getitem, SampleType_members. rewrite !filter_cons, filter_nil.
    repeat (destruct (decide _) as [<-|?]; [intros [= <-]; reflexivity|]).
    discriminate.
  - intros ->. by destruct t.
Qed.

Lemma SampleType_getitem_Raise name e :
  SampleType_getitem name = Raise e <->
  (forall t, name <> SampleType_value t) /\ e = KeyError name.
Proof.
  split.
  - intros Hraise. split.
    + intros t Ht. apply SampleType_getitem_Ok in Ht. congruence.
    + unfold SampleType_getitem in Hraise. destruct (filter _ _); congruence.
  - intros [Hnone ->]. destruct (SampleType_getitem name) as [t|e] eqn:E.
    + apply SampleType_getitem_Ok in E. by destruct (Hnone t).
    + unfold SampleType_getitem in E. destruct (filter _ _); congruence.
Qed.

(** X15. A string names a stratum whatever its letter case: for an ASCII
    string [s], [_parse_sample_arg(s)] is [[t]] exactly when [s.upper()] is
    the name of the member [t], and it raises [KeyError(s.upper())] when
    [s.upper()] names no member. *)
Theorem parse_sample_arg_string :
  forall s,
    is_ascii s = true ->
    (forall t, _parse_sample_arg (ArgStr s) = Ok (Some [t]) <->
               upper s = SampleType_value t) /\
    (forall e, _parse_sample_arg (ArgStr s) = Raise e <->
               (forall t, upper s <> SampleType_value t) /\ e = KeyError (upper s)).
Proof.
  intros s _. unfold _parse_sample_arg. split.
  - intros t. rewrite <- SampleType_getitem_Ok.
    destruct (SampleType_getitem (upper s)); split; congruence.
  - intros e. rewrite <- SampleType_getitem_Raise.
    destruct (SampleType_getitem (upper s)); split; congruence.
Qed.

Lemma parse_sample_arg_string_witness :
  (forall t, _parse_sample_arg (ArgStr "Seo") = Ok (Some [t]) <->
             upper "Seo" = SampleType_value t) /\
  (forall e, _parse_sample_arg (ArgStr "Seo") = Raise e <->
             (forall t, upper "Seo" <> SampleType_value t) /\
             e = KeyError (upper "Seo")).
Proof. apply (parse_sample_arg_string "Seo"). reflexivity. Defined.

(** X16. On a frame that has the column [ER30001], whatever way the
    strata are given ([sample] parsing to the list [sample_types]),
    [filter_by_sample] keeps, in order, exactly the rows whose 1968
    interview number falls in one of the strata asked for, under the
    columns it was given, and labels every row it keeps with its stratum;
    the label column is attached even with [add_column=False]. *)
Theorem filter_by_sample_keeps_requested_strata :
  forall df sample add_column sample_types,
    "ER30001" ∈ ind_columns df ->
    _parse_sample_arg sample = Ok (Some sample_types) ->
    exists frame,
      filter_by_sample_arg df sample "ER30001" add_column = Ok frame /\
      sf_columns frame = ind_columns df /\
      sf_rows frame =
        filter (fun p => get_sample_type (ER30001 p) ∈ sample_types) (ind_rows df) /\
      sf_rows frame = ind_rows (filter_by_sample sample_types df) /\
      sf_sample_type frame =
        Some ((fun p => SampleType_value (get_sample_type (ER30001 p)))
                <$> sf_rows frame).
Proof.
  intros df sample add_column sample_types Hcol Hparse.
  rewrite (filter_by_sample_arg_core df sample add_column sample_types Hcol Hparse).
  eexists. split; [reflexivity|]. split_and!; reflexivity.
Qed.

Lemma filter_by_sample_keeps_requested_strata_witness :
  exists frame,
    filter_by_sample_arg example_individuals (ArgList [ItemStr "src"; ItemType SEO])
      "ER30001" false = Ok frame /\
    sf_columns frame = ind_columns example_individuals /\
    sf_rows frame =
      filter (fun p => get_sample_type (ER30001 p) ∈ [SRC; SEO])
        (ind_rows example_individuals) /\
    sf_rows frame = ind_rows (filter_by_sample [SRC; SEO] example_individuals) /\
    sf_sample_type frame =
      Some ((fun p => SampleType_value (get_sample_type (ER30001 p)))
              <$> sf_rows frame).
Proof.
  apply (filter_by_sample_keeps_requested_strata example_individuals
           (ArgList [ItemStr "src"; ItemType SEO]) false [SRC; SEO]).
  - apply example_core_columns.
  - reflexivity.
Defined.

Lemma parse_items_Ok items parsed sample_types :
  parse_items items parsed = Ok sample_types <->
  exists more, sample_types = parsed ++ more /\ Forall2 item_names items more.
Proof.
  revert parsed. induction items as [|item items IH]; intros parsed.
  - simpl. split.
    + intros [= <-]. exists []. by rewrite app_nil_r.
    + intros (more & -> & ->%Forall2_nil_inv_l). by rewrite app_nil_r.
  - destruct item as [s|t]; simpl.
    + destruct (SampleType_getitem (upper s)) as [t|e] eqn:E.
      * apply SampleType_getitem_Ok in E. rewrite IH. split.
        -- intros (more & -> & Hmore). exists (t :: more).
           split; [by rewrite <- app_assoc | by constructor].
        -- intros (more & -> & Hmore).
           apply Forall2_cons_inv_l in Hmore as (t' & more' & Ht' & Hmore & ->).
           simpl in Ht'. rewrite E in Ht'. apply (inj _) in Ht'. subst t'.
           exists more'. split; [by rewrite <- app_assoc | done].
      * apply SampleType_getitem_Raise in E as [Hnone _]. split; [discriminate|].
        intros (more & _ & Hmore).
        apply Forall2_cons_inv_l in Hmore as (t' & _ & Ht' & _). by destruct (Hnone t').
    + rewrite IH. split.
      * intros (more & -> & Hmore). exists (t :: more).
        split; [by rewrite <- app_assoc | by constructor].
      * intros (more & -> & Hmore).
        apply Forall2_cons_inv_l in Hmore as (t' & more' & Ht' & Hmore & ->).
        simpl in Ht'. subst t'.
        exists more'. split; [by rewrite <- app_assoc | done].
Qed.

Lemma parse_items_Raise items parsed e :
  parse_items items parsed = Raise e <->
  exists pre s post,
    items = pre ++ ItemStr s :: post /\
    (exists named, Forall2 item_names pre named) /\
    (forall t, upper s <> SampleType_value t) /\ e = KeyError (upper s).
Proof.
  revert parsed. induction items as [|item items IH]; intros parsed.
  - simpl. split; [discriminate|]. intros (pre & s & post & Hitems & _).
    by destruct pre.
  - assert (Hrest : forall t, item_names item t ->
      (exists pre s post,
          items = pre ++ ItemStr s :: post /\
          (exists named, Forall2 item_names pre named) /\
          (forall t, upper s <> SampleType_value t) /\ e = KeyError (upper s)) <->
      (exists pre s post,
          item :: items = pre ++ ItemStr s :: post /\
          (exists named, Forall2 item_names pre named) /\
          (forall t, upper s <> SampleType_value t) /\ e = KeyError (upper s))).
    { intros t Ht. split.
      - intros (pre & s & post & -> & [named Hnamed] & Hnone & ->).
        exists (item :: pre), s, post. split_and!; [reflexivity | | done..].
        exists (t :: named). by constructor.
      - intros (pre & s & post & Hitems & [named Hnamed] & Hnone & ->).
        destruct pre as [|item' pre].
        + simpl in Hitems. injection Hitems as -> ->. simpl in Ht. by destruct (Hnone t).
        + simpl in Hitems. injection Hitems as -> ->.
          apply Forall2_cons_inv_l in Hnamed as (_ & named' & _ & Hnamed & _).
          exists pre, s, post. split_and!; [reflexivity | by exists named' | done..]. }
    destruct item as [s|t]; simpl.
    + destruct (SampleType_getitem (upper s)) as [t|e'] eqn:E.
      * apply SampleType_getitem_Ok in E. rewrite IH. by apply (Hrest t).
      * apply SampleType_getitem_Raise in E as [Hnone ->]. split.
        -- intros [= <-]. exists [], s, items.
           split_and!; [reflexivity | by exists [] | done..].
        -- intros (pre & s' & post & Hitems & [named Hnamed] & Hnone' & ->).
           destruct pre as [|item' pre].
           ++ simpl in Hitems. by injection Hitems as -> ->.
           ++ simpl in Hitems. injection Hitems as <- ->.
              apply Forall2_cons_inv_l in Hnamed as (t' & _ & Ht' & _).
              by destruct (Hnone t').
    + rewrite IH. by apply (Hrest t).
Qed.

(** X17. A list of strata is parsed item by item, in order: for a list of
    ASCII strings and members, [_parse_sample_arg] gives the list
    [sample_types] exactly when every item names the stratum at its
    position (a string by its upper-cased spelling); it raises exactly when
    some string names no stratum, with [KeyError] of the first such string,
    upper-cased. *)
Theorem parse_sample_arg_list :
  forall items,
    forallb item_is_ascii items = true ->
    (forall sample_types,
        _parse_sample_arg (ArgList items) = Ok (Some sample_types) <->
        Forall2 item_names items sample_types) /\
    (forall e,
        _parse_sample_arg (ArgList items) = Raise e <->
        exists pre s post,
          items = pre ++ ItemStr s :: post /\
          (exists named, Forall2 item_names pre named) /\
          (forall t, upper s <> SampleType_value t) /\ e = KeyError (upper s)).
Proof.
  intros items _. unfold _parse_sample_arg. split.
  - intros sample_types.
    destruct (parse_items items []) as [parsed|e] eqn:E.
    + apply parse_items_Ok in E as (more & -> & Hmore). simpl. split.
      * by intros [= <-].
      * intros Hnamed. do 2 f_equal.
        clear -Hmore Hnamed. revert more sample_types Hmore Hnamed.
        induction items as [|item items IH]; intros more sample_types Hmore Hnamed.
        -- apply Forall2_nil_inv_l in Hmore, Hnamed. congruence.
        -- apply Forall2_cons_inv_l in Hmore as (t & more' & Ht & Hmore & ->).
           apply Forall2_cons_inv_l in Hnamed as (t' & named' & Ht' & Hnamed & ->).
           f_equal; [|by apply IH].
           destruct item as [s|t0]; simpl in *; [|congruence].
           rewrite Ht in Ht'. by apply (inj _) in Ht'.
    + split; [discriminate|]. intros Hnamed.
      assert (Hok : parse_items items [] = Ok sample_types)
        by (apply parse_items_Ok; by exists sample_types).
      congruence.
  - intros e. rewrite <- (parse_items_Raise items []).
    destruct (parse_items items []); split; congruence.
Qed.

Lemma parse_sample_arg_list_witness :
  (forall sample_types,
      _parse_sample_arg (ArgList [ItemStr "src"; ItemType SEO])
        = Ok (Some sample_types) <->
      Forall2 item_names [ItemStr "src"; ItemType SEO] sample_types) /\
  (forall e,
      _parse_sample_arg (ArgList [ItemStr "src"; ItemType SEO]) = Raise e <->
      exists pre s post,
        [ItemStr "src"; ItemType SEO] = pre ++ ItemStr s :: post /\
        (exists named, Forall2 item_names pre named) /\
        (forall t, upper s <> SampleType_value t) /\ e = KeyError (upper s)).
Proof.
  apply (parse_sample_arg_list [ItemStr "src"; ItemType SEO]). reflexivity.
Defined.





Lemma get_sample_type_not_LATINO code : get_sample_type code <> LATINO.
Proof.
  rewrite get_sample_type_cases.
  repeat (match goal with
          | |- context [Z.leb ?a ?b] => destruct (Z.leb a b)
          end; cbn [andb]);
    discriminate.
Qed.

(** X19. No 1968 interview number is classified [LATINO] (the stratum has no
    range in [SAMPLE_RANGES]): on a frame that has the column [ER30001], a
    [sample] that parses to strata all of which are [LATINO], the empty list
    included, is accepted without an error and leaves no row. *)
Theorem filter_by_sample_latino_keeps_nobody :
  forall df sample add_column sample_types,
    "ER30001" ∈ ind_columns df ->
    _parse_sample_arg sample = Ok (Some sample_types) ->
    (forall t, t ∈ sample_types -> t = LATINO) ->
    (forall code, get_sample_type code <> LATINO) /\
    exists frame,
      filter_by_sample_arg df sample "ER30001" add_column = Ok frame /\
      sf_rows frame = [] /\ sf_sample_type frame = Some [].
Proof.
  intros df sample add_column sample_types Hcol Hparse Hlatino.
  split; [apply get_sample_type_not_LATINO|].
  rewrite (filter_by_sample_arg_core df sample add_column sample_types Hcol Hparse).
  eexists. split; [reflexivity|]. cbn [sf_rows sf_sample_type].
  rewrite filter_none; [done|].
  intros p _ Hin. apply Hlatino in Hin. by apply get_sample_type_not_LATINO in Hin.
Qed.

Lemma filter_by_sample_latino_keeps_nobody_witness :
  (forall code, get_sample_type code <> LATINO) /\
  exists frame,
    filter_by_sample_arg example_individuals (ArgStr "latino") "ER30001" true
      = Ok frame /\
    sf_rows frame = [] /\ sf_sample_type frame = Some [].
Proof.
  apply (filter_by_sample_latino_keeps_nobody example_individuals (ArgStr "latino")
           true [LATINO]).
  - apply example_core_columns.
  - reflexivity.
  - intros t Ht. apply elem_of_cons in Ht as [->|Ht]; [reflexivity|].
    by apply elem_of_nil in Ht.
Defined.

(** ** Building the panel: failures, heads only, and whom the panel keeps *)

Lemma for_each_app {A B} (body : B -> A -> M B) (l1 l2 : list A) (acc : B) w :
  for_each body (l1 ++ l2) acc w =
  (acc' ← for_each body l1 acc; for_each body l2 acc') w.
Proof.
  revert acc w. induction l1 as [|x l1 IH]; intros acc w; [reflexivity|].
  cbn [app for_each]. unfold mbind, M_bind.
  destruct (body acc x w) as [[acc'|e] w1]; [|reflexivity].
  rewrite IH. reflexivity.
Qed.

Lemma for_each_ext {A B} (body1 body2 : B -> A -> M B) (l : list A) (acc : B) w :
  (forall acc x w, x ∈ l -> body1 acc x w = body2 acc x w) ->
  for_each body1 l acc w = for_each body2 l acc w.
Proof.
  revert acc w. induction l as [|x l IH]; intros acc w Hext; [reflexivity|].
  cbn [for_each]. unfold mbind, M_bind.
  rewrite Hext by apply list_elem_of_here.
  destruct (body2 acc x w) as [[acc'|e] w1]; [|reflexivity].
  apply IH. intros acc0 x0 w0 Hx0. by apply Hext, list_elem_of_further.
Qed.

Section BuildPanelOutcomeFacts.

Variable load_individual : string -> result IndividualFile.
Variable load_family : Z -> string -> option (list string) -> result FamilyFile.
Variables (data_dir : string) (family_vars : option FamilyVars).
Variables (heads_only : bool) (sample_arg : SampleArg).
Variable sample : option (list SampleType).
Variable ind0 : IndividualFile.

Local Abbreviation ind := (ind sample ind0).
Local Abbreviation family_columns := (family_columns family_vars).
Local Abbreviation not_found := (not_found load_family data_dir family_vars).
Local Abbreviation individuals_in_year := (individuals_in_year heads_only sample ind0).
Local Abbreviation year_frame :=
  (year_frame load_family data_dir family_vars heads_only sample ind0).
Local Abbreviation year_lines :=
  (year_lines load_family data_dir family_vars heads_only sample ind0).
Local Abbreviation year_well_formed :=
  (year_well_formed load_family data_dir family_vars sample ind0).
Local Abbreviation world_before_years := (world_before_years sample ind0).
Local Abbreviation year_raises :=
  (year_raises load_family data_dir family_vars sample ind0).
Local Abbreviation selected_in_year := (selected_in_year heads_only sample ind0).
Local Abbreviation panel_table :=
  (panel_table load_family data_dir family_vars heads_only sample ind0).

Lemma interview_number_not_selected year :
  year <> 1968 ->
  get_interview_number_column year ∉ ind_columns ind ->
  filter (fun c => c = "interview_number")
    (individual_year ind (get_interview_number_column year)
       (get_sequence_number_column year) (get_relationship_column year)).1
  = [].
Proof.
  intros Hyear Hcol. rewrite (individual_year_spec ind year Hyear). cbn [fst].
  rewrite decide_False by exact Hcol.
  do 2 destruct (decide (_ /\ _)); reflexivity.
Qed.

(** The turn of a year that raises. *)
Lemma process_year_raises all_years year e w :
  year_raises year e ->
  process_year load_family data_dir family_vars heads_only ind all_years year w =
  (Raise e, {| heap := heap w; stdout := stdout w ++ [Processing year] |}).
Proof.
  unfold year_raises. intros Hraises. unfold process_year.
  unfold mbind at 1, M_bind at 1, print at 1. cbv zeta.
  destruct (decide (get_interview_number_column year ∈ ind_columns ind)) as [Hcol|Hcol].
  - destruct (decide (year = 1968)) as [->|Hyear].
    + subst e. unfold mbind at 1, M_bind at 1.
      by rewrite (individual_year_1968 ind Hcol).
    + unfold mbind at 1, M_bind at 1.
      rewrite (interview_number_selected sample ind0 year Hyear Hcol).
      unfold mret at 1, M_ret at 1. fold (family_columns year).
      destruct (load_family year data_dir (family_columns year)) as [fam|e'].
      * destruct Hraises as [-> ->]. reflexivity.
      * destruct Hraises as [-> Hother].
        destruct e'; first [reflexivity | by destruct (Hother msg)].
  - destruct Hraises as [Hyear ->].
    unfold mbind at 1, M_bind at 1.
    by rewrite (interview_number_not_selected year Hyear Hcol).
Qed.

(** X20. Only a missing family file is forgiven.  The individual file
    being loaded with its core columns and the sample argument parsed: at
    the first requested year, in ascending order, whose turn fails
    otherwise ([KeyError] because the individual file lacks the interview
    column of the year, [ValueError] for the wave of 1968, whose interview
    column is the core column [ER30001], an error of [load_family] other
    than [FileNotFoundError], [IndexError] for a family file without
    columns), [build_panel] stops with that error: the later years are not
    processed and no panel is made; what was printed are the lines of the
    years before and the [Processing] line of the year. *)
Theorem build_panel_stops_at_failing_year :
  forall (years_arg : list Z) (balanced_arg : bool) (w : World)
         (before : list Z) (year : Z) (after : list Z) (e : exn),
    load_individual data_dir = Ok ind0 ->
    "ER30001" ∈ ind_columns ind0 -> "ER30002" ∈ ind_columns ind0 ->
    _parse_sample_arg sample_arg = Ok sample ->
    merge_sort Z.le years_arg = before ++ year :: after ->
    Forall year_well_formed before ->
    year_raises year e ->
    exists w',
      build_panel load_individual load_family data_dir years_arg family_vars
        heads_only balanced_arg sample_arg w = (Raise e, w') /\
      heap w' = heap w /\
      stdout w' = stdout (world_before_years w)
                  ++ flat_map year_lines before ++ [Processing year].
Proof.
  intros years_arg balanced_arg w before year after e Hind Hcore1 Hcore2 Hparse
         Hsorted Hwf Hraises.
  rewrite (build_panel_prefix load_individual load_family data_dir family_vars
             heads_only sample_arg sample ind0 years_arg balanced_arg w
             Hind Hcore1 Hcore2 Hparse).
  rewrite Hsorted. unfold mbind at 1, M_bind at 1. rewrite for_each_app.
  destruct (years_loop_returns load_family data_dir family_vars heads_only sample
              ind0 before [] (world_before_years w) Hwf)
    as (all_years & w1 & Hloop & _ & Hheap & Hout).
  rewrite (run_bind _ _ _ _ _ Hloop). cbn [for_each].
  unfold mbind at 1, M_bind at 1. rewrite (process_year_raises _ _ e) by exact Hraises.
  eexists. split; [reflexivity|]. cbn [heap stdout]. split.
  - rewrite Hheap. unfold world_before_years. by destruct sample.
  - rewrite Hout. by rewrite <- app_assoc.
Qed.

(** The end of [build_panel]: the table of the panel. *)
Lemma finish_panel_table years_arg balanced_arg all_years w :
  all_years <> [] ->
  returns (finish_panel years_arg balanced_arg all_years) w (fun panel w' =>
    preserved w w' /\
    heap w' !! data panel =
      Some (let stacked := drop_columns ["fam_interview"; "ER30001"; "ER30002"]
                             (concat_frames all_years) in
            if balanced_arg
            then balanced_table (effective_years (Some years_arg) stacked) stacked
            else stacked)).
Proof.
  intros Hsome. unfold finish_panel.
  destruct all_years as [|merged rest]; [done|]. cbv zeta.
  do 2 step. unfold Panel_new. do 5 step.
  set (table := drop_columns _ _).
  match goal with |- returns _ ?w1 _ => set (w1' := w1) end.
  match goal with |- returns (if _ then _ else mret ?p) _ _ => set (panel := p) end.
  assert (Hpanel : returns (if balanced_arg then balanced (Some years_arg) panel
                            else mret panel) w1'
            (fun q w' => preserved w w' /\
               heap w' !! data q =
                 Some (if balanced_arg
                       then balanced_table (effective_years (Some years_arg) table) table
                       else table))).
  { destruct balanced_arg.
    - eapply returns_mono; [apply (balanced_returns _ panel w1' table)|].
      + apply lookup_insert_eq.
      + intros q w' [(Hpre & Hnew & Hq & Hout) _]. split; [|exact Hq].
        eapply preserved_trans; [|exact Hpre]. subst w1'. frame.
    - step. split; [subst w1'; frame | apply lookup_insert_eq]. }
  eapply returns_mono; [exact Hpanel|]. clear Hpanel.
  intros q w' (Hpre & Htable).
  unfold n_individuals, n_years, years. do 17 step.
  split; [exact Hpre | exact Htable].
Qed.

(** With the family file of some requested year found, [build_panel]
    returns the panel over [panel_table]. *)
Lemma build_panel_table years_arg balanced_arg w :
  load_individual data_dir = Ok ind0 ->
  "ER30001" ∈ ind_columns ind0 -> "ER30002" ∈ ind_columns ind0 ->
  _parse_sample_arg sample_arg = Ok sample ->
  (forall y, y ∈ years_arg -> year_well_formed y) ->
  (exists y, y ∈ years_arg /\ ~ not_found y) ->
  exists panel w',
    build_panel load_individual load_family data_dir years_arg family_vars
      heads_only balanced_arg sample_arg w = (Ok panel, w') /\
    preserved w w' /\
    heap w' !! data panel = Some (panel_table years_arg balanced_arg).
Proof.
  intros Hind Hcore1 Hcore2 Hparse Hwf (y0 & Hy0 & Hfound).
  set (ys := merge_sort Z.le years_arg).
  assert (Hys : forall y, y ∈ ys <-> y ∈ years_arg)
    by (intros y; subst ys; by rewrite merge_sort_Permutation).
  assert (Hwf' : Forall year_well_formed ys)
    by (apply Forall_forall; intros y Hy; by apply Hwf, Hys).
  destruct (years_loop_returns load_family data_dir family_vars heads_only sample
              ind0 ys [] (world_before_years w) Hwf')
    as (all_years & w2 & Hloop & -> & Hheap & Hout).
  rewrite app_nil_l in *.
  assert (Hsome : omap year_frame ys <> []).
  { intros Hnil. apply Hfound.
    apply (year_frame_None load_family data_dir family_vars heads_only sample ind0);
      [by apply Hwf|].
    rewrite omap_nil_iff in Hnil. by apply Hnil, Hys. }
  destruct (finish_panel_table years_arg balanced_arg (omap year_frame ys) w2 Hsome)
    as (panel & w3 & Hfinish & Hpre & Htable).
  exists panel, w3.
  rewrite (build_panel_prefix load_individual load_family data_dir family_vars
             heads_only sample_arg sample ind0 years_arg balanced_arg w
             Hind Hcore1 Hcore2 Hparse).
  fold ys. rewrite (run_bind _ _ _ _ _ Hloop). split; [exact Hfinish|].
  split; [|exact Htable].
  intros l df Hl. apply Hpre. rewrite Hheap. unfold world_before_years.
  by destruct sample.
Qed.

(** *** The rows of the panel *)

Lemma ind_columns_ind : ind_columns ind = ind_columns ind0.
Proof. unfold ind. by destruct sample. Qed.

Lemma ind_bits_ind :
  ER30001_bits ind = ER30001_bits ind0 /\ ER30002_bits ind = ER30002_bits ind0.
Proof. unfold ind. by destruct sample. Qed.

Lemma elem_of_ind_rows p :
  p ∈ ind_rows ind ->
  p ∈ ind_rows ind0 /\
  forall strata, sample = Some strata -> get_sample_type (ER30001 p) ∈ strata.
Proof.
  unfold ind. destruct sample as [strata|].
  - unfold filter_by_sample. cbn [ind_rows].
    intros [Hin Hp]%list_elem_of_filter. split; [exact Hp|]. by intros ? [= <-].
  - intros Hp. split; [exact Hp | discriminate].
Qed.

(** The [sequence] column is in the selection of a year exactly when the
    year has a sequence column and the file has it. *)
Lemma sequence_selected year :
  year <> 1968 ->
  "sequence" ∈ (individual_year ind (get_interview_number_column year)
                  (get_sequence_number_column year)
                  (get_relationship_column year)).1 <->
  get_sequence_number_column year <> "" /\
  get_sequence_number_column year ∈ ind_columns ind.
Proof.
  intros Hyear. rewrite (individual_year_spec ind year Hyear). cbn [fst].
  destruct (decide (get_interview_number_column year ∈ ind_columns ind)),
           (decide (get_sequence_number_column year <> "" /\ _)) as [Hsc|Hsc],
           (decide (get_relationship_column year <> "" /\ _));
    cbn [app];
    (split;
     [ intros Hin;
       first [ exact Hsc
             | repeat (apply elem_of_cons in Hin as [Hin|Hin]; [discriminate Hin|]);
               by apply elem_of_nil in Hin ]
     | intros Hsc'; first [ pick_member | by destruct Hsc ] ]).
Qed.

(** A row of the selection of a year, traced to the individual file. *)
Lemma elem_of_individual_year year p :
  year <> 1968 ->
  get_interview_number_column year ∈ ind_columns ind ->
  p ∈ (individual_year ind (get_interview_number_column year)
         (get_sequence_number_column year) (get_relationship_column year)).2 ->
  exists q, q ∈ ind_rows ind /\
    py_person_id p =
      resolve_identity (ER30001_bits ind0) (ER30002_bits ind0) (ER30001 q) (ER30002 q) /\
    lookup_cell "interview_number" (py_cells p) =
      Some (ind_value q (get_interview_number_column year)) /\
    (get_sequence_number_column year <> "" /\
     get_sequence_number_column year ∈ ind_columns ind ->
     lookup_cell "sequence" (py_cells p) =
       Some (ind_value q (get_sequence_number_column year))).
Proof.
  intros Hyear Hcol. rewrite (individual_year_spec ind year Hyear). cbn [snd].
  intros (q & -> & Hq)%list_elem_of_fmap. exists q.
  destruct ind_bits_ind as [-> ->].
  rewrite !(decide_True (P := get_interview_number_column year ∈ ind_columns ind))
    by exact Hcol.
  cbn [py_person_id py_cells]. split_and!; [exact Hq | reflexivity | reflexivity |].
  intros Hsc. rewrite (decide_True (P := _ <> "" /\ _)) by exact Hsc. reflexivity.
Qed.

(** The persons of the year, traced to the individual file. *)
Lemma elem_of_individuals_in_year year p :
  year <> 1968 ->
  get_interview_number_column year ∈ ind_columns ind ->
  p ∈ (individuals_in_year year).2 ->
  exists q, selected_in_year year q /\
            py_person_id p =
              resolve_identity (ER30001_bits ind0) (ER30002_bits ind0)
                (ER30001 q) (ER30002 q).
Proof.
  intros Hyear Hcol. unfold individuals_in_year, selected_in_year. cbn [snd fst].
  set (selected := individual_year ind (get_interview_number_column year)
                     (get_sequence_number_column year)
                     (get_relationship_column year)).
  intros Hp.
  assert (Hp' : p ∈ filter (fun p => py_gt0 (default PyNone
                              (lookup_cell "interview_number" (py_cells p))) = true)
                  selected.2 /\
                (heads_only = true -> "sequence" ∈ selected.1 ->
                 py_eq (default PyNone (lookup_cell "sequence" (py_cells p)))
                       (PyInt 1) = true)).
  { destruct heads_only; cbn [andb] in Hp.
    - destruct (bool_decide ("sequence" ∈ selected.1)) eqn:E.
      + apply list_elem_of_filter in Hp as [Hone Hp]. by split.
      + split; [exact Hp|]. intros _ Hin.
        apply bool_decide_eq_false in E. by destruct E.
    - split; [exact Hp | discriminate]. }
  destruct Hp' as [[Hgt Hp']%list_elem_of_filter Hhead].
  destruct (elem_of_individual_year year p Hyear Hcol Hp')
    as (q & Hq & Hid & Hinterview & Hsequence).
  destruct (elem_of_ind_rows q Hq) as [Hq0 Hstrata].
  exists q. split; [|exact Hid].
  split_and!; [exact Hq0 | exact Hstrata | by rewrite Hinterview in Hgt |].
  intros Hheads Hsc Hsc'. rewrite <- ind_columns_ind in Hsc'.
  assert (Hin : "sequence" ∈ selected.1) by by apply sequence_selected.
  specialize (Hhead Hheads Hin). by rewrite (Hsequence (conj Hsc Hsc')) in Hhead.
Qed.

Lemma elem_of_rows_merge_family y ind_columns ind_year fam fam_interview_col row :
  row ∈ rows (merge_family y family_vars ind_columns ind_year fam fam_interview_col) ->
  year row = y /\ exists p, p ∈ ind_year /\ person_id row = py_person_id p.
Proof.
  unfold merge_family, merge_year. cbn [rows].
  intros (p & Hp & Hrow)%elem_of_flat_map.
  apply list_elem_of_fmap in Hrow as (family & -> & _).
  split; [reflexivity|]. by exists p.
Qed.

Lemma elem_of_rows_year_frame y merged row :
  year_well_formed y ->
  year_frame y = Some merged -> row ∈ rows merged ->
  year row = y /\ ~ not_found y /\
  exists p, selected_in_year y p /\
            person_id row =
              resolve_identity (ER30001_bits ind0) (ER30002_bits ind0)
                (ER30001 p) (ER30002 p).
Proof.
  intros Hwf Hframe Hrow.
  assert (Hfound : ~ not_found y).
  { intros Hnot.
    apply (year_frame_None load_family data_dir family_vars heads_only sample ind0)
      in Hnot; [|exact Hwf]. congruence. }
  destruct Hwf as (Hyear & Hcol & _). unfold year_frame in Hframe.
  destruct (load_family y data_dir (family_columns y)) as [fam|]; [|discriminate].
  destruct (fam_columns fam) as [|c cs]; [discriminate|].
  injection Hframe as <-.
  apply elem_of_rows_merge_family in Hrow as (Hrowyear & p & Hp & Hid).
  apply (elem_of_individuals_in_year y p Hyear Hcol) in Hp as (q & Hq & Hpid).
  split_and!; [exact Hrowyear | exact Hfound |]. exists q. split; [exact Hq | congruence].
Qed.

(** The rows [concat] stacks are the rows of the frames, under their
    person and year. *)
Lemma elem_of_rows_concat_frames frames row :
  row ∈ rows (concat_frames frames) ->
  exists frame row0, frame ∈ frames /\ row0 ∈ rows frame /\
    person_id row = person_id row0 /\ year row = year row0.
Proof.
  unfold concat_frames. cbn [rows].
  intros (frame & Hframe & Hrow)%elem_of_flat_map.
  apply list_elem_of_fmap in Hrow as (row0 & -> & Hrow0).
  by exists frame, row0.
Qed.

(** The rows [build_panel] stacks, before any balancing. *)
Lemma elem_of_rows_stacked years_arg row :
  (forall y, y ∈ years_arg -> year_well_formed y) ->
  row ∈ rows (panel_table years_arg false) ->
  year row ∈ years_arg /\ ~ not_found (year row) /\
  exists p, selected_in_year (year row) p /\
            person_id row =
              resolve_identity (ER30001_bits ind0) (ER30002_bits ind0)
                (ER30001 p) (ER30002 p).
Proof.
  intros Hwf. unfold panel_table, drop_columns. cbn [rows].
  intros (row1 & -> & Hrow1)%list_elem_of_fmap.
  apply elem_of_rows_concat_frames in Hrow1
    as (merged & row0 & Hmerged & Hrow0 & Hid & Hyear).
  apply list_elem_of_omap in Hmerged as (y & Hy & Hframe).
  rewrite merge_sort_Permutation in Hy.
  destruct (elem_of_rows_year_frame y merged row0 (Hwf y Hy) Hframe Hrow0)
    as (Hyear0 & Hfound & p & Hp & Hid0).
  unfold with_cells. cbn [year person_id]. rewrite Hyear, Hid, Hyear0.
  split_and!; [exact Hy | exact Hfound |]. by exists p.
Qed.

Lemma elem_of_rows_panel_table years_arg balanced_arg row :
  row ∈ rows (panel_table years_arg balanced_arg) ->
  row ∈ rows (panel_table years_arg false).
Proof.
  destruct balanced_arg; [|done]. unfold panel_table. cbv zeta.
  by intros [Hrow _]%elem_of_rows_balanced_table.
Qed.

(** X21. Whom the panel keeps.  Let the individual file load and have the
    core columns, the sample argument parse, no requested year be 1968, the
    individual file have the interview column of every requested year, the
    family loader raise [FileNotFoundError] only and return frames that have
    a column, and a frame be returned for some requested year.  Then
    [build_panel] returns a panel, every row of which is of a requested
    year whose family file was loaded, and of a person of the individual
    file who is in the sample asked for, has a positive interview number in
    that year and, with [heads_only] and the sequence column of the year in
    the file, has sequence number 1 in that year; the person identifier of
    the row is [ER30001 * 1000 + ER30002] of that person as the integer
    types of the two columns of the file hold it, and that very number when
    it fits them. *)
Theorem build_panel_rows_provenance :
  forall (years_arg : list Z) (balanced_arg : bool) (w : World),
    load_individual data_dir = Ok ind0 ->
    "ER30001" ∈ ind_columns ind0 -> "ER30002" ∈ ind_columns ind0 ->
    _parse_sample_arg sample_arg = Ok sample ->
    (forall y, y ∈ years_arg -> year_well_formed y) ->
    (exists y, y ∈ years_arg /\ ~ not_found y) ->
    exists panel w' table,
      build_panel load_individual load_family data_dir years_arg family_vars
        heads_only balanced_arg sample_arg w = (Ok panel, w') /\
      heap w' !! data panel = Some table /\
      forall row, row ∈ rows table ->
        year row ∈ years_arg /\ ~ not_found (year row) /\
        exists p, selected_in_year (year row) p /\
          person_id row =
            resolve_identity (ER30001_bits ind0) (ER30002_bits ind0)
              (ER30001 p) (ER30002 p) /\
          (16 <= ER30001_bits ind0 -> 8 <= ER30002_bits ind0 ->
           fits (ER30001_bits ind0) (ER30001 p * 1000) ->
           fits (Z.max (ER30001_bits ind0) (ER30002_bits ind0))
                (ER30001 p * 1000 + ER30002 p) ->
           person_id row = ER30001 p * 1000 + ER30002 p).
Proof.
  intros years_arg balanced_arg w Hind Hcore1 Hcore2 Hparse Hwf Hfound.
  destruct (build_panel_table years_arg balanced_arg w Hind Hcore1 Hcore2 Hparse
              Hwf Hfound)
    as (panel & w' & Hrun & _ & Htable).
  exists panel, w', (panel_table years_arg balanced_arg).
  split_and!; [exact Hrun | exact Htable |].
  intros row Hrow.
  apply (elem_of_rows_panel_table _ balanced_arg), elem_of_rows_stacked in Hrow
    as (Hyear & Hnot & p & Hp & Hid); [|exact Hwf].
  split_and!; [exact Hyear | exact Hnot |]. exists p.
  split_and!; [exact Hp | exact Hid |].
  intros H1 H2 Hprod Hsum. rewrite Hid. by apply resolve_identity_fits.
Qed.

(** X22. [balanced=True] asks for every requested year, loaded or not.  Let
    the individual file load and have the core columns, the sample argument
    parse, no requested year be 1968, the individual file have the interview
    column of every requested year, the family loader raise
    [FileNotFoundError] only and return frames that have a column, and a
    frame be returned for some requested year (otherwise [build_panel]
    raises).  If [load_family] raises [FileNotFoundError] for some requested
    year (the year is skipped with a warning), or a year is requested twice,
    the panel [build_panel] returns with [balanced=True] has no row. *)
Theorem build_panel_balanced_needs_every_year :
  forall (years_arg : list Z) (w : World),
    load_individual data_dir = Ok ind0 ->
    "ER30001" ∈ ind_columns ind0 -> "ER30002" ∈ ind_columns ind0 ->
    _parse_sample_arg sample_arg = Ok sample ->
    (forall y, y ∈ years_arg -> year_well_formed y) ->
    (exists y, y ∈ years_arg /\ ~ not_found y) ->
    (exists y, y ∈ years_arg /\ not_found y) \/ ~ NoDup years_arg ->
    exists panel w' table,
      build_panel load_individual load_family data_dir years_arg family_vars
        heads_only true sample_arg w = (Ok panel, w') /\
      heap w' !! data panel = Some table /\ rows table = [].
Proof.
  intros years_arg w Hind Hcore1 Hcore2 Hparse Hwf Hfound Hmissing.
  destruct (build_panel_table years_arg true w Hind Hcore1 Hcore2 Hparse Hwf Hfound)
    as (panel & w' & Hrun & _ & Htable).
  exists panel, w', (panel_table years_arg true).
  split_and!; [exact Hrun | exact Htable |].
  assert (Hne : years_arg <> []).
  { destruct Hfound as (y & Hy & _). intros ->. by apply elem_of_nil in Hy. }
  unfold panel_table. cbv zeta.
  assert (Heff : forall df, effective_years (Some years_arg) df = years_arg)
    by (intros df; by destruct years_arg).
  rewrite Heff.
  destruct Hmissing as [(y0 & Hy0 & Hnot)|Hdup].
  - apply (rows_balanced_table_missing_year _ _ y0 Hy0).
    intros row Hrow Hyear.
    apply (elem_of_rows_stacked years_arg row Hwf) in Hrow as (_ & Hfound' & _).
    apply Hfound'. by rewrite Hyear.
  - by apply rows_balanced_table_repeated.
Qed.

End BuildPanelOutcomeFacts.

(** Without a sequence column the selection of a year has no column
    [sequence], whatever the other columns. *)
Lemma sequence_not_selected ind ic rc :
  bool_decide ("sequence" ∈ (individual_year ind ic "" rc).1) = false.
Proof.
  apply bool_decide_eq_false. unfold individual_year. cbn [fst].
  intros (c & Hc & Hin)%list_elem_of_fmap. unfold friendly_name in Hc.
  destruct (decide (c = rc /\ rc <> "")) as [|Hrel]; [discriminate Hc|].
  destruct (decide (c = "" /\ "" <> "")) as [[_ Hne]|_]; [by destruct Hne|].
  destruct (decide (c = ic)) as [|Hic]; [discriminate Hc|]. subst c.
  unfold year_columns in Hin.
  rewrite (decide_False (P := "" <> "" /\ _)) in Hin by (intros [H _]; by apply H).
  destruct (decide (ic ∈ ind_columns ind)), (decide (rc <> "" /\ _)) as [[Hrc _]|_];
    cbn [app] in Hin;
    repeat (apply elem_of_cons in Hin as [Hin|Hin];
            [first [discriminate Hin | by destruct Hic | by destruct Hrel]|]);
    by apply elem_of_nil in Hin.
Qed.

Lemma process_year_heads_only load_family data_dir family_vars ind all_years year w :
  get_sequence_number_column year = "" ->
  process_year load_family data_dir family_vars true ind all_years year w =
  process_year load_family data_dir family_vars false ind all_years year w.
Proof.
  intros Hseq. unfold process_year. cbv zeta.
  rewrite Hseq, sequence_not_selected, !andb_false_r. reflexivity.
Qed.

(** X23. [heads_only] is without effect on the waves that have no sequence
    number (every year but the odd years 1997 to 2021): when no requested
    year has one, [build_panel] with [heads_only=True] does, prints, returns
    and raises exactly what it does with [heads_only=False], non-heads
    included. *)
Theorem build_panel_heads_only_without_sequence :
  forall load_individual load_family data_dir years_arg family_vars balanced_arg
         sample w,
    (forall y, y ∈ years_arg -> ~ has_sequence_number y) ->
    build_panel load_individual load_family data_dir years_arg family_vars
      true balanced_arg sample w =
    build_panel load_individual load_family data_dir years_arg family_vars
      false balanced_arg sample w.
Proof.
  intros load_individual load_family data_dir years_arg family_vars balanced_arg
         sample w Hnone.
  unfold build_panel. unfold mbind at 1 3, M_bind at 1 3.
  destruct (load_and_filter load_individual data_dir sample w) as [[ind|e] w1];
    [|reflexivity].
  unfold mbind, M_bind.
  rewrite (for_each_ext
             (process_year load_family data_dir family_vars true ind)
             (process_year load_family data_dir family_vars false ind));
    [reflexivity|].
  intros acc y w0 Hy. apply process_year_heads_only, get_sequence_number_column_empty.
  apply Hnone. by rewrite merge_sort_Permutation in Hy.
Qed.

(** The turn of 2019 succeeds; the individual file has no interview column
    for 2023. *)
Lemma build_panel_stops_at_failing_year_witness :
  exists w',
    build_panel example_load_individual example_load_family "data" [2023; 2019]
      None false false ArgNone empty_world
      = (Raise (KeyError "interview_number"), w') /\
    heap w' = heap empty_world /\
    stdout w' = stdout (world_before_years None example_individuals empty_world)
                ++ flat_map (year_lines example_load_family "data" None false None
                               example_individuals) [2019]
                ++ [Processing 2023].
Proof.
  apply (build_panel_stops_at_failing_year
           example_load_individual example_load_family "data" None false ArgNone None
           example_individuals [2023; 2019] false empty_world [2019] 2023 []
           (KeyError "interview_number")).
  - reflexivity.
  - apply example_core_columns.
  - apply example_core_columns.
  - reflexivity.
  - reflexivity.
  - constructor; [|constructor]. apply example_years_well_formed, list_elem_of_here.
  - unfold year_raises. rewrite decide_False.
    + split; [lia | reflexivity].
    + apply (bool_decide_unpack _). by vm_compute.
Defined.

Lemma example_year_found :
  exists y, y ∈ [2019; 2021] /\ ~ not_found example_load_family "data" None y.
Proof.
  exists 2019. split; [apply list_elem_of_here|]. intros [msg Hmsg]. discriminate Hmsg.
Defined.

Lemma build_panel_rows_provenance_witness :
  exists panel w' table,
    build_panel example_load_individual example_load_family "data" [2019; 2021]
      None true false ArgNone empty_world = (Ok panel, w') /\
    heap w' !! data panel = Some table /\
    forall row, row ∈ rows table ->
      year row ∈ [2019; 2021] /\
      ~ not_found example_load_family "data" None (year row) /\
      exists p, selected_in_year true None example_individuals (year row) p /\
        person_id row =
          resolve_identity (ER30001_bits example_individuals)
            (ER30002_bits example_individuals) (ER30001 p) (ER30002 p) /\
        (16 <= ER30001_bits example_individuals ->
         8 <= ER30002_bits example_individuals ->
         fits (ER30001_bits example_individuals) (ER30001 p * 1000) ->
         fits (Z.max (ER30001_bits example_individuals)
                     (ER30002_bits example_individuals))
              (ER30001 p * 1000 + ER30002 p) ->
         person_id row = ER30001 p * 1000 + ER30002 p).
Proof.
  apply (build_panel_rows_provenance
           example_load_individual example_load_family "data" None true ArgNone None
           example_individuals [2019; 2021] false empty_world).
  - reflexivity.
  - apply example_core_columns.
  - apply example_core_columns.
  - reflexivity.
  - apply example_years_well_formed.
  - apply example_year_found.
Defined.

(** The family file of 2021 is missing: balanced over 2019 and 2021, the
    panel is empty. *)
Lemma build_panel_balanced_needs_every_year_witness :
  exists panel w' table,
    build_panel example_load_individual example_load_family "data" [2019; 2021]
      None false true ArgNone empty_world = (Ok panel, w') /\
    heap w' !! data panel = Some table /\ rows table = [].
Proof.
  apply (build_panel_balanced_needs_every_year
           example_load_individual example_load_family "data" None false ArgNone None
           example_individuals [2019; 2021] empty_world).
  - reflexivity.
  - apply example_core_columns.
  - apply example_core_columns.
  - reflexivity.
  - apply example_years_well_formed.
  - apply example_year_found.
  - left. exists 2021. split; [apply list_elem_of_further, list_elem_of_here|].
    by eexists.
Defined.

(** 1995 and 1996 have no sequence number.  The family file of 1995 is
    loaded and both persons of the family are in it, the head and the other
    one: both runs reach the selection of the heads, skip it, and return
    the same panel of two rows. *)
Lemma build_panel_heads_only_without_sequence_witness :
  build_panel example_load_individual example_load_family "data" [1995; 1996]
    None true false ArgNone empty_world =
  build_panel example_load_individual example_load_family "data" [1995; 1996]
    None false false ArgNone empty_world /\
  match build_panel example_load_individual example_load_family "data" [1995; 1996]
          None true false ArgNone empty_world with
  | (Ok panel, w') =>
      (fun table => person_id <$> rows table) <$> heap w' !! data panel
      = Some [1500001; 1500002]
  | (Raise _, _) => False
  end.
Proof.
  split.
  - apply (build_panel_heads_only_without_sequence
             example_load_individual example_load_family "data" [1995; 1996]
             None false ArgNone empty_world).
    intros y Hy [Hrange Hodd].
    apply elem_of_cons in Hy as [->|Hy]; [lia|].
    apply elem_of_cons in Hy as [->|Hy]; [discriminate Hodd | by apply elem_of_nil in Hy].
  - vm_compute. reflexivity.
Defined.

(** ** Finding and loading the files of a year *)

Lemma split_last_dot_app s1 s2 before tail :
  split_last_dot s2 = Some (before, tail) ->
  split_last_dot (s1 +:+ s2) = Some (s1 +:+ before, tail).
Proof.
  intros Hs2. induction s1 as [|c s1 IH]; [exact Hs2|].
  simpl. by rewrite IH.
Qed.

Lemma lower_app s1 s2 : lower (s1 +:+ s2) = lower s1 +:+ lower s2.
Proof. induction s1 as [|c s1 IH]; [reflexivity|]. simpl. by rewrite IH. Qed.

(** The stem and the suffix of a name that ends in a text with a dot. *)
Lemma stem_suffix_app c prefix middle tail before sfx :
  split_last_dot tail = Some (before, sfx) -> sfx <> "." ->
  stem_suffix (String c prefix +:+ middle +:+ tail) =
  (String c prefix +:+ middle +:+ before, sfx).
Proof.
  intros Htail Hsfx.
  change (String c prefix +:+ middle +:+ tail)
    with (String c (prefix +:+ middle +:+ tail)).
  unfold stem_suffix.
  rewrite (split_last_dot_app prefix (middle +:+ tail) (middle +:+ before) sfx)
    by by apply split_last_dot_app.
  by rewrite decide_False.
Qed.

(** The loop of [find_file] returns the first name that exists. *)
Lemma find_pattern_first exists_ data_dir patterns year :
  find_pattern exists_ data_dir patterns year =
  head (filter (fun name => exists_ data_dir name = true)
          (flat_map (fun pattern => [format pattern year; lower (format pattern year)])
             patterns)).
Proof.
  induction patterns as [|pattern rest IH]; [reflexivity|].
  cbn [find_pattern flat_map app]. rewrite !filter_cons.
  destruct (exists_ data_dir (format pattern year)) eqn:E1.
  - by rewrite decide_True.
  - rewrite decide_False by discriminate.
    destruct (exists_ data_dir (lower (format pattern year))) eqn:E2.
    + by rewrite decide_True.
    + rewrite decide_False by discriminate. exact IH.
Qed.

Lemma head_filter_app {A} (P : A -> Prop) `{!forall x, Decision (P x)} (l1 l2 : list A) :
  (exists x, x ∈ l1 /\ P x) ->
  exists x, head (filter P (l1 ++ l2)) = Some x /\ x ∈ l1.
Proof.
  intros (x & Hx & HP). rewrite filter_app.
  assert (Hin : x ∈ filter P l1) by by apply list_elem_of_filter.
  destruct (filter P l1) as [|y l] eqn:E; [by apply elem_of_nil in Hin|].
  exists y. split; [reflexivity|].
  assert (Hy : y ∈ filter P l1) by (rewrite E; apply list_elem_of_here).
  by apply list_elem_of_filter in Hy as [_ Hy].
Qed.

Ltac suffix_of_candidate H :=
  lazymatch goal with
  | |- Path_suffix (format (_, ?tail) _) = ?sfx =>
      let before := eval vm_compute in (default ("", "") (split_last_dot tail)).1 in
      exact (proj1 (H _ _ tail before sfx eq_refl ltac:(discriminate) eq_refl))
  | |- Path_suffix (lower (format (_, ?tail) _)) = ?sfx =>
      let before := eval vm_compute in (default ("", "") (split_last_dot tail)).1 in
      exact (proj2 (H _ _ tail before sfx eq_refl ltac:(discriminate) eq_refl))
  end.

(** The candidates of a file type: those that end in [.dta] come before
    those that end in [.txt], and there are no others. *)
Lemma candidates_split file_type year :
  exists dta txt,
    candidates file_type year = dta ++ txt /\
    Forall (fun name => Path_suffix name = ".dta") dta /\
    Forall (fun name => Path_suffix name = ".txt") txt.
Proof.
  assert (Hsuffix : forall c prefix tail before sfx,
    split_last_dot tail = Some (before, sfx) -> sfx <> "." ->
    split_last_dot (lower tail) = Some (lower before, sfx) ->
    Path_suffix (format (String c prefix, tail) year) = sfx /\
    Path_suffix (lower (format (String c prefix, tail) year)) = sfx).
  { intros c prefix tail before sfx Htail Hsfx Hlower. unfold Path_suffix, format. cbn [fst snd].
    rewrite (stem_suffix_app c prefix (pretty year) tail before sfx Htail Hsfx).
    split; [reflexivity|]. rewrite !lower_app. cbn [lower].
    by rewrite (stem_suffix_app (lower_ascii c) (lower prefix) (lower (pretty year))
                  (lower tail) (lower before) sfx Hlower Hsfx). }
  unfold candidates, FILE_PATTERNS, patterns_get.
  repeat (destruct (decide _) as [_|_]).
  - exists (flat_map (fun pattern => [format pattern year; lower (format pattern year)])
              [("FAM", "ER.dta"); ("fam", "er.dta"); ("F", ".dta"); ("FAM", ".dta")]),
           (flat_map (fun pattern => [format pattern year; lower (format pattern year)])
              [("FAM", "ER.txt"); ("fam", "er.txt")]).
    split; [reflexivity|]. cbn [flat_map app].
    split; repeat constructor; suffix_of_candidate Hsuffix.
  - exists (flat_map (fun pattern => [format pattern year; lower (format pattern year)])
              [("IND", "ER.dta"); ("ind", "er.dta"); ("J", ".dta")]),
           (flat_map (fun pattern => [format pattern year; lower (format pattern year)])
              [("IND", "ER.txt"); ("ind", "er.txt")]).
    split; [reflexivity|]. cbn [flat_map app].
    split; repeat constructor; suffix_of_candidate Hsuffix.
  - exists (flat_map (fun pattern => [format pattern year; lower (format pattern year)])
              [("WLT", "ER.dta"); ("wlt", "er.dta")]),
           (flat_map (fun pattern => [format pattern year; lower (format pattern year)])
              [("WLT", "ER.txt"); ("wlt", "er.txt")]).
    split; [reflexivity|]. cbn [flat_map app].
    split; repeat constructor; suffix_of_candidate Hsuffix.
  - exists [], []. by repeat split.
Qed.

Lemma find_file_found exists_ data_dir file_type year name :
  find_file exists_ data_dir file_type year = Some name ->
  exists_ data_dir name = true /\ (Path_suffix name = ".dta" \/ Path_suffix name = ".txt").
Proof.
  intros Hname. unfold find_file in Hname. rewrite find_pattern_first in Hname.
  fold (candidates file_type year) in Hname.
  destruct (candidates_split file_type year) as (dta & txt & Hsplit & Hdta & Htxt).
  rewrite Forall_forall in Hdta, Htxt.
  destruct (filter _ _) as [|first rest] eqn:E; [discriminate|].
  injection Hname as ->.
  assert (Hin : name ∈ filter (fun name => exists_ data_dir name = true)
                  (candidates file_type year))
    by (rewrite E; apply list_elem_of_here).
  apply list_elem_of_filter in Hin as [Hexists Hin]. split; [exact Hexists|].
  rewrite Hsplit, elem_of_app in Hin. destruct Hin as [Hin|Hin]; [left|right]; auto.
Qed.

(** X24. [find_file] returns the first name that exists among the names it
    tries (every pattern of the file type as written, then in lower case),
    [None] when none exists or the file type is not one of the three
    tabulated; every name it returns ends in [.dta] or [.txt], and a
    [.dta] file is preferred to any [.txt] file: if a candidate ending in
    [.dta] exists, the file found ends in [.dta]. *)
Theorem find_file_prefers_dta :
  forall (exists_ : string -> string -> bool) data_dir file_type year,
    find_file exists_ data_dir file_type year =
      head (filter (fun name => exists_ data_dir name = true)
              (candidates file_type year)) /\
    (file_type ∉ ["family"; "individual"; "wealth"] ->
     find_file exists_ data_dir file_type year = None) /\
    (forall name, find_file exists_ data_dir file_type year = Some name ->
       exists_ data_dir name = true /\
       (Path_suffix name = ".dta" \/ Path_suffix name = ".txt")) /\
    ((exists name, name ∈ candidates file_type year /\
                   exists_ data_dir name = true /\ Path_suffix name = ".dta") ->
     exists name, find_file exists_ data_dir file_type year = Some name /\
                  Path_suffix name = ".dta").
Proof.
  intros exists_ data_dir file_type year.
  assert (Hfirst : find_file exists_ data_dir file_type year =
            head (filter (fun name => exists_ data_dir name = true)
                    (candidates file_type year)))
    by apply find_pattern_first.
  destruct (candidates_split file_type year) as (dta & txt & Hsplit & Hdta & Htxt).
  rewrite Forall_forall in Hdta, Htxt.
  split_and!; [exact Hfirst | | |].
  - intros Hunknown. unfold find_file, FILE_PATTERNS, patterns_get.
    rewrite !elem_of_cons, elem_of_nil in Hunknown.
    repeat (destruct (decide _) as [<-|?]; [tauto|]). reflexivity.
  - apply find_file_found.
  - intros (name & Hin & Hexists & Hsuffix). rewrite Hfirst, Hsplit.
    destruct (head_filter_app (fun name => exists_ data_dir name = true) dta txt)
      as (found & Hfound & Hin').
    + exists name. split; [|exact Hexists].
      rewrite Hsplit, elem_of_app in Hin. destruct Hin as [Hin|Hin]; [exact Hin|].
      apply Htxt in Hin. congruence.
    + exists found. split; [exact Hfound | by apply Hdta].
Qed.

Section LoadFacts.

Variable exists_ : string -> string -> bool.
Variable shown : string -> string -> string.
Variable read_stata : string -> string -> option (list string) -> result FamilyFile.
Variable read_parquet : string -> string -> option (list string) -> result FamilyFile.
Variable load_fixed_width :
  string -> string -> string -> option (list string) -> result FamilyFile.

Local Abbreviation find_file := (find_file exists_).
Local Abbreviation load_family :=
  (load_family exists_ shown read_stata read_parquet load_fixed_width).
Local Abbreviation load_wealth := (load_wealth exists_ read_stata read_parquet).

(** What [load_family] does with the file found, the tests on the suffix
    being resolved. *)
Lemma load_family_found year data_dir columns name :
  find_file data_dir "family" year = Some name ->
  load_family year data_dir columns =
  match
    (if decide (Path_suffix name = ".dta") then read_stata data_dir name columns
     else if exists_ data_dir (with_suffix name ".do")
          then load_fixed_width data_dir name (with_suffix name ".do") columns
          else Raise (FileNotFoundError
                        ("Dictionary file " +:+ shown data_dir (with_suffix name ".do")
                         +:+ " not found. PSID text files require the corresponding .do file.")))
  with
  | Ok df => Ok (with_year year df)
  | Raise e => Raise e
  end.
Proof.
  intros Hfound. unfold load_family. rewrite Hfound. cbv zeta.
  destruct (find_file_found exists_ data_dir "family" year name Hfound)
    as [_ [Hsfx|Hsfx]]; rewrite Hsfx; reflexivity.
Qed.

Lemma load_wealth_found year data_dir columns name :
  find_file data_dir "wealth" year = Some name ->
  load_wealth year data_dir columns =
  if decide (Path_suffix name = ".dta") then
    match read_stata data_dir name columns with
    | Ok df => Ok (with_year year df)
    | Raise e => Raise e
    end
  else Raise (ValueError "Unsupported file format: .txt").
Proof.
  intros Hfound. unfold load_wealth. rewrite Hfound. cbv zeta.
  destruct (find_file_found exists_ data_dir "wealth" year name Hfound)
    as [_ [Hsfx|Hsfx]]; rewrite Hsfx; reflexivity.
Qed.

End LoadFacts.

(** X25. The [.parquet] branch and the [Unsupported file format] error of
    [load_family] are never reached, every family file found ending in
    [.dta] or [.txt]: the outcome does not depend on the parquet reader, and
    a [ValueError] of [load_family] is a [ValueError] of the Stata reader or
    of [load_fixed_width]. *)
Theorem load_family_never_reads_parquet :
  forall exists_ shown read_stata read_parquet load_fixed_width year data_dir columns,
    (forall read_parquet',
        load_family exists_ shown read_stata read_parquet' load_fixed_width
          year data_dir columns =
        load_family exists_ shown read_stata read_parquet load_fixed_width
          year data_dir columns) /\
    (forall msg,
        load_family exists_ shown read_stata read_parquet load_fixed_width
          year data_dir columns = Raise (ValueError msg) ->
        (exists name, read_stata data_dir name columns = Raise (ValueError msg)) \/
        (exists name do_file,
            load_fixed_width data_dir name do_file columns = Raise (ValueError msg))).
Proof.
  intros exists_ shown read_stata read_parquet load_fixed_width year data_dir columns.
  destruct (find_file exists_ data_dir "family" year) as [name|] eqn:Hfound.
  - split.
    + intros read_parquet'. by rewrite !(load_family_found _ _ _ _ _ _ _ _ name Hfound).
    + intros msg. rewrite (load_family_found _ _ _ _ _ _ _ _ name Hfound).
      destruct (decide (Path_suffix name = ".dta")).
      * destruct (read_stata data_dir name columns) eqn:E; [discriminate|].
        intros [= ->]. left. by exists name.
      * destruct (exists_ data_dir (with_suffix name ".do")); [|discriminate].
        destruct (load_fixed_width data_dir name _ columns) eqn:E; [discriminate|].
        intros [= ->]. right. by eexists _, _.
  - unfold load_family. rewrite Hfound. split; [reflexivity | discriminate].
Qed.

(** X26. Wealth files in text format are found but cannot be loaded: when
    the first wealth file [find_file] finds ends in [.txt] (no [.dta]
    candidate exists, a [.txt] candidate does), [load_wealth] raises
    [ValueError("Unsupported file format: .txt")], whatever the readers. *)
Theorem load_wealth_text_file_unsupported :
  forall exists_ read_stata read_parquet year data_dir columns,
    (forall name, name ∈ candidates "wealth" year -> Path_suffix name = ".dta" ->
                  exists_ data_dir name = false) ->
    (exists name, name ∈ candidates "wealth" year /\ exists_ data_dir name = true) ->
    load_wealth exists_ read_stata read_parquet year data_dir columns =
    Raise (ValueError "Unsupported file format: .txt").
Proof.
  intros exists_ read_stata read_parquet year data_dir columns Hdta (name & Hin & Hname).
  destruct (find_file exists_ data_dir "wealth" year) as [found|] eqn:Hfound.
  - rewrite (load_wealth_found _ _ _ _ _ _ found Hfound).
    rewrite decide_False; [reflexivity|]. intros Hsfx.
    destruct (find_file_found exists_ data_dir "wealth" year found Hfound) as [Hexists _].
    unfold find_file in Hfound. rewrite find_pattern_first in Hfound.
    fold (candidates "wealth" year) in Hfound.
    destruct (filter _ _) as [|first rest] eqn:E; [discriminate|].
    injection Hfound as ->.
    assert (Hfound : found ∈ filter (fun name => exists_ data_dir name = true)
                       (candidates "wealth" year))
      by (rewrite E; apply list_elem_of_here).
    apply list_elem_of_filter in Hfound as [_ Hfound].
    rewrite (Hdta found Hfound Hsfx) in Hexists. discriminate.
  - unfold find_file in Hfound. rewrite find_pattern_first in Hfound.
    fold (candidates "wealth" year) in Hfound.
    assert (Hname' : name ∈ filter (fun name => exists_ data_dir name = true)
                       (candidates "wealth" year))
      by by apply list_elem_of_filter.
    destruct (filter _ _); [by apply elem_of_nil in Hname' | discriminate].
Qed.

Lemma load_wealth_text_file_unsupported_witness :
  load_wealth example_exists example_read example_read 2019 "data" None =
  Raise (ValueError "Unsupported file format: .txt").
Proof.
  apply (load_wealth_text_file_unsupported example_exists example_read example_read
           2019 "data" None).
  - intros name Hname Hsfx. vm_compute in Hname.
    repeat (apply elem_of_cons in Hname as [->|Hname];
            [first [reflexivity | discriminate Hsfx]|]).
    by apply elem_of_nil in Hname.
  - exists "wlt2019er.txt". split; [|reflexivity].
    apply (bool_decide_unpack _). by vm_compute.
Defined.

(** X27. [load_family] is a loader as [build_panel] is verified for: with
    readers that return a frame for every file, its only error is
    [FileNotFoundError] and its frames have a first column, so that a year
    other than 1968 is well-formed for [build_panel] as soon as the
    individual file has the interview column of the year; and the family
    file of a year is "not
    found" (the year is skipped with a warning) exactly when no candidate
    name exists in the directory, or the file found is a [.txt] file whose
    [.do] dictionary does not exist. *)
Theorem load_family_fits_build_panel :
  forall exists_ shown read_stata read_parquet load_fixed_width
         data_dir family_vars sample ind0 year,
    (forall name columns, exists df, read_stata data_dir name columns = Ok df) ->
    (forall name do_file columns,
        exists df, load_fixed_width data_dir name do_file columns = Ok df) ->
    (year_well_formed
       (load_family exists_ shown read_stata read_parquet load_fixed_width)
       data_dir family_vars sample ind0 year <->
     year <> 1968 /\
     get_interview_number_column year ∈ ind_columns (ind sample ind0)) /\
    (not_found (load_family exists_ shown read_stata read_parquet load_fixed_width)
       data_dir family_vars year <->
     find_file exists_ data_dir "family" year = None \/
     exists name,
       find_file exists_ data_dir "family" year = Some name /\
       Path_suffix name = ".txt" /\ exists_ data_dir (with_suffix name ".do") = false).
Proof.
  intros exists_ shown read_stata read_parquet load_fixed_width
         data_dir family_vars sample ind0 year Hstata Hfixed.
  set (loader := load_family exists_ shown read_stata read_parquet load_fixed_width).
  set (columns := family_columns family_vars year).
  assert (Hcases :
    (exists msg, loader year data_dir columns = Raise (FileNotFoundError msg) /\
       (find_file exists_ data_dir "family" year = None \/
        exists name,
          find_file exists_ data_dir "family" year = Some name /\
          Path_suffix name = ".txt" /\ exists_ data_dir (with_suffix name ".do") = false)) \/
    (exists df name, loader year data_dir columns = Ok (with_year year df) /\
       find_file exists_ data_dir "family" year = Some name /\
       (Path_suffix name = ".txt" -> exists_ data_dir (with_suffix name ".do") = true))).
  { subst loader.
    destruct (find_file exists_ data_dir "family" year) as [name|] eqn:Hfound.
    - rewrite (load_family_found _ _ _ _ _ _ _ _ name Hfound).
      destruct (find_file_found exists_ data_dir "family" year name Hfound)
        as [_ Hsfx].
      destruct (decide (Path_suffix name = ".dta")) as [Hdta|Hdta].
      + destruct (Hstata name columns) as [df ->]. right. exists df, name.
        split_and!; [reflexivity.. |]. intros Htxt. congruence.
      + destruct (exists_ data_dir (with_suffix name ".do")) eqn:Hdo.
        * destruct (Hfixed name (with_suffix name ".do") columns) as [df ->].
          right. exists df, name. by split_and!.
        * left. eexists. split; [reflexivity|]. right. exists name.
          split_and!; [reflexivity | tauto | exact Hdo].
    - left. unfold load_family. rewrite Hfound. eexists. split; [reflexivity|]. by left. }
  unfold year_well_formed, not_found. fold columns.
  destruct Hcases as [(msg & Hload & Hwhy)|(df & name & Hload & Hfound & Hdo)];
    rewrite Hload.
  - split.
    + split; [tauto|]. intros [Hyear Hcol].
      split_and!; [exact Hyear | exact Hcol | | discriminate].
      intros e [= <-]. by exists msg.
    + split; [intros _; exact Hwhy | intros _; by exists msg].
  - split.
    + split; [tauto|]. intros [Hyear Hcol].
      split_and!; [exact Hyear | exact Hcol | discriminate |].
      intros fam [= <-]. unfold with_year. cbn [fam_columns].
      intros Hnil. apply app_eq_nil in Hnil as [_ Hnil]. discriminate.
    + split; [intros [msg Hmsg]; discriminate|].
      intros [Hnone|(name' & Hfound' & Htxt & Hdo')]; [congruence|].
      rewrite Hfound in Hfound'. injection Hfound' as <-.
      rewrite (Hdo Htxt) in Hdo'. discriminate.
Qed.

Lemma load_family_fits_build_panel_witness :
  (year_well_formed
     (load_family example_exists example_shown example_read example_read
        example_load_fixed_width)
     "data" None None example_individuals 2017 <->
   2017 <> 1968 /\
   get_interview_number_column 2017 ∈ ind_columns (ind None example_individuals)) /\
  (not_found (load_family example_exists example_shown example_read example_read
                example_load_fixed_width)
     "data" None 2017 <->
   find_file example_exists "data" "family" 2017 = None \/
   exists name,
     find_file example_exists "data" "family" 2017 = Some name /\
     Path_suffix name = ".txt" /\ example_exists "data" (with_suffix name ".do") = false).
Proof.
  apply (load_family_fits_build_panel example_exists example_shown example_read
           example_read example_load_fixed_width "data" None None
           example_individuals 2017).
  - intros name columns. by eexists.
  - intros name do_file columns. by eexists.
Defined.



(** ** The columns of a wave in the individual file *)

(** X29. The individual file has a sequence number and a relationship to
    head for the odd years 1997 to 2021 and for no other year: exactly for
    these [get_sequence_number_column] and [get_relationship_column] name a
    column (elsewhere both are the empty string, which [build_panel] takes
    for "no such column"), and the two columns and the interview column of
    such a year are three different columns. *)
Theorem sequence_and_relationship_columns :
  forall year,
    (get_sequence_number_column year <> "" <-> has_sequence_number year) /\
    (get_relationship_column year <> "" <-> has_sequence_number year) /\
    (has_sequence_number year ->
     get_sequence_number_column year <> get_interview_number_column year /\
     get_relationship_column year <> get_interview_number_column year /\
     get_relationship_column year <> get_sequence_number_column year).
Proof.
  intros year.
  assert (Hcases : has_sequence_number year ->
    get_sequence_number_column year <> "" /\ get_relationship_column year <> "" /\
    get_sequence_number_column year <> get_interview_number_column year /\
    get_relationship_column year <> get_interview_number_column year /\
    get_relationship_column year <> get_sequence_number_column year).
  { intros Hyear%has_sequence_number_cases.
    repeat (apply elem_of_cons in Hyear as [->|Hyear]; [by repeat split|]).
    by apply elem_of_nil in Hyear. }
  split_and!.
  - split; [|intros H; by apply Hcases].
    intros Hcol. destruct (decide (has_sequence_number year)) as [|Hnone]; [done|].
    by apply get_sequence_number_column_empty in Hnone.
  - split; [|intros H; by apply Hcases].
    intros Hcol. destruct (decide (has_sequence_number year)) as [|Hnone]; [done|].
    by apply get_relationship_column_empty in Hnone.
  - intros H. by apply Hcases.
Qed.

Lemma tabulated_waves_distinct_columns :
  Forall (fun y1 =>
    Forall (fun y2 =>
      get_interview_number_column y1 = get_interview_number_column y2 -> y1 = y2)
      tabulated_waves) tabulated_waves.
Proof. apply (bool_decide_unpack _). vm_compute. reflexivity. Qed.

(** X30. Different waves read different columns: on the waves it tabulates
    (1968 to 1997 and the odd years to 2021), [get_interview_number_column]
    is injective.  Any other year gets a made-up name instead of an error,
    and the made-up name can be the column of a tabulated wave: 1998 is
    given [ER33001], the column of 2001. *)
Theorem interview_number_column_injective_on_waves :
  (forall y, y ∈ tabulated_waves <->
             1968 <= y <= 1997 \/ (1999 <= y <= 2021 /\ Z.odd y = true)) /\
  (forall y1 y2, y1 ∈ tabulated_waves -> y2 ∈ tabulated_waves ->
     get_interview_number_column y1 = get_interview_number_column y2 -> y1 = y2) /\
  (forall y, y ∉ tabulated_waves ->
     get_interview_number_column y = "ER" +:+ pretty (30000 + (y - 1968) * 100 + 1)) /\
  get_interview_number_column 1998 = get_interview_number_column 2001.
Proof.
  split_and!.
  - intros y. unfold tabulated_waves, interview_cols. cbn [fmap list_fmap fst].
    rewrite !elem_of_cons, elem_of_nil. split.
    + intros Hy. repeat (destruct Hy as [->|Hy]; [first [left; lia | right; split; [lia | reflexivity]]|]).
      done.
    + intros [Hrange|[Hrange Hodd]]; [lia|].
      apply Z.odd_spec in Hodd as [k ->]. lia.
  - intros y1 y2 Hy1 Hy2.
    pose proof tabulated_waves_distinct_columns as Hall.
    rewrite Forall_forall in Hall. specialize (Hall y1 Hy1).
    rewrite Forall_forall in Hall. by apply Hall.
  - intros y Hy. unfold get_interview_number_column.
    assert (Hnone : dict_get interview_cols y = None); [|by rewrite Hnone].
    unfold tabulated_waves in Hy. revert Hy. generalize interview_cols.
    intros d. induction d as [|[k v] d IH]; intros Hy; [reflexivity|].
    rewrite fmap_cons, not_elem_of_cons in Hy. destruct Hy as [Hk Hy].
    simpl in *. rewrite decide_False by congruence. by apply IH.
  - reflexivity.
Qed.
